(** * PostNord event tracker: a shallow embedding and its verified properties

    The definitions follow the layout of the TypeScript sources:

    - [Char], [Js], [JSON]  the pieces of the JavaScript runtime the code
                   calls (truthiness, [parseInt], [Buffer] base64, [JSON]);
    - [RegExp]     the regular-expression fragment used by the patterns;
    - [Models]     [src/models] (status enum, event record, limits, patterns);
    - [Host]       what an invocation gets from outside ([Date], zod's
                   [datetime], [uuidv4], the clock, failures of the store);
    - [Validators] [src/validators] (format, timestamp and schemas);
    - [Dynamo]     the DynamoDB table the service talks to;
    - [Run]        the state of an invocation and exceptions;
    - [Service]    [src/services/aws.dynamo.service.ts];
    - [Response]   [src/utils/response.ts];
    - [Api]        the three Lambda handlers;
    - [IsoHost], [Spec], [Sample]  a concrete host, the wording of the
                   specification, and concrete requests and tables.

    The theorems come after the definitions, one module per subject.

    JavaScript strings are represented by their UTF-8 encoding, as Rocq
    [string]s (sequences of bytes). *)

From Stdlib Require Import String Ascii List Bool Arith NArith ZArith Lia DecimalString.
From Stdlib Require Import Sorted Permutation.
Import ListNotations.
Local Open Scope string_scope.
Local Open Scope list_scope.

(* ===================================================================== *)
(** * Characters *)
(* ===================================================================== *)

Module Char.

Definition code (c : ascii) : N := N_of_ascii c.

Definition in_range (lo hi c : ascii) : bool :=
  ((code lo <=? code c)%N && (code c <=? code hi)%N)%bool.

Definition is_upper (c : ascii) : bool := in_range "A"%char "Z"%char c.
Definition is_lower (c : ascii) : bool := in_range "a"%char "z"%char c.
Definition is_digit (c : ascii) : bool := in_range "0"%char "9"%char c.
Definition is_alnum (c : ascii) : bool := is_upper c || is_lower c || is_digit c.

(** ASCII [toUpperCase]; bytes outside [a-z] are left alone. *)
Definition to_upper (c : ascii) : ascii :=
  if is_lower c then ascii_of_N (code c - 32) else c.

(** A letter of either case, a digit, a hyphen or an underscore. *)
Definition is_word (c : ascii) : bool :=
  is_alnum c || Ascii.eqb c "-" || Ascii.eqb c "_".

(** Every byte, in increasing order. *)
Definition all : list ascii := map ascii_of_nat (seq 0 256).

End Char.

(* ===================================================================== *)
(** * The JavaScript runtime, as far as the code uses it *)
(* ===================================================================== *)

Module Js.

Definition bytes (s : string) : list ascii := list_ascii_of_string s.
Definition str (l : list ascii) : string := string_of_list_ascii l.

(** Truthiness of a value of type [string | undefined]: [undefined] and
    the empty string are falsy. *)
Definition truthy (v : option string) : bool :=
  match v with
  | Some s => negb (s =? "")
  | None => false
  end.

(** [a || b] where [a : string | undefined] and [b : string]. *)
Definition or_else (a : option string) (b : string) : string :=
  match a with
  | Some s => if s =? "" then b else s
  | None => b
  end.

(** [s.length]: the number of UTF-16 code units of the string whose UTF-8
    encoding is [s].  Continuation bytes [10xxxxxx] add nothing, a
    four-byte lead [11110xxx] stands for a surrogate pair. *)
Definition units_of_byte (c : ascii) : nat :=
  let n := Char.code c in
  if (n <? 128)%N then 1
  else if (n <? 192)%N then 0
  else if (n <? 240)%N then 1
  else 2.

Definition length (s : string) : nat :=
  fold_right (fun c acc => units_of_byte c + acc) 0 (bytes s).

(** ** [parseInt(s, 10)] *)

(** [StrWhiteSpaceChar], as UTF-8 byte sequences: TAB, LF, VT, FF, CR, SP,
    NBSP, U+1680, U+2000..U+200A, U+2028, U+2029, U+202F, U+205F, U+3000
    and U+FEFF. *)
Definition WHITESPACE : list (list N) :=
 ([[9]; [10]; [11]; [12]; [13]; [32]; [194; 160]; [225; 154; 128];
   [226; 128; 128]; [226; 128; 129]; [226; 128; 130]; [226; 128; 131];
   [226; 128; 132]; [226; 128; 133]; [226; 128; 134]; [226; 128; 135];
   [226; 128; 136]; [226; 128; 137]; [226; 128; 138]; [226; 128; 168];
   [226; 128; 169]; [226; 128; 175]; [226; 129; 159]; [227; 128; 128];
   [239; 187; 191]])%N.

Fixpoint strip_prefix (p : list N) (s : list ascii) : option (list ascii) :=
  match p, s with
  | [], _ => Some s
  | n :: p', c :: s' => if (Char.code c =? n)%N then strip_prefix p' s' else None
  | _ :: _, [] => None
  end.

Fixpoint strip_any (ps : list (list N)) (s : list ascii) : option (list ascii) :=
  match ps with
  | [] => None
  | p :: ps' =>
      match strip_prefix p s with
      | Some r => Some r
      | None => strip_any ps' s
      end
  end.

Fixpoint trim_start_fuel (fuel : nat) (s : list ascii) : list ascii :=
  match fuel with
  | O => s
  | S f =>
      match strip_any WHITESPACE s with
      | Some r => trim_start_fuel f r
      | None => s
      end
  end.

(** Each removal takes at least one byte away, so [length s] rounds are
    enough. *)
Definition trim_start (s : list ascii) : list ascii :=
  trim_start_fuel (List.length s) s.

Definition digit_value (c : ascii) : Z := Z.of_N (Char.code c) - 48.

(** The longest prefix of decimal digits, read left to right; [seen] tells
    whether at least one digit was consumed. *)
Fixpoint read_digits (acc : Z) (seen : bool) (s : list ascii) : option Z :=
  match s with
  | c :: r =>
      if Char.is_digit c then read_digits (10 * acc + digit_value c) true r
      else if seen then Some acc else None
  | [] => if seen then Some acc else None
  end.

(** [None] is [NaN].  The result of [parseInt] is a double; the model
    keeps the exact integer, which agrees with it on every value below
    2^53 and is on the same side of any smaller bound otherwise. *)
Definition parseInt10 (val : string) : option Z :=
  match trim_start (bytes val) with
  | c :: r =>
      if Ascii.eqb c "-" then option_map Z.opp (read_digits 0 false r)
      else if Ascii.eqb c "+" then read_digits 0 false r
      else read_digits 0 false (c :: r)
  | [] => None
  end.

(** ** [Buffer]: base64 *)

Module Base64.

Definition alphabet : list ascii :=
  bytes "ABCDEFGHIJKLMNOPQRSTUVWXYZabcdefghijklmnopqrstuvwxyz0123456789+/".

Definition enc (v : N) : ascii := nth (N.to_nat v) alphabet "="%char.

(** [buf.toString('base64')]: three bytes give four characters, the
    last group is padded with [=]. *)
Fixpoint encode (bs : list ascii) : list ascii :=
  match bs with
  | [] => []
  | a :: [] =>
      let a := Char.code a in
      [enc (a / 4); enc (a mod 4 * 16); "="%char; "="%char]
  | a :: b :: [] =>
      let a := Char.code a in
      let b := Char.code b in
      [enc (a / 4); enc (a mod 4 * 16 + b / 16); enc (b mod 16 * 4); "="%char]
  | a :: b :: c :: r =>
      let a := Char.code a in
      let b := Char.code b in
      let c := Char.code c in
      enc (a / 4) :: enc (a mod 4 * 16 + b / 16)
        :: enc (b mod 16 * 4 + c / 64) :: enc (c mod 64) :: encode r
  end%N.

(** The value of a base64 character; the decoder of Node accepts the
    URL-safe alphabet as well. *)
Definition unbase64 (c : ascii) : option N :=
  let n := Char.code c in
  (if Char.is_upper c then Some (n - 65)
   else if Char.is_lower c then Some (n - 97 + 26)
   else if Char.is_digit c then Some (n - 48 + 52)
   else if (n =? 43) || (n =? 45) then Some 62
   else if (n =? 47) || (n =? 95) then Some 63
   else None)%N.

(** Characters outside the alphabet are skipped, the first [=] ends the
    input. *)
Fixpoint sextets (s : list ascii) : list N :=
  match s with
  | [] => []
  | c :: r =>
      if Ascii.eqb c "=" then []
      else match unbase64 c with
           | Some v => v :: sextets r
           | None => sextets r
           end
  end.

Definition byte (n : N) : ascii := ascii_of_N (n mod 256).

Fixpoint join (vs : list N) : list ascii :=
  match vs with
  | v1 :: v2 :: v3 :: v4 :: r =>
      byte (v1 * 4 + v2 / 16) :: byte (v2 mod 16 * 16 + v3 / 4)
        :: byte (v3 mod 4 * 64 + v4) :: join r
  | v1 :: v2 :: v3 :: [] =>
      [byte (v1 * 4 + v2 / 16); byte (v2 mod 16 * 16 + v3 / 4)]
  | v1 :: v2 :: [] => [byte (v1 * 4 + v2 / 16)]
  | _ => []
  end%N.

(** [Buffer.from(s, 'base64')] *)
Definition decode (s : list ascii) : list ascii := join (sextets s).

End Base64.

(** [Buffer.from(s).toString('base64')].  A string is its UTF-8 encoding
    here, so [Buffer.from(s)] is the byte sequence itself. *)
Definition to_base64 (s : string) : string := str (Base64.encode (bytes s)).

(** [Buffer.from(s, 'base64').toString()].  Decoding UTF-8 is the identity
    on well-formed text; the replacement of malformed sequences by U+FFFD
    is not modelled. *)
Definition from_base64 (s : string) : string := str (Base64.decode (bytes s)).

End Js.

(* ===================================================================== *)
(** * [JSON.stringify] and [JSON.parse] *)
(* ===================================================================== *)

(** Numbers keep their lexeme (no floating point); an object is the list of
    its members in source order, where a later duplicate of a key shadows
    an earlier one ([get]). *)
Module JSON.
Import Js.

#[warnings="-register-all"] Inductive value :=
| Null
| Bool (b : bool)
| Number (lexeme : string)
| Str (s : string)
| Array (vs : list value)
| Object (ms : list (string * value)).

Definition dquote : ascii := ascii_of_nat 34.
Definition backslash : ascii := ascii_of_nat 92.

Fixpoint get (ms : list (string * value)) (k : string) : option value :=
  match ms with
  | [] => None
  | (k', v) :: r =>
      match get r k with
      | Some w => Some w
      | None => if k' =? k then Some v else None
      end
  end.

(** ** Serialisation *)

Definition hex_digit (n : N) : ascii := nth (N.to_nat n) (bytes "0123456789abcdef") "0"%char.

(** [QuoteJSONString], character by character. *)
Definition quote_char (c : ascii) : list ascii :=
  let n := Char.code c in
  (if n =? 34 then [backslash; dquote]
   else if n =? 92 then [backslash; backslash]
   else if n =? 8 then [backslash; "b"%char]
   else if n =? 12 then [backslash; "f"%char]
   else if n =? 10 then [backslash; "n"%char]
   else if n =? 13 then [backslash; "r"%char]
   else if n =? 9 then [backslash; "t"%char]
   else if n <? 32 then
     [backslash; "u"%char; "0"%char; "0"%char; hex_digit (n / 16); hex_digit (n mod 16)]
   else [c])%N.

Definition quote (s : string) : list ascii :=
  dquote :: flat_map quote_char (bytes s) ++ [dquote].

Fixpoint write (v : value) : list ascii :=
  match v with
  | Null => bytes "null"
  | Bool true => bytes "true"
  | Bool false => bytes "false"
  | Number l => bytes l
  | Str s => quote s
  | Array vs =>
      "["%char ::
      (fix elements (l : list value) : list ascii :=
         match l with
         | [] => []
         | [x] => write x
         | x :: r => write x ++ ","%char :: elements r
         end) vs ++ ["]"%char]
  | Object ms =>
      "{"%char ::
      (fix members (l : list (string * value)) : list ascii :=
         match l with
         | [] => []
         | [(k, x)] => quote k ++ ":"%char :: write x
         | (k, x) :: r => quote k ++ ":"%char :: write x ++ ","%char :: members r
         end) ms ++ ["}"%char]
  end.

Definition stringify (v : value) : string := str (write v).

(** ** Parsing *)

Definition is_ws (c : ascii) : bool :=
  let n := Char.code c in
  ((n =? 32) || (n =? 9) || (n =? 10) || (n =? 13))%N.

Fixpoint skip_ws (s : list ascii) : list ascii :=
  match s with
  | c :: r => if is_ws c then skip_ws r else s
  | [] => []
  end.

Definition eat (c : ascii) (s : list ascii) : option (list ascii) :=
  match s with
  | x :: r => if Ascii.eqb x c then Some r else None
  | [] => None
  end.

Definition hex_value (c : ascii) : option N :=
  let n := Char.code c in
  (if Char.is_digit c then Some (n - 48)
   else if Char.in_range "a"%char "f"%char c then Some (n - 87)
   else if Char.in_range "A"%char "F"%char c then Some (n - 55)
   else None)%N.

Definition hex4 (a b c d : ascii) : option N :=
  match hex_value a, hex_value b, hex_value c, hex_value d with
  | Some x, Some y, Some z, Some w => Some (((x * 16 + y) * 16 + z) * 16 + w)%N
  | _, _, _, _ => None
  end.

(** The UTF-8 bytes of a code unit given by a [\u] escape (a surrogate is
    kept as a three-byte sequence of its own). *)
Definition utf8 (cp : N) : list ascii :=
  (if cp <? 128 then [ascii_of_N cp]
   else if cp <? 2048 then
     [ascii_of_N (192 + cp / 64); ascii_of_N (128 + cp mod 64)]
   else
     [ascii_of_N (224 + cp / 4096); ascii_of_N (128 + cp / 64 mod 64);
      ascii_of_N (128 + cp mod 64)])%N.

Definition simple_escape (e : ascii) : option ascii :=
  let n := Char.code e in
  (if n =? 34 then Some dquote
   else if n =? 92 then Some backslash
   else if n =? 47 then Some "/"%char
   else if n =? 98 then Some (ascii_of_N 8)
   else if n =? 102 then Some (ascii_of_N 12)
   else if n =? 110 then Some (ascii_of_N 10)
   else if n =? 114 then Some (ascii_of_N 13)
   else if n =? 116 then Some (ascii_of_N 9)
   else None)%N.

Definition and_then {A} (pre : list ascii) (r : option (list ascii * A))
  : option (list ascii * A) :=
  match r with
  | Some (cs, rest) => Some (pre ++ cs, rest)
  | None => None
  end.

(** The characters of a string literal after its opening quote, up to
    and including the closing one. *)
Fixpoint read_chars (s : list ascii) : option (list ascii * list ascii) :=
  match s with
  | [] => None
  | c :: r =>
      if Ascii.eqb c dquote then Some ([], r)
      else if Ascii.eqb c backslash then
        match r with
        | e :: r' =>
            match simple_escape e with
            | Some x => and_then [x] (read_chars r')
            | None =>
                if Ascii.eqb e "u" then
                  match r' with
                  | h1 :: h2 :: h3 :: h4 :: r'' =>
                      match hex4 h1 h2 h3 h4 with
                      | Some cp => and_then (utf8 cp) (read_chars r'')
                      | None => None
                      end
                  | _ => None
                  end
                else None
            end
        | [] => None
        end
      else if (Char.code c <? 32)%N then None
      else and_then [c] (read_chars r)
  end.

Fixpoint span (p : ascii -> bool) (s : list ascii) : list ascii * list ascii :=
  match s with
  | c :: r => if p c then let (a, b) := span p r in (c :: a, b) else ([], s)
  | [] => ([], [])
  end.

(** A number lexeme: an optional minus sign, then either a single zero or
    a non-zero digit with more digits, an optional fraction (a dot and at
    least one digit) and an optional exponent ([e] or [E], an optional
    sign, at least one digit). *)
Definition read_number (s : list ascii) : option (list ascii * list ascii) :=
  let (sign, s0) :=
    match s with
    | c :: r => if Ascii.eqb c "-" then ([c], r) else ([], s)
    | [] => ([], s)
    end in
  let int :=
    match s0 with
    | c :: r =>
        if Ascii.eqb c "0" then Some ([c], r)
        else if Char.is_digit c then Some (span Char.is_digit s0)
        else None
    | [] => None
    end in
  match int with
  | None => None
  | Some (ds, s1) =>
      let frac :=
        match s1 with
        | c :: r =>
            if Ascii.eqb c "." then
              match span Char.is_digit r with
              | ([], _) => None
              | (fs, s2) => Some (c :: fs, s2)
              end
            else Some ([], s1)
        | [] => Some ([], s1)
        end in
      match frac with
      | None => None
      | Some (fs, s2) =>
          let exp :=
            match s2 with
            | c :: r =>
                if Ascii.eqb c "e" || Ascii.eqb c "E" then
                  let (sg, r1) :=
                    match r with
                    | d :: r' =>
                        if Ascii.eqb d "+" || Ascii.eqb d "-" then ([d], r') else ([], r)
                    | [] => ([], r)
                    end in
                  match span Char.is_digit r1 with
                  | ([], _) => None
                  | (es, s3) => Some (c :: sg ++ es, s3)
                  end
                else Some ([], s2)
            | [] => Some ([], s2)
            end in
          match exp with
          | None => None
          | Some (es, s3) => Some (sign ++ ds ++ fs ++ es, s3)
          end
      end
  end.

Definition keyword (w : string) (v : value) (s : list ascii)
  : option (value * list ascii) :=
  match strip_prefix (map Char.code (bytes w)) s with
  | Some r => Some (v, r)
  | None => None
  end.

(** Recursive descent.  A value that opens an array or an object takes its
    bracket before reading what is inside, and a list of elements or members
    takes a value and a separator before reading on, so twice the length of
    the text bounds the depth of the calls. *)
Fixpoint read_value (fuel : nat) (s : list ascii) : option (value * list ascii) :=
  match fuel with
  | O => None
  | S f =>
      match skip_ws s with
      | [] => None
      | c :: r =>
          if Ascii.eqb c dquote then
            match read_chars r with
            | Some (cs, r') => Some (Str (str cs), r')
            | None => None
            end
          else if Ascii.eqb c "[" then
            match eat "]" (skip_ws r) with
            | Some r' => Some (Array [], r')
            | None =>
                match read_elements f r with
                | Some (vs, r') => Some (Array vs, r')
                | None => None
                end
            end
          else if Ascii.eqb c "{" then
            match eat "}" (skip_ws r) with
            | Some r' => Some (Object [], r')
            | None =>
                match read_members f r with
                | Some (ms, r') => Some (Object ms, r')
                | None => None
                end
            end
          else if Ascii.eqb c "n" then keyword "null" Null (c :: r)
          else if Ascii.eqb c "t" then keyword "true" (Bool true) (c :: r)
          else if Ascii.eqb c "f" then keyword "false" (Bool false) (c :: r)
          else
            match read_number (c :: r) with
            | Some (l, r') => Some (Number (str l), r')
            | None => None
            end
      end
  end

with read_elements (fuel : nat) (s : list ascii) : option (list value * list ascii) :=
  match fuel with
  | O => None
  | S f =>
      match read_value f s with
      | Some (v, r) =>
          match skip_ws r with
          | c :: r' =>
              if Ascii.eqb c "," then
                match read_elements f r' with
                | Some (vs, r'') => Some (v :: vs, r'')
                | None => None
                end
              else if Ascii.eqb c "]" then Some ([v], r')
              else None
          | [] => None
          end
      | None => None
      end
  end

with read_members (fuel : nat) (s : list ascii)
  : option (list (string * value) * list ascii) :=
  match fuel with
  | O => None
  | S f =>
      match eat dquote (skip_ws s) with
      | Some r0 =>
          match read_chars r0 with
          | Some (k, r1) =>
              match eat ":" (skip_ws r1) with
              | Some r2 =>
                  match read_value f r2 with
                  | Some (v, r3) =>
                      match skip_ws r3 with
                      | c :: r4 =>
                          if Ascii.eqb c "," then
                            match read_members f r4 with
                            | Some (ms, r5) => Some ((str k, v) :: ms, r5)
                            | None => None
                            end
                          else if Ascii.eqb c "}" then Some ([(str k, v)], r4)
                          else None
                      | [] => None
                      end
                  | None => None
                  end
              | None => None
              end
          | None => None
          end
      | None => None
      end
  end.

(** [JSON.parse]; [None] is a [SyntaxError]. *)
Definition parse (text : string) : option value :=
  let s := bytes text in
  match read_value (2 * List.length s + 2) s with
  | Some (v, r) => match skip_ws r with [] => Some v | _ => None end
  | None => None
  end.

(** A number is zero when its mantissa has no digit other than [0]
    (underflow to zero is not modelled). *)
Definition number_is_zero (l : string) : bool :=
  forallb (fun c => negb (Char.in_range "1"%char "9"%char c))
          (fst (span (fun c => negb (Ascii.eqb c "e" || Ascii.eqb c "E")) (bytes l))).

(** Truthiness of a parsed value. *)
Definition truthy (v : value) : bool :=
  match v with
  | Null => false
  | Bool b => b
  | Number l => negb (number_is_zero l)
  | Str s => negb (s =? "")
  | Array _ | Object _ => true
  end.

End JSON.

(* ===================================================================== *)
(** * Regular expressions (the fragment the patterns use) *)
(* ===================================================================== *)

(** Each of the patterns in [SHIPMENT_ID_PATTERNS] is anchored on both sides
    ([^ ... $], no [m] flag) and is a sequence of character classes, each
    with a counted quantifier [{lo,hi}]; a literal character is a
    one-character class with [{1,1}]. *)
Module RegExp.

(** A character class is a union of inclusive ranges: [[A-Z0-9-_]] is
    [[("A","Z"); ("0","9"); ("-","-"); ("_","_")]]. *)
Definition class := list (ascii * ascii).

Record piece := Piece { cls : class; lo : nat; hi : nat }.

Record t := Make { pieces : list piece; ignoreCase : bool }.

Definition class_mem (k : class) (c : ascii) : bool :=
  existsb (fun r => Char.in_range (fst r) (snd r) c) k.

(** ECMAScript [Canonicalize] without the [u] flag: upper-casing, which a
    non-ASCII code unit never maps into ASCII. *)
Definition canonicalize (i : bool) (c : ascii) : ascii :=
  if i then Char.to_upper c else c.

(** [CharacterSetMatcher]: the input character matches when some member
    of the class has the same canonical form. *)
Definition class_match (i : bool) (k : class) (c : ascii) : bool :=
  existsb (fun m => class_mem k m
                    && Ascii.eqb (canonicalize i m) (canonicalize i c))
          Char.all.

(** Backtracking matcher for one quantified class followed by the
    continuation [k]: greedy, one more character first, then give up the
    repetition if the lower bound is met. *)
Fixpoint rep (k : list ascii -> bool) (p : ascii -> bool) (lo hi : nat)
         (s : list ascii) {struct hi} : bool :=
  match hi with
  | O => (lo =? 0)%nat && k s
  | S hi' =>
      match s with
      | c :: s' => p c && rep k p (pred lo) hi' s'
      | [] => false
      end
      || ((lo =? 0)%nat && k s)
  end.

Fixpoint match_pieces (i : bool) (ps : list piece) (s : list ascii) : bool :=
  match ps with
  | [] => match s with [] => true | _ => false end
  | p :: ps' => rep (match_pieces i ps') (class_match i (cls p)) (lo p) (hi p) s
  end.

(** [RegExp.prototype.test] for a pattern without the [g] flag. *)
Definition test (r : t) (s : string) : bool :=
  match_pieces (ignoreCase r) (pieces r) (list_ascii_of_string s).

Definition lit (c : ascii) : piece := Piece [(c, c)] 1 1.
Definition digit : class := [("0", "9")]%char.

End RegExp.

(* ===================================================================== *)
(** * src/models *)
(* ===================================================================== *)

Module Models.

Inductive ShipmentStatus :=
| CREATED | PICKED_UP | IN_TRANSIT | OUT_FOR_DELIVERY | DELIVERED
| ATTEMPTED_DELIVERY | EXCEPTION | RETURNED | CANCELLED | ON_HOLD.

Definition ShipmentStatus_eqb (a b : ShipmentStatus) : bool :=
  match a, b with
  | CREATED, CREATED | PICKED_UP, PICKED_UP | IN_TRANSIT, IN_TRANSIT
  | OUT_FOR_DELIVERY, OUT_FOR_DELIVERY | DELIVERED, DELIVERED
  | ATTEMPTED_DELIVERY, ATTEMPTED_DELIVERY | EXCEPTION, EXCEPTION
  | RETURNED, RETURNED | CANCELLED, CANCELLED | ON_HOLD, ON_HOLD => true
  | _, _ => false
  end.

(** The string value of each enum member. *)
Definition status_value (s : ShipmentStatus) : string :=
  match s with
  | CREATED => "created"
  | PICKED_UP => "picked_up"
  | IN_TRANSIT => "in_transit"
  | OUT_FOR_DELIVERY => "out_for_delivery"
  | DELIVERED => "delivered"
  | ATTEMPTED_DELIVERY => "attempted_delivery"
  | EXCEPTION => "exception"
  | RETURNED => "returned"
  | CANCELLED => "cancelled"
  | ON_HOLD => "on_hold"
  end.

Definition VALID_SHIPMENT_STATUSES : list ShipmentStatus :=
  [CREATED; PICKED_UP; IN_TRANSIT; OUT_FOR_DELIVERY; DELIVERED;
   ATTEMPTED_DELIVERY; EXCEPTION; RETURNED; CANCELLED; ON_HOLD].

Definition SHIPMENT_STATUS_DESCRIPTIONS (s : ShipmentStatus) : string :=
  match s with
  | CREATED => "Shipment has been created and registered in the system"
  | PICKED_UP => "Package has been picked up from sender"
  | IN_TRANSIT => "Package is in transit between facilities"
  | OUT_FOR_DELIVERY => "Package is out for delivery to recipient"
  | DELIVERED => "Package has been successfully delivered"
  | ATTEMPTED_DELIVERY => "Delivery was attempted but unsuccessful"
  | EXCEPTION => "An exception occurred during processing"
  | RETURNED => "Package is being returned to sender"
  | CANCELLED => "Shipment has been cancelled"
  | ON_HOLD => "Shipment is temporarily on hold"
  end.

Module VALIDATION_LIMITS.
Module SHIPMENT_ID.
Definition MIN_LENGTH : nat := 1.
Definition MAX_LENGTH : nat := 50.
End SHIPMENT_ID.
Module LOCATION.
Definition MAX_LENGTH : nat := 200.
End LOCATION.
Module DETAILS.
Definition MAX_LENGTH : nat := 500.
End DETAILS.
Module QUERY_LIMIT.
Definition MIN : Z := 1.
Definition MAX : Z := 100.
Definition DEFAULT : Z := 50.
End QUERY_LIMIT.
End VALIDATION_LIMITS.

Import RegExp.

(** [/^[A-Z]{2}\d{9}[A-Z]{2}$/] *)
Definition PATTERN_UPU : RegExp.t :=
  Make [Piece [("A", "Z")%char] 2 2; Piece digit 9 9; Piece [("A", "Z")%char] 2 2]
       false.

(** [/^SHIP-\d{6,12}$/] *)
Definition PATTERN_SHIP : RegExp.t :=
  Make [lit "S"%char; lit "H"%char; lit "I"%char; lit "P"%char; lit "-"%char;
        Piece digit 6 12] false.

(** [/^[A-Z0-9-_]{5,50}$/i] *)
Definition PATTERN_GENERIC : RegExp.t :=
  Make [Piece [("A", "Z"); ("0", "9"); ("-", "-"); ("_", "_")]%char 5 50] true.

Definition SHIPMENT_ID_PATTERNS : list RegExp.t :=
  [PATTERN_UPU; PATTERN_SHIP; PATTERN_GENERIC].

(** [interface ShipmentEvent]; the optional fields are [option]s
    ([None] is [undefined]). *)
Record ShipmentEvent := mkEvent {
  id : string;
  shipmentId : string;
  timestamp : string;
  status : ShipmentStatus;
  location : option string;
  details : option string;
  createdAt : string;
}.

Record CreateEventRequest := mkRequest {
  req_timestamp : string;
  req_status : ShipmentStatus;
  req_location : option string;
  req_details : option string;
}.

Record GetEventsQuery := mkQuery {
  limit : Z;
  startKey : option string;
}.

End Models.

(* ===================================================================== *)
(** * The host of a Lambda invocation *)
(* ===================================================================== *)

(** What the code obtains from outside: the [Date] functions of the engine,
    the [datetime] check of zod, and three oracles giving the result of the
    n-th call of [uuidv4()], of the n-th reading of the clock ([new Date()],
    in milliseconds since the epoch) and of the n-th request sent to
    DynamoDB ([Some name] when the request is rejected with an error of that
    name, for instance [ResourceNotFoundException]).  Clock readings are
    assumed far from the ends of the range of [Date], so that adding a few
    minutes or subtracting a year gives a valid time value. *)
Class Host := {
  Date_parse : string -> option Z;
  Date_toISOString : Z -> string;
  zod_datetime : string -> bool;
  uuid_at : nat -> string;
  clock_at : nat -> Z;
  fault_at : nat -> option string;
  (** The pattern of [datetime] does not match the empty string. *)
  zod_datetime_nonempty : zod_datetime "" = false;
}.

(* ===================================================================== *)
(** * src/validators *)
(* ===================================================================== *)

Module Validators.
Import Models.

Definition validateShipmentIdFormat (shipmentId : string) : bool :=
  existsb (fun pattern => RegExp.test pattern shipmentId) SHIPMENT_ID_PATTERNS.

Section WithHost.
Context {host : Host}.

(** [now] is the value of [new Date()] read by the function;
    [None] from [Date_parse] is the invalid date, whose comparisons are
    all false. *)
Definition validateEventTimestamp (now : Z) (timestamp : string) : bool :=
  let eventTime := Date_parse timestamp in
  let maxFutureTime := (now + 5 * 60 * 1000)%Z in
  let oneYear := (now - 365 * 24 * 60 * 60 * 1000)%Z in
  match eventTime with
  | Some t => (t <=? maxFutureTime)%Z && (t >=? oneYear)%Z
  | None => false
  end.

(** A zod issue: the path joined with dots, and the message. *)
Definition issue := (string * string)%type.

Definition type_name (v : JSON.value) : string :=
  match v with
  | JSON.Null => "null"
  | JSON.Bool _ => "boolean"
  | JSON.Number _ => "number"
  | JSON.Str _ => "string"
  | JSON.Array _ => "array"
  | JSON.Object _ => "object"
  end.

Definition invalid_type (expected : string) (v : option JSON.value) : string :=
  match v with
  | None => "Required"
  | Some x => "Expected " ++ expected ++ ", received " ++ type_name x
  end.

Definition status_of_string (s : string) : option ShipmentStatus :=
  find (fun st => status_value st =? s) VALID_SHIPMENT_STATUSES.

Definition status_message : string :=
  "Status must be one of: " ++ String.concat ", " (map status_value VALID_SHIPMENT_STATUSES).

(** An optional string field with a maximal length. *)
Definition optional_string (name : string) (max : nat) (msg : string)
           (v : option JSON.value) : list issue * option string :=
  match v with
  | None => ([], None)
  | Some (JSON.Str s) =>
      if (max <? Js.length s)%nat then ([(name, msg)], None) else ([], Some s)
  | Some x => ([(name, invalid_type "string" (Some x))], None)
  end.

(** [CreateEventSchema.safeParse]: every field is checked and all the
    issues are reported. *)
Definition CreateEventSchema (body : JSON.value)
  : list issue + CreateEventRequest :=
  match body with
  | JSON.Object ms =>
      let ts :=
        match JSON.get ms "timestamp" with
        | Some (JSON.Str s) =>
            if zod_datetime s then ([], Some s)
            else ([("timestamp", "Timestamp must be in ISO 8601 format")], None)
        | v => ([("timestamp", invalid_type "string" v)], None)
        end in
      let st :=
        match JSON.get ms "status" with
        | Some (JSON.Str s) =>
            match status_of_string s with
            | Some x => ([], Some x)
            | None => ([("status", status_message)], None)
            end
        | _ => ([("status", status_message)], None)
        end in
      let loc :=
        optional_string "location" VALIDATION_LIMITS.LOCATION.MAX_LENGTH
                        "Location must be less than 200 characters"
                        (JSON.get ms "location") in
      let det :=
        optional_string "details" VALIDATION_LIMITS.DETAILS.MAX_LENGTH
                        "Details must be less than 500 characters"
                        (JSON.get ms "details") in
      match fst ts ++ fst st ++ fst loc ++ fst det, snd ts, snd st with
      | [], Some t, Some x => inr (mkRequest t x (snd loc) (snd det))
      | issues, _, _ => inl issues
      end
  | v => inl [("", invalid_type "object" (Some v))]
  end.

(** An object whose values are strings (path and query parameters). *)
Definition params := list (string * string).

Fixpoint lookup (ps : params) (k : string) : option string :=
  match ps with
  | [] => None
  | (k', v) :: r =>
      match lookup r k with
      | Some w => Some w
      | None => if k' =? k then Some v else None
      end
  end.

(** [ShipmentEventParamsSchema.safeParse]; the handlers only look at
    whether it succeeded. *)
Definition ShipmentEventParamsSchema (input : option params) : option string :=
  match input with
  | Some ps =>
      match lookup ps "shipmentId" with
      | Some sid =>
          if (VALIDATION_LIMITS.SHIPMENT_ID.MIN_LENGTH <=? Js.length sid)%nat
             && (Js.length sid <=? VALIDATION_LIMITS.SHIPMENT_ID.MAX_LENGTH)%nat
             && validateShipmentIdFormat sid
          then Some sid else None
      | None => None
      end
  | None => None
  end.

(** The [limit] field after [transform]: a number, [None] being [NaN]. *)
Definition limit_transform (val : option string) : option Z :=
  if Js.truthy val
  then match val with Some v => Js.parseInt10 v | None => None end
  else Some VALIDATION_LIMITS.QUERY_LIMIT.DEFAULT.

Definition limit_refine (val : option Z) : bool :=
  match val with
  | Some n => (n >=? VALIDATION_LIMITS.QUERY_LIMIT.MIN)%Z
              && (n <=? VALIDATION_LIMITS.QUERY_LIMIT.MAX)%Z
  | None => false
  end.

(** [GetEventsQuerySchema.safeParse] *)
Definition GetEventsQuerySchema (q : params) : list issue + GetEventsQuery :=
  let val := limit_transform (lookup q "limit") in
  match val with
  | Some n =>
      if limit_refine val then inr (mkQuery n (lookup q "startKey"))
      else inl [("limit", "Limit must be between 1 and 100")]
  | None => inl [("limit", "Limit must be between 1 and 100")]
  end.

End WithHost.

End Validators.

(* ===================================================================== *)
(** * The DynamoDB table *)
(* ===================================================================== *)

(** The table [shipment-events]: partition key [shipmentId], sort key [id],
    both strings.  [Query] follows the documented contract of DynamoDB: the
    items of the partition are read in increasing order of the sort key
    (strings compare by their UTF-8 bytes), starting after
    [ExclusiveStartKey]; [Limit] bounds the number of items that are
    evaluated; the filter expression is applied to the evaluated items
    afterwards; [LastEvaluatedKey] is the key of the last evaluated item
    when the evaluation stopped because [Limit] was reached. *)
Module Dynamo.
Import Models.

Definition Table := list ShipmentEvent.

Record Key := mkKey { k_shipmentId : string; k_id : string }.

Definition key_of (e : ShipmentEvent) : Key := mkKey (shipmentId e) (id e).

Definition same_key (a b : ShipmentEvent) : bool :=
  (shipmentId a =? shipmentId b) && (id a =? id b).

(** [PutItem] replaces the item with the same primary key, if any. *)
Definition put (item : ShipmentEvent) (t : Table) : Table :=
  item :: filter (fun e => negb (same_key e item)) t.

Fixpoint insert_by_id (x : ShipmentEvent) (l : list ShipmentEvent) : list ShipmentEvent :=
  match l with
  | [] => [x]
  | y :: r => if (id x <=? id y)%string then x :: l else y :: insert_by_id x r
  end.

(** The items of a partition in the order of the sort key. *)
Definition partition (t : Table) (p : string) : list ShipmentEvent :=
  fold_right insert_by_id [] (filter (fun e => shipmentId e =? p) t).

Record QueryInput := mkQueryInput {
  q_shipmentId : string;
  FilterExpression : option (ShipmentEvent -> bool);
  Limit : Z;
  ExclusiveStartKey : option JSON.value;
}.

Record QueryOutput := mkQueryOutput {
  Items : list ShipmentEvent;
  LastEvaluatedKey : option Key;
}.

(** The document a key is exchanged as. *)
Definition json_of_key (k : Key) : JSON.value :=
  JSON.Object [("shipmentId", JSON.Str (k_shipmentId k)); ("id", JSON.Str (k_id k))].

(** A start key is accepted when it has the two key attributes, as
    strings, and nothing else. *)
Definition key_of_json (v : JSON.value) : option Key :=
  match v with
  | JSON.Object ms =>
      if forallb (fun m => (fst m =? "shipmentId") || (fst m =? "id")) ms then
        match JSON.get ms "shipmentId", JSON.get ms "id" with
        | Some (JSON.Str p), Some (JSON.Str i) => Some (mkKey p i)
        | _, _ => None
        end
      else None
  | _ => None
  end.

Definition apply_filter (f : option (ShipmentEvent -> bool)) (l : list ShipmentEvent) :=
  match f with
  | Some p => filter p l
  | None => l
  end.

Definition run_query (t : Table) (p : string) (f : option (ShipmentEvent -> bool))
           (lim : nat) (after : option string) : QueryOutput :=
  let rest :=
    match after with
    | Some i => filter (fun e => (i <? id e)%string) (partition t p)
    | None => partition t p
    end in
  let evaluated := firstn lim rest in
  mkQueryOutput (apply_filter f evaluated)
                (if (lim <=? List.length rest)%nat
                 then option_map key_of (last (map Some evaluated) None)
                 else None).

(** [inl name] is the rejection of the request with an error of that
    name. *)
Definition query (t : Table) (q : QueryInput) : string + QueryOutput :=
  if (Limit q <? 1)%Z then inl "ValidationException"
  else
    match ExclusiveStartKey q with
    | None => inr (run_query t (q_shipmentId q) (FilterExpression q)
                             (Z.to_nat (Limit q)) None)
    | Some v =>
        match key_of_json v with
        | Some k =>
            if k_shipmentId k =? q_shipmentId q
            then inr (run_query t (q_shipmentId q) (FilterExpression q)
                                (Z.to_nat (Limit q)) (Some (k_id k)))
            else inl "ValidationException"
        | None => inl "ValidationException"
        end
    end.

End Dynamo.

(* ===================================================================== *)
(** * Effects: the state of an invocation, exceptions *)
(* ===================================================================== *)

Module Run.
Import Models.

(** The table, and how many times each oracle of the host was asked. *)
Record World := mkWorld {
  table : Dynamo.Table;
  uuid_calls : nat;
  clock_reads : nat;
  sends : nat;
}.

Inductive Outcome (A : Type) :=
| Return (a : A)
| Throw (name : string).
Arguments Return {A} a.
Arguments Throw {A} name.

Definition M (A : Type) : Type := World -> Outcome A * World.

Definition ret {A} (a : A) : M A := fun w => (Return a, w).

Definition bind {A B} (m : M A) (k : A -> M B) : M B :=
  fun w =>
    match m w with
    | (Return a, w') => k a w'
    | (Throw e, w') => (Throw e, w')
    end.

Definition throw {A} (name : string) : M A := fun w => (Throw name, w).

(** [try { body } catch (error) { handler(error.name) }] *)
Definition try_catch {A} (body : M A) (handler : string -> M A) : M A :=
  fun w =>
    match body w with
    | (Return a, w') => (Return a, w')
    | (Throw e, w') => handler e w'
    end.

Declare Scope run_scope.
Delimit Scope run_scope with run.
Notation "x <- m ;; k" := (bind m (fun x => k))
  (at level 61, m at next level, right associativity) : run_scope.

Section WithHost.
Context {host : Host}.

Definition uuidv4 : M string :=
  fun w => (Return (uuid_at (uuid_calls w)),
            mkWorld (table w) (S (uuid_calls w)) (clock_reads w) (sends w)).

(** [new Date()], as a time value. *)
Definition new_Date : M Z :=
  fun w => (Return (clock_at (clock_reads w)),
            mkWorld (table w) (uuid_calls w) (S (clock_reads w)) (sends w)).

(** One request to DynamoDB: it is rejected when the host says so. *)
Definition send {A} (request : Dynamo.Table -> (string + A) * Dynamo.Table) : M A :=
  fun w =>
    let w' := mkWorld (table w) (uuid_calls w) (clock_reads w) (S (sends w)) in
    match fault_at (sends w) with
    | Some name => (Throw name, w')
    | None =>
        match request (table w) with
        | (inr a, t') => (Return a, mkWorld t' (uuid_calls w) (clock_reads w) (S (sends w)))
        | (inl name, _) => (Throw name, w')
        end
    end.

(** The state after a request that was answered, with the table it left. *)
Definition after_send (w : World) (t : Dynamo.Table) : World :=
  mkWorld t (uuid_calls w) (clock_reads w) (S (sends w)).

Definition QueryCommand (q : Dynamo.QueryInput) : M Dynamo.QueryOutput :=
  send (fun t => (Dynamo.query t q, t)).

Definition PutCommand (item : ShipmentEvent) : M unit :=
  send (fun t => (inr tt, Dynamo.put item t)).

End WithHost.

End Run.

(* ===================================================================== *)
(** * src/services/aws.dynamo.service.ts *)
(* ===================================================================== *)

Module Service.
Import Models Run.
Local Open Scope run_scope.

(** [Partial<ShipmentEvent>], with [status] present as [createEvent]
    asserts it ([eventData.status!]). *)
Record PartialEvent := mkPartial {
  p_id : option string;
  p_shipmentId : option string;
  p_timestamp : option string;
  p_status : ShipmentStatus;
  p_location : option string;
  p_details : option string;
  p_createdAt : option string;
}.

(** A complete event passed where a partial one is expected. *)
Definition partial_of (e : ShipmentEvent) : PartialEvent :=
  mkPartial (Some (id e)) (Some (shipmentId e)) (Some (timestamp e)) (status e)
            (location e) (details e) (Some (createdAt e)).

Record HistoryPage := mkPage {
  events : list ShipmentEvent;
  hasMore : bool;
  nextKey : option string;
}.

(** Stable insertion for [Array.prototype.sort]: [x] goes before the
    first element it does not compare greater than. *)
Fixpoint sort_insert (cmp : ShipmentEvent -> ShipmentEvent -> Z) (x : ShipmentEvent)
         (l : list ShipmentEvent) : list ShipmentEvent :=
  match l with
  | [] => [x]
  | y :: r => if (0 <? cmp x y)%Z then y :: sort_insert cmp x r else x :: l
  end.

(** [items.sort(cmp)]; the sort of the engine is stable. *)
Definition sort (cmp : ShipmentEvent -> ShipmentEvent -> Z) (items : list ShipmentEvent)
  : list ShipmentEvent :=
  fold_right (sort_insert cmp) [] items.

Section WithHost.
Context {host : Host}.

(** [new Date(a.timestamp).getTime() - new Date(b.timestamp).getTime()];
    a [NaN] result counts as [0] in [sort]. *)
Definition time_difference (a b : ShipmentEvent) : Z :=
  match Date_parse (timestamp a), Date_parse (timestamp b) with
  | Some x, Some y => (x - y)%Z
  | _, _ => 0%Z
  end.

Definition shippmentEventExist (shipmentId : string) (status : ShipmentStatus)
           (timestamp : string) : M (bool * option ShipmentEvent) :=
  result <- QueryCommand
              (Dynamo.mkQueryInput
                 shipmentId
                 (Some (fun e => ShipmentStatus_eqb (Models.status e) status
                                 && (Models.timestamp e =? timestamp)))
                 1
                 None) ;;
  ret ((0 <? List.length (Dynamo.Items result))%nat, hd_error (Dynamo.Items result)).

Definition createEvent (shipmentId : string) (eventData : PartialEvent)
  : M ShipmentEvent :=
  id <- uuidv4 ;;
  timestamp <- (if Js.truthy (p_timestamp eventData)
                then ret (Js.or_else (p_timestamp eventData) "")
                else (now <- new_Date ;; ret (Date_toISOString now))) ;;
  createdAt <- new_Date ;;
  let event := mkEvent id shipmentId timestamp (p_status eventData)
                       (p_location eventData) (p_details eventData)
                       (Date_toISOString createdAt) in
  _ <- PutCommand event ;;
  ret event.

(** The cursor made of a [LastEvaluatedKey]. *)
Definition encode_key (k : Dynamo.Key) : string :=
  Js.to_base64 (JSON.stringify (Dynamo.json_of_key k)).

(** [JSON.parse(Buffer.from(startKey, 'base64').toString())] *)
Definition decode_key (startKey : string) : M JSON.value :=
  match JSON.parse (Js.from_base64 startKey) with
  | Some v => ret v
  | None => throw "SyntaxError"
  end.

(** The command of [getEventHistory]: the start key is only there when
    [startKey] is truthy, and decoding it may throw. *)
Definition history_command (shipmentId : string) (limit : Z) (startKey : option string)
  : M Dynamo.QueryInput :=
  start <- (if Js.truthy startKey
            then (v <- decode_key (Js.or_else startKey "") ;; ret (Some v))
            else ret None) ;;
  ret (Dynamo.mkQueryInput shipmentId None limit start).

Definition is_some {A} (o : option A) : bool :=
  match o with Some _ => true | None => false end.

(** What [getEventHistory] returns for the output of the query. *)
Definition page_of (result : Dynamo.QueryOutput) : HistoryPage :=
  let sortedEvents := sort time_difference (Dynamo.Items result) in
  mkPage sortedEvents
         (is_some (Dynamo.LastEvaluatedKey result))
         (option_map encode_key (Dynamo.LastEvaluatedKey result)).

Definition getEventHistory (shipmentId : string) (limit : option Z)
           (startKey : option string) : M HistoryPage :=
  let limit := match limit with Some n => n | None => 50%Z end in
  command <- history_command shipmentId limit startKey ;;
  result <- QueryCommand command ;;
  ret (page_of result).

Definition getLatestEvent (shipmentId : string) : M (option ShipmentEvent) :=
  result <- QueryCommand (Dynamo.mkQueryInput shipmentId None 1 None) ;;
  let sortedEvents := sort (fun a b => time_difference b a) (Dynamo.Items result) in
  ret (hd_error sortedEvents).

End WithHost.

End Service.

(* ===================================================================== *)
(** * src/utils/response.ts *)
(* ===================================================================== *)

Module StatusCodes.
Definition OK : nat := 200.
Definition CREATED : nat := 201.
Definition BAD_REQUEST : nat := 400.
Definition NOT_FOUND : nat := 404.
Definition CONFLICT : nat := 409.
Definition INTERNAL_SERVER_ERROR : nat := 500.
Definition SERVICE_UNAVAILABLE : nat := 503.
End StatusCodes.

Module Response.
Import Models.

Inductive Data :=
| OneEvent (e : ShipmentEvent)
| EventList (l : list ShipmentEvent).

Record Pagination := mkPagination {
  pg_hasMore : bool;
  pg_nextKey : option string;
}.

(** [APIResponse] and [PaginatedResponse]: an absent field is [None]. *)
Record Body := mkBody {
  success : bool;
  data : option Data;
  error : option string;
  message : option string;
  pagination : option Pagination;
}.

(** The body is kept as the object given to [JSON.stringify]. *)
Record APIGatewayProxyResult := mkResult {
  statusCode : nat;
  headers : list (string * string);
  body : Body;
}.

Definition createResponse (statusCode : nat) (body : Body) : APIGatewayProxyResult :=
  mkResult statusCode
           [("Content-Type", "application/json");
            ("Access-Control-Allow-Origin", "*");
            ("Access-Control-Allow-Methods", "GET,POST,OPTIONS")]
           body.

(** [...(v && { v })] *)
Definition spread (v : option string) : option string :=
  if Js.truthy v then v else None.

Definition successResponse (data : Data) (message : option string) (statusCode : nat)
  : APIGatewayProxyResult :=
  createResponse statusCode (mkBody true (Some data) None (spread message) None).

Definition paginatedResponse (data : Data) (hasMore : bool) (nextKey : option string)
           (message : option string) (statusCode : nat) : APIGatewayProxyResult :=
  createResponse statusCode
                 (mkBody true (Some data) None (spread message)
                         (Some (mkPagination hasMore (spread nextKey)))).

Definition errorResponse (error : string) (statusCode : nat) : APIGatewayProxyResult :=
  createResponse statusCode (mkBody false None (Some error) None None).

Definition validationErrorResponse (errors : list string) : APIGatewayProxyResult :=
  createResponse StatusCodes.BAD_REQUEST
                 (mkBody false None (Some "Validation failed")
                         (Some (String.concat ", " errors)) None).

(** [parseJSON]: [null] when the text is not JSON. *)
Definition parseJSON (jsonString : string) : JSON.value :=
  match JSON.parse jsonString with
  | Some v => v
  | None => JSON.Null
  end.

End Response.

(* ===================================================================== *)
(** * The handlers: src/api *)
(* ===================================================================== *)

Module Api.
Import Models Run Response Validators.
Local Open Scope run_scope.

Record APIGatewayProxyEvent := mkProxyEvent {
  pathParameters : option params;
  queryStringParameters : option params;
  body : option string;
}.

Definition show_nat (n : nat) : string := NilEmpty.string_of_uint (Nat.to_uint n).

(** [`${err.path.join('.')}: ${err.message}`] *)
Definition show_issue (i : issue) : string := fst i ++ ": " ++ snd i.

Section WithHost.
Context {host : Host}.

(** recordEvent.ts *)
Definition recordEvent (event : APIGatewayProxyEvent) : M APIGatewayProxyResult :=
  try_catch
    (match ShipmentEventParamsSchema (pathParameters event) with
     | None => ret (validationErrorResponse ["Invalid shipment ID"])
     | Some shipmentId =>
         if negb (Js.truthy (body event)) then
           ret (errorResponse "Request body is required" StatusCodes.BAD_REQUEST)
         else
           let requestBody := parseJSON (Js.or_else (body event) "") in
           if negb (JSON.truthy requestBody) then
             ret (errorResponse "Invalid JSON in request body" StatusCodes.BAD_REQUEST)
           else
             match CreateEventSchema requestBody with
             | inl issues => ret (validationErrorResponse (map show_issue issues))
             | inr request =>
                 let timestamp := req_timestamp request in
                 let status := req_status request in
                 now <- new_Date ;;
                 if negb (validateEventTimestamp now timestamp) then
                   ret (errorResponse "Event timestamp cannot be in the future"
                                      StatusCodes.BAD_REQUEST)
                 else
                   checkforDuplicateEvent <-
                     Service.shippmentEventExist shipmentId status timestamp ;;
                   if fst checkforDuplicateEvent then
                     ret (errorResponse
                            "Event with this shipment ID, status and timestamp already exists"
                            StatusCodes.CONFLICT)
                   else
                     id <- uuidv4 ;;
                     createdAt <- new_Date ;;
                     let shipmentEvent :=
                       mkEvent id shipmentId timestamp status (req_location request)
                               (Some (Js.or_else (req_details request)
                                                 (SHIPMENT_STATUS_DESCRIPTIONS status)))
                               (Date_toISOString createdAt) in
                     _ <- Service.createEvent shipmentId (Service.partial_of shipmentEvent) ;;
                     ret (successResponse (OneEvent shipmentEvent)
                                          (Some "Event created successfully")
                                          StatusCodes.CREATED)
             end
     end)
    (fun name =>
       if name =? "ConditionalCheckFailedException" then
         ret (errorResponse "Event with this ID already exists" StatusCodes.CONFLICT)
       else if name =? "ValidationException" then
         ret (errorResponse "Invalid data format" StatusCodes.BAD_REQUEST)
       else
         ret (errorResponse "Internal server error occurred while creating event"
                            StatusCodes.INTERNAL_SERVER_ERROR)).

(** getLatestEvent.ts *)
Definition getLatestEvent (event : APIGatewayProxyEvent) : M APIGatewayProxyResult :=
  try_catch
    (match ShipmentEventParamsSchema (pathParameters event) with
     | None => ret (validationErrorResponse ["Invalid shipment ID"])
     | Some shipmentId =>
         latestEvent <- Service.getLatestEvent shipmentId ;;
         match latestEvent with
         | None =>
             ret (errorResponse ("No events found for shipment " ++ shipmentId)%string
                                StatusCodes.NOT_FOUND)
         | Some e =>
             ret (successResponse (OneEvent e)
                                  (Some "Latest event retrieved successfully")
                                  StatusCodes.OK)
         end
     end)
    (fun name =>
       if name =? "ResourceNotFoundException" then
         ret (errorResponse "Events table not found" StatusCodes.SERVICE_UNAVAILABLE)
       else if name =? "ValidationException" then
         ret (errorResponse "Invalid shipment ID format" StatusCodes.BAD_REQUEST)
       else
         ret (errorResponse "Internal server error occurred while retrieving latest event"
                            StatusCodes.INTERNAL_SERVER_ERROR)).

(** getEventHistory.ts *)
Definition getEventHistory (event : APIGatewayProxyEvent) : M APIGatewayProxyResult :=
  try_catch
    (match ShipmentEventParamsSchema (pathParameters event) with
     | None => ret (validationErrorResponse ["Invalid shipment ID"])
     | Some shipmentId =>
         match GetEventsQuerySchema
                 (match queryStringParameters event with Some q => q | None => [] end) with
         | inl issues => ret (validationErrorResponse (map show_issue issues))
         | inr query =>
             let limit := Models.limit query in
             let startKey := Models.startKey query in
             result <- Service.getEventHistory shipmentId (Some limit) startKey ;;
             if (List.length (Service.events result) =? 0)%nat && negb (Js.truthy startKey)
             then
               ret (errorResponse ("No events found for shipment " ++ shipmentId)%string
                                  StatusCodes.NOT_FOUND)
             else
               ret (paginatedResponse
                      (EventList (Service.events result))
                      (Service.hasMore result)
                      (Service.nextKey result)
                      (Some ("Retrieved " ++ show_nat (List.length (Service.events result))
                             ++ " events for shipment " ++ shipmentId)%string)
                      StatusCodes.OK)
         end
     end)
    (fun name =>
       if name =? "ResourceNotFoundException" then
         ret (errorResponse "Events table not found" StatusCodes.SERVICE_UNAVAILABLE)
       else if name =? "ValidationException" then
         ret (errorResponse "Invalid shipment ID or query parameters"
                            StatusCodes.BAD_REQUEST)
       else
         ret (errorResponse "Internal server error occurred while retrieving event history"
                            StatusCodes.INTERNAL_SERVER_ERROR)).

End WithHost.

End Api.

(* ===================================================================== *)
(** * A concrete host *)
(* ===================================================================== *)

(** A host whose [Date] understands exactly the format
    [YYYY-MM-DDTHH:mm:ss.sssZ] (the milliseconds may be left out), used to
    run the handlers on concrete requests. *)
Module IsoHost.

Definition two (a b : ascii) : option Z :=
  if Char.is_digit a && Char.is_digit b
  then Some (10 * Js.digit_value a + Js.digit_value b)%Z else None.

Definition is_leap (y : Z) : bool :=
  ((y mod 4 =? 0) && negb (y mod 100 =? 0) || (y mod 400 =? 0))%Z.

Definition days_in_month (y m : Z) : Z :=
  if (m =? 2)%Z then (if is_leap y then 29 else 28)
  else if ((m =? 4) || (m =? 6) || (m =? 9) || (m =? 11))%Z then 30 else 31.

(** Days since 1970-01-01 of a date of the proleptic Gregorian calendar. *)
Definition days_from_civil (y m d : Z) : Z :=
  let y' := if (m <=? 2)%Z then (y - 1)%Z else y in
  let era := (y' / 400)%Z in
  let yoe := (y' - era * 400)%Z in
  let doy := ((153 * (if (2 <? m)%Z then m - 3 else m + 9) + 2) / 5 + d - 1)%Z in
  let doe := (yoe * 365 + yoe / 4 - yoe / 100 + doy)%Z in
  (era * 146097 + doe - 719468)%Z.

Definition assemble (y m d h mi sec ms : Z) : option Z :=
  if ((1 <=? m) && (m <=? 12) && (1 <=? d) && (d <=? days_in_month y m)
      && (h <=? 23) && (mi <=? 59) && (sec <=? 59))%Z
  then Some (((days_from_civil y m d * 24 + h) * 60 + mi) * 60 * 1000 + sec * 1000 + ms)%Z
  else None.

Definition sep (c x : ascii) : bool := Ascii.eqb c x.

Definition parse (s : string) : option Z :=
  match Js.bytes s with
  | y1 :: y2 :: y3 :: y4 :: a :: m1 :: m2 :: b :: d1 :: d2 :: t
       :: h1 :: h2 :: c1 :: n1 :: n2 :: c2 :: s1 :: s2 :: rest =>
      if sep "-" a && sep "-" b && sep "T" t && sep ":" c1 && sep ":" c2 then
        match two y1 y2, two y3 y4, two m1 m2, two d1 d2, two h1 h2, two n1 n2, two s1 s2 with
        | Some yh, Some yl, Some m, Some d, Some h, Some mi, Some sec =>
            match rest with
            | [z] => if sep "Z" z then assemble (yh * 100 + yl) m d h mi sec 0 else None
            | [dot; f1; f2; f3; z] =>
                if sep "." dot && sep "Z" z && Char.is_digit f1 then
                  match two f2 f3 with
                  | Some f => assemble (yh * 100 + yl) m d h mi sec (100 * Js.digit_value f1 + f)
                  | None => None
                  end
                else None
            | _ => None
            end
        | _, _, _, _, _, _, _ => None
        end
      else None
  | _ => None
  end.

Definition show_Z (n : Z) : string := NilEmpty.string_of_uint (Nat.to_uint (Z.to_nat n)).

(** [n], at least [w] digits wide. *)
Definition pad (w : nat) (n : Z) : string :=
  let d := show_Z n in
  Js.str (repeat "0"%char (w - String.length d)) ++ d.

(** The inverse of [days_from_civil]: year, month and day. *)
Definition civil_from_days (days : Z) : Z * Z * Z :=
  let z := (days + 719468)%Z in
  let era := (z / 146097)%Z in
  let doe := (z - era * 146097)%Z in
  let yoe := ((doe - doe / 1460 + doe / 36524 - doe / 146096) / 365)%Z in
  let doy := (doe - (365 * yoe + yoe / 4 - yoe / 100))%Z in
  let mp := ((5 * doy + 2) / 153)%Z in
  let d := (doy - (153 * mp + 2) / 5 + 1)%Z in
  let m := if (mp <? 10)%Z then (mp + 3)%Z else (mp - 9)%Z in
  let y := (yoe + era * 400 + (if (m <=? 2)%Z then 1 else 0))%Z in
  (y, m, d).

(** [toISOString] for the years 0000 to 9999. *)
Definition format (ms : Z) : string :=
  let days := (ms / 86400000)%Z in
  let r := (ms mod 86400000)%Z in
  let '(y, m, d) := civil_from_days days in
  pad 4 y ++ "-" ++ pad 2 m ++ "-" ++ pad 2 d ++ "T"
    ++ pad 2 (r / 3600000) ++ ":" ++ pad 2 (r / 60000 mod 60) ++ ":"
    ++ pad 2 (r / 1000 mod 60) ++ "." ++ pad 3 (r mod 1000) ++ "Z".

Definition is_some {A} (o : option A) : bool :=
  match o with Some _ => true | None => false end.

(** The host with the given identifiers and clock, and a store that
    accepts every request. *)
Definition make (uuids : nat -> string) (clock : nat -> Z) : Host :=
  {| Date_parse := parse;
     Date_toISOString := format;
     zod_datetime := fun s => is_some (parse s);
     uuid_at := uuids;
     clock_at := clock;
     fault_at := fun _ => None;
   zod_datetime_nonempty := eq_refl |}.

End IsoHost.
(* ===================================================================== *)
(** * The words of the specification *)
(* ===================================================================== *)

(** Definitions that follow the text of the specification rather than the
    code, to compare the code with. *)
Module Spec.
Definition uppercase (l : list ascii) : Prop := Forall (fun c => Char.is_upper c = true) l.
Definition digits (l : list ascii) : Prop := Forall (fun c => Char.is_digit c = true) l.
(** Universal Postal Union shape: exactly 2 uppercase letters, 9 digits,
    2 uppercase letters. *)
Definition upu_shape (id : string) : Prop :=
  exists a b c, Js.bytes id = a ++ b ++ c
                /\ List.length a = 2 /\ uppercase a
                /\ List.length b = 9 /\ digits b
                /\ List.length c = 2 /\ uppercase c.

(** Prefixed numeric shape: the literal prefix, a hyphen, 6 to 12 digits. *)
Definition prefixed_shape (id : string) : Prop :=
  exists ds, Js.bytes id = Js.bytes "SHIP" ++ "-"%char :: ds
             /\ 6 <= List.length ds <= 12 /\ digits ds.

(** Generic shape: 5 to 50 characters, each a letter of either case, a
    digit, a hyphen or an underscore. *)
Definition generic_shape (id : string) : Prop :=
  5 <= List.length (Js.bytes id) <= 50
  /\ Forall (fun c => Char.is_alnum c = true \/ c = "-"%char \/ c = "_"%char) (Js.bytes id).

(** Durations in milliseconds. *)
Definition seconds (n : Z) : Z := (n * 1000)%Z.
Definition minutes (n : Z) : Z := (n * 60 * 1000)%Z.
Definition days (n : Z) : Z := (n * 24 * 60 * 60 * 1000)%Z.

(** A write request that passes every check made before the store is
    consulted: the shipment identifier, the presence of a body, its being
    JSON, and the schema of the fields. *)
Definition accepted_request {host : Host} (event : Api.APIGatewayProxyEvent)
           (shipmentId : string) (request : Models.CreateEventRequest) : Prop :=
  Validators.ShipmentEventParamsSchema (Api.pathParameters event) = Some shipmentId
  /\ Js.truthy (Api.body event) = true
  /\ JSON.truthy (Response.parseJSON (Js.or_else (Api.body event) "")) = true
  /\ Validators.CreateEventSchema (Response.parseJSON (Js.or_else (Api.body event) ""))
     = inr request.

End Spec.

(* ===================================================================== *)
(** * Concrete requests and tables *)
(* ===================================================================== *)

Module Sample.
Import Models.

(** Test data is written with single quotes standing for double quotes. *)
Definition qq (s : string) : string :=
  Js.str (map (fun c => if Ascii.eqb c "'" then JSON.dquote else c) (Js.bytes s)).

(** Identifiers [id-0], [id-1], ...; the clock starts at
    2025-05-26T20:17:31.464Z and advances one millisecond per reading. *)
Definition T0 : Z := 1748290651464.

Definition host : Host :=
  IsoHost.make (fun n => ("id-" ++ IsoHost.show_Z (Z.of_nat n))%string)
               (fun n => T0 + Z.of_nat n)%Z.


Definition SHIP : string := "SHIP-100000".

Definition path : option Validators.params := Some [("shipmentId", SHIP)].

(** An empty table, nothing asked of the host yet. *)
Definition start (t : Dynamo.Table) : Run.World := Run.mkWorld t 0 0 0.

Definition event (id : string) (ts : string) (st : ShipmentStatus) : ShipmentEvent :=
  mkEvent id SHIP ts st None (Some (SHIPMENT_STATUS_DESCRIPTIONS st))
          "2025-05-01T00:00:00.000Z".


(** A table with one event, and the history request that continues after
    it. *)
Definition one_event : Dynamo.Table := [event "id-1" "2025-05-01T10:00:00.000Z" CREATED].


(** [POST /shipments/SHIP-100000/events] with the given body. *)
Definition post (body : string) : Api.APIGatewayProxyEvent :=
  Api.mkProxyEvent path None (Some (qq body)).

Definition write_created : Api.APIGatewayProxyEvent :=
  post "{'timestamp':'2025-01-01T00:00:00.000Z','status':'created'}".

Definition write_empty_details : Api.APIGatewayProxyEvent :=
  post "{'timestamp':'2025-01-01T00:00:00.000Z','status':'created','details':''}".

Definition write_with_details : Api.APIGatewayProxyEvent :=
  post "{'timestamp':'2025-01-01T00:00:00.000Z','status':'created','details':'Left at depot'}".

(** More than 365 days before [T0]. *)
Definition write_old : Api.APIGatewayProxyEvent :=
  post "{'timestamp':'2024-01-15T10:30:00.000Z','status':'created'}".

(** A shipment with one earlier event, whose identifier sorts before the
    identifiers the host hands out. *)
Definition earlier : Dynamo.Table :=
  [event "0-first" "2025-05-01T10:00:00.000Z" PICKED_UP].

(** A shipment with three events at increasing times; the oldest has the
    smallest identifier. *)
Definition three_events : Dynamo.Table :=
  [event "evt-a" "2025-05-01T10:00:00.000Z" CREATED;
   event "evt-b" "2025-05-02T10:00:00.000Z" PICKED_UP;
   event "evt-c" "2025-05-03T10:00:00.000Z" IN_TRANSIT].

Definition latest : Api.APIGatewayProxyEvent := Api.mkProxyEvent path None None.

(** The shipment, status and timestamp of [write_created]. *)
Definition same_triple (e : ShipmentEvent) : bool :=
  (shipmentId e =? SHIP)%string
  && ShipmentStatus_eqb (status e) CREATED
  && (timestamp e =? "2025-01-01T00:00:00.000Z")%string.

End Sample.


(* ===================================================================== *)
(** * cdk: the configuration read from the environment *)
(* ===================================================================== *)

Module Config.

(** What [getEnvValue] may return: [undefined], a boolean or a string. *)
Inductive Value :=
| Undefined
| Boolean (b : bool)
| Text (s : string).

(** [process.env]: a variable is unset or has a string value. *)
Definition Env := string -> option string.

(** [value || defaultValue] falls back for an unset and for an empty
    variable. *)
Definition getEnvValue (env : Env) (key : string) (defaultValue : Value) : Value :=
  let value := env key in
  match value with
  | Some v =>
      if (v =? "false") || (v =? "true")
      then Boolean (if v =? "false" then false else (v =? "true"))
      else if v =? "" then defaultValue else Text v
  | None => defaultValue
  end.

Record Settings := mkSettings {
  aws_account : Value;
  aws_region : Value;
  shipmentEventTable : Value;
  environment : Value;
}.

Definition getConfig (env : Env) : Settings :=
  mkSettings (getEnvValue env "CDK_DEFAULT_ACCOUNT" Undefined)
             (getEnvValue env "AWS_REGION" (Text "us-east-1"))
             (getEnvValue env "SHIPMENT_EVENTS_TABLE" (Text "shipment-events"))
             (getEnvValue env "ENVIRONMENT" (Text "development")).

End Config.

(* ===================================================================== *)
(** * Notions used to state what the code keeps *)
(* ===================================================================== *)

Module Invariants.
Import Models.

(** Strictly increasing identifiers: the order of the store inside a
    partition. *)
Definition by_id (a b : ShipmentEvent) : Prop := (id a <? id b)%string = true.

(** No two items of the table have the same primary key. *)
Definition unique_keys (t : Dynamo.Table) : Prop := NoDup (map Dynamo.key_of t).

(** The items of a partition that a query reads, in order: all of them, or
    those after the identifier of the start key. *)
Definition remaining (t : Dynamo.Table) (p : string) (after : option string)
  : list ShipmentEvent :=
  match after with
  | Some i => filter (fun e => (i <? id e)%string) (Dynamo.partition t p)
  | None => Dynamo.partition t p
  end.

(** The [Limit] of the query of [getEventHistory]. *)
Definition page_size (limit : option Z) : nat :=
  Z.to_nat (match limit with Some n => n | None => 50%Z end).

(** The timestamp of the event can be parsed. *)
Definition dated {host : Host} (e : ShipmentEvent) : Prop :=
  Date_parse (timestamp e) <> None.

(** [a] did not happen after [b]. *)
Definition not_after {host : Host} (a b : ShipmentEvent) : Prop :=
  exists x y, Date_parse (timestamp a) = Some x /\ Date_parse (timestamp b) = Some y
              /\ (x <= y)%Z.

(** What an optional string field of a body may be: absent, or a string of
    at most [max] UTF-16 units. *)
Definition field_ok (ms : list (string * JSON.value)) (name : string) (max : nat)
           (v : option string) : Prop :=
  (JSON.get ms name = None /\ v = None)
  \/ (exists s, JSON.get ms name = Some (JSON.Str s) /\ Js.length s <= max /\ v = Some s).

(** The two required fields of a body, as the schema wants them. *)
Definition timestamp_ok {host : Host} (ms : list (string * JSON.value)) : Prop :=
  exists ts, JSON.get ms "timestamp" = Some (JSON.Str ts) /\ zod_datetime ts = true.

Definition status_ok (ms : list (string * JSON.value)) : Prop :=
  exists st, JSON.get ms "status" = Some (JSON.Str (status_value st)).

End Invariants.

(* ===================================================================== *)
(** * More concrete hosts, requests and tables *)
(* ===================================================================== *)

Module Cases.
Import Models.

(** The sample host with a store that rejects every request with an error
    of the given name. *)
Definition failing (name : string) : Host :=
  {| Date_parse := IsoHost.parse;
     Date_toISOString := IsoHost.format;
     zod_datetime := fun s => IsoHost.is_some (IsoHost.parse s);
     uuid_at := fun n => ("id-" ++ IsoHost.show_Z (Z.of_nat n))%string;
     clock_at := fun n => (Sample.T0 + Z.of_nat n)%Z;
     fault_at := fun _ => Some name;
     zod_datetime_nonempty := eq_refl |}.

(** A body without timestamp, with an unknown status and a number as
    location. *)
Definition bad_body : list (string * JSON.value) :=
  [("status", JSON.Str "flying"); ("location", JSON.Number "5")].

(** The history request for pages of two events. *)
Definition history_two : Api.APIGatewayProxyEvent :=
  Api.mkProxyEvent Sample.path (Some [("limit", "2")]) None.

(** The history request with a start key that holds no base64 character. *)
Definition history_garbage : Api.APIGatewayProxyEvent :=
  Api.mkProxyEvent Sample.path (Some [("startKey", "!!!!")]) None.

(** The request that the body of [Sample.write_created] parses to. *)
Definition created : CreateEventRequest :=
  mkRequest "2025-01-01T00:00:00.000Z" CREATED None None.

End Cases.

(* ===================================================================== *)
(** * Sanity checks of the model on concrete values *)
(* ===================================================================== *)

Example b64_1 : Js.to_base64 "Man" = "TWFu". Proof. reflexivity. Qed.
Example b64_2 : Js.to_base64 "Ma" = "TWE=". Proof. reflexivity. Qed.
Example b64_3 : Js.to_base64 "M" = "TQ==". Proof. reflexivity. Qed.
Example b64_4 : Js.from_base64 "TWFu" = "Man". Proof. reflexivity. Qed.
Example b64_5 : Js.from_base64 "TQ==" = "M". Proof. reflexivity. Qed.
Example b64_6 : Js.from_base64 "T W!E=QQ" = "Ma". Proof. reflexivity. Qed.
Example pi_1 : map Js.parseInt10 ["10"; " 42abc"; "abc"; ""; "-7"; "+0"; "1.9"; "007"]
  = [Some 10; Some 42; None; None; Some (-7); Some 0; Some 1; Some 7]%Z.
Proof. reflexivity. Qed.
Example fmt_upu : Validators.validateShipmentIdFormat "AB123456789SE" = true.
Proof. vm_compute. reflexivity. Qed.
Example fmt_ship : Validators.validateShipmentIdFormat "SHIP-123456" = true.
Proof. vm_compute. reflexivity. Qed.
Example fmt_lower : Validators.validateShipmentIdFormat "ab_cd" = true.
Proof. vm_compute. reflexivity. Qed.
Example fmt_short : Validators.validateShipmentIdFormat "abcd" = false.
Proof. vm_compute. reflexivity. Qed.
Example fmt_empty : Validators.validateShipmentIdFormat "" = false.
Proof. vm_compute. reflexivity. Qed.
Example fmt_bang : Validators.validateShipmentIdFormat "abcd!" = false.
Proof. vm_compute. reflexivity. Qed.

Example json_1 :
  JSON.parse (Sample.qq "{ 'a' : 'x\ny', 'b':[1, -2.5e3, true,null ], 'c':{} }")
  = Some (JSON.Object [("a", JSON.Str (Js.str ["x"%char; ascii_of_nat 10; "y"%char]));
                       ("b", JSON.Array [JSON.Number "1"; JSON.Number "-2.5e3";
                                         JSON.Bool true; JSON.Null]);
                       ("c", JSON.Object [])]).
Proof. vm_compute. reflexivity. Qed.
Example json_2 : JSON.parse (Sample.qq "{'a':1,}") = None.
Proof. vm_compute. reflexivity. Qed.
Example json_3 : JSON.parse "01" = None.
Proof. vm_compute. reflexivity. Qed.
Example json_4 :
  JSON.stringify (JSON.Object [("id", JSON.Str (Sample.qq "a'b\")); ("n", JSON.Array [JSON.Null; JSON.Bool false])])
  = Sample.qq "{'id':'a\'b\\','n':[null,false]}".
Proof. vm_compute. reflexivity. Qed.

Example iso_1 : IsoHost.parse "2025-05-26T20:17:31.464Z" = Some 1748290651464%Z.
Proof. vm_compute. reflexivity. Qed.
Example iso_2 : IsoHost.format 1748290651464 = "2025-05-26T20:17:31.464Z".
Proof. vm_compute. reflexivity. Qed.
Example iso_3 : IsoHost.parse "1970-01-01T00:00:00Z" = Some 0%Z.
Proof. vm_compute. reflexivity. Qed.
Example iso_4 : IsoHost.parse "2025-02-29T00:00:00.000Z" = None.
Proof. vm_compute. reflexivity. Qed.
Example iso_5 : IsoHost.format 951782400000 = "2000-02-29T00:00:00.000Z".
Proof. vm_compute. reflexivity. Qed.

(* ===================================================================== *)
(** * Facts about regular expressions *)
(* ===================================================================== *)

Module RegExpFacts.
Import RegExp.

Lemma rep_spec (k : list ascii -> bool) (p : ascii -> bool) :
  forall n m s,
    rep k p m n s = true <->
    exists pre post, s = pre ++ post /\ (m <= List.length pre <= n)%nat
                     /\ forallb p pre = true /\ k post = true.
Proof.
  induction n as [|n IH]; intros m s; simpl.
  - rewrite andb_true_iff, Nat.eqb_eq. split.
    + intros [-> Hk]. exists [], s. simpl. repeat split; auto.
    + intros (pre & post & -> & [Hlo Hhi] & _ & Hk).
      destruct pre; simpl in *; [split; [lia | assumption] | lia].
  - rewrite orb_true_iff. split.
    + intros [H | H].
      * destruct s as [|c s']; [discriminate|].
        apply andb_true_iff in H as [Hc H].
        apply IH in H as (pre & post & -> & [Hlo Hhi] & Hp & Hk).
        exists (c :: pre), post. simpl. rewrite Hc, Hp.
        repeat split; auto; lia.
      * apply andb_true_iff in H as [Hlo Hk]. apply Nat.eqb_eq in Hlo. subst m.
        exists [], s. simpl. repeat split; auto; lia.
    + intros (pre & post & -> & [Hlo Hhi] & Hp & Hk).
      destruct pre as [|c pre]; simpl in *.
      * right. rewrite Hk, andb_true_r. apply Nat.eqb_eq. lia.
      * left. apply andb_true_iff in Hp as [Hc Hp]. rewrite Hc. simpl.
        apply IH. exists pre, post. repeat split; auto; lia.
Qed.

Lemma all_chars (c : ascii) : In c Char.all.
Proof.
  unfold Char.all. rewrite <- (ascii_nat_embedding c).
  apply in_map, in_seq. pose proof (nat_ascii_bounded c). lia.
Qed.

(** A property of characters that holds of each of the 256 bytes. *)
Lemma by_cases (P : ascii -> bool) :
  forallb P Char.all = true -> forall c, P c = true.
Proof.
  intros H c. rewrite forallb_forall in H. apply H, all_chars.
Qed.

Lemma class_match_exact (k : class) (c : ascii) :
  class_match false k c = class_mem k c.
Proof.
  unfold class_match, canonicalize.
  destruct (class_mem k c) eqn:E.
  - apply existsb_exists. exists c. split; [apply all_chars|].
    rewrite E, Ascii.eqb_refl. reflexivity.
  - destruct (existsb _ _) eqn:X; [|reflexivity].
    apply existsb_exists in X as (m & _ & H).
    apply andb_true_iff in H as [Hm He]. apply Ascii.eqb_eq in He. subst m.
    congruence.
Qed.

Lemma class_upper (c : ascii) :
  class_match false [("A", "Z")%char] c = Char.is_upper c.
Proof.
  rewrite class_match_exact. unfold class_mem. simpl. apply orb_false_r.
Qed.

Lemma class_digit (c : ascii) : class_match false digit c = Char.is_digit c.
Proof.
  rewrite class_match_exact. unfold class_mem. simpl. apply orb_false_r.
Qed.

Lemma class_lit (x c : ascii) : class_match false [(x, x)] c = Ascii.eqb c x.
Proof.
  rewrite class_match_exact. unfold class_mem, Char.in_range, Char.code. simpl.
  rewrite orb_false_r.
  destruct (Ascii.eqb c x) eqn:E.
  - apply Ascii.eqb_eq in E. subst. rewrite N.leb_refl. reflexivity.
  - apply andb_false_iff.
    destruct (N.leb_spec (N_of_ascii x) (N_of_ascii c)) as [H1|H1]; [|now left].
    destruct (N.leb_spec (N_of_ascii c) (N_of_ascii x)) as [H2|H2]; [|now right].
    assert (N_of_ascii c = N_of_ascii x) as H by lia.
    apply (f_equal ascii_of_N) in H. rewrite !ascii_N_embedding in H.
    subst. rewrite Ascii.eqb_refl in E. discriminate.
Qed.

Lemma class_generic (c : ascii) :
  class_match true [("A", "Z"); ("0", "9"); ("-", "-"); ("_", "_")]%char c = Char.is_word c.
Proof.
  apply eqb_prop.
  revert c. apply by_cases. vm_compute. reflexivity.
Qed.

Lemma forallb_Forall_iff (p q : ascii -> bool) (l : list ascii) :
  (forall c, p c = q c) ->
  forallb p l = true <-> Forall (fun c => q c = true) l.
Proof.
  intros E. rewrite forallb_forall, Forall_forall.
  split; intros H c Hc; [rewrite <- E | rewrite E]; auto.
Qed.

(** The end of the pattern: [$]. *)
Lemma match_end (i : bool) (s : list ascii) : match_pieces i [] s = true <-> s = [].
Proof. destruct s; simpl; split; congruence. Qed.

Lemma match_cons (i : bool) (p : piece) (ps : list piece) (s : list ascii) :
  match_pieces i (p :: ps) s = true <->
  exists pre post, s = pre ++ post /\ (lo p <= List.length pre <= hi p)%nat
                   /\ forallb (class_match i (cls p)) pre = true
                   /\ match_pieces i ps post = true.
Proof. simpl. apply rep_spec. Qed.

Lemma match_lit (x : ascii) (ps : list piece) (s : list ascii) :
  match_pieces false (lit x :: ps) s = true <->
  exists post, s = x :: post /\ match_pieces false ps post = true.
Proof.
  rewrite match_cons. simpl. split.
  - intros (pre & post & -> & [H1 H2] & Hp & Hk).
    destruct pre as [|c [|d pre]]; simpl in *; try lia.
    rewrite andb_true_r, class_lit in Hp. apply Ascii.eqb_eq in Hp. subst c.
    exists post. auto.
  - intros (post & -> & Hk). exists [x], post. simpl.
    rewrite class_lit, Ascii.eqb_refl. repeat split; auto.
Qed.
End RegExpFacts.


(* ===================================================================== *)
(** * The shipment-ID format predicate *)
(* ===================================================================== *)

Module FormatProofs.
Import RegExp RegExpFacts Models Validators.

Lemma test_upu (id : string) : test PATTERN_UPU id = true <-> Spec.upu_shape id.
Proof.
  unfold test, PATTERN_UPU, Spec.upu_shape, Spec.uppercase, Spec.digits. simpl pieces. simpl ignoreCase.
  rewrite match_cons. simpl lo. simpl hi. simpl cls.
  split.
  - intros (a & r1 & E1 & L1 & F1 & H).
    apply match_cons in H as (b & r2 & -> & L2 & F2 & H).
    apply match_cons in H as (c & r3 & -> & L3 & F3 & H).
    apply match_end in H. subst r3. rewrite app_nil_r in E1.
    simpl in L2, L3.
    exists a, b, c. repeat split; try lia; try assumption.
    + eapply forallb_Forall_iff; [|exact F1]. apply class_upper.
    + eapply forallb_Forall_iff; [|exact F2]. apply class_digit.
    + eapply forallb_Forall_iff; [|exact F3]. apply class_upper.
  - intros (a & b & c & E & La & Fa & Lb & Fb & Lc & Fc).
    exists a, (b ++ c). repeat split; try lia; try assumption.
    + eapply forallb_Forall_iff; [apply class_upper | exact Fa].
    + apply match_cons. exists b, c. cbn [lo hi cls]. repeat split; try lia.
      * eapply forallb_Forall_iff; [apply class_digit | exact Fb].
      * apply match_cons. exists c, []. cbn [lo hi cls]. rewrite app_nil_r. repeat split; try lia.
        eapply forallb_Forall_iff; [apply class_upper | exact Fc].
Qed.

Lemma test_ship (id : string) : test PATTERN_SHIP id = true <-> Spec.prefixed_shape id.
Proof.
  unfold test, PATTERN_SHIP, Spec.prefixed_shape, Spec.digits, Js.bytes. simpl pieces. simpl ignoreCase.
  split.
  - intros H.
    apply match_lit in H as (r1 & E1 & H).
    apply match_lit in H as (r2 & -> & H).
    apply match_lit in H as (r3 & -> & H).
    apply match_lit in H as (r4 & -> & H).
    apply match_lit in H as (r5 & -> & H).
    apply match_cons in H as (ds & r6 & -> & L & F & H).
    apply match_end in H. subst r6. rewrite app_nil_r in E1. simpl in L.
    exists ds. repeat split; try lia; try assumption.
    eapply forallb_Forall_iff; [|exact F]. apply class_digit.
  - intros (ds & E & L & F). rewrite E. cbn [list_ascii_of_string app].
    apply match_lit. eexists. split; [reflexivity|].
    apply match_lit. eexists. split; [reflexivity|].
    apply match_lit. eexists. split; [reflexivity|].
    apply match_lit. eexists. split; [reflexivity|].
    apply match_lit. eexists. split; [reflexivity|].
    apply match_cons. exists ds, []. cbn [lo hi cls]. rewrite app_nil_r. repeat split; try lia.
    eapply forallb_Forall_iff; [apply class_digit | exact F].
Qed.

Lemma is_word_iff (c : ascii) :
  Char.is_word c = true <-> Char.is_alnum c = true \/ c = "-"%char \/ c = "_"%char.
Proof.
  unfold Char.is_word. rewrite !orb_true_iff, !Ascii.eqb_eq. tauto.
Qed.

Lemma test_generic (id : string) : test PATTERN_GENERIC id = true <-> Spec.generic_shape id.
Proof.
  unfold test, PATTERN_GENERIC, Spec.generic_shape, Js.bytes. simpl pieces. simpl ignoreCase.
  rewrite match_cons. simpl lo. simpl hi. simpl cls.
  split.
  - intros (pre & post & E & L & F & H). apply match_end in H. subst post.
    rewrite app_nil_r in E. rewrite E. split; [lia|].
    apply (forallb_Forall_iff _ _ _ class_generic) in F.
    eapply Forall_impl; [|exact F]. intros c. apply is_word_iff.
  - intros [L F]. exists (list_ascii_of_string id), []. rewrite app_nil_r.
    repeat split; try lia.
    apply (forallb_Forall_iff _ _ _ class_generic).
    eapply Forall_impl; [|exact F]. intros c. apply is_word_iff.
Qed.

(** C6: the format predicate is true exactly of the identifiers that have
    one of the three shapes (two uppercase letters, nine digits, two
    uppercase letters; the prefix SHIP, a hyphen and six to twelve digits;
    five to fifty letters of either case, digits, hyphens and underscores),
    and it is false of the empty string. *)
Theorem validateShipmentIdFormat_shapes :
  (forall id : string,
      validateShipmentIdFormat id = true
      <-> Spec.upu_shape id \/ Spec.prefixed_shape id \/ Spec.generic_shape id)
  /\ validateShipmentIdFormat "" = false.
Proof.
  split; [|vm_compute; reflexivity].
  intros id. unfold validateShipmentIdFormat, SHIPMENT_ID_PATTERNS. simpl existsb.
  rewrite !orb_true_iff, test_upu, test_ship, test_generic.
  intuition discriminate.
Qed.
End FormatProofs.

(* ===================================================================== *)
(** * The timestamp window *)
(* ===================================================================== *)

Module TimestampProofs.
Import Validators Spec.

Lemma validateEventTimestamp_true_iff {host : Host} (now : Z) (ts : string) :
  validateEventTimestamp now ts = true
  <-> exists t, Date_parse ts = Some t /\ (now - days 365 <= t <= now + minutes 5)%Z.
Proof.
  unfold validateEventTimestamp, days, minutes.
  destruct (Date_parse ts) as [t|].
  - rewrite andb_true_iff, Z.leb_le, Z.geb_le. split.
    + intros [H1 H2]. exists t. split; [reflexivity | lia].
    + intros (u & E & H). injection E as <-. lia.
  - split; [discriminate | intros (u & E & _); discriminate].
Qed.

(** C5: an unparseable timestamp is rejected; a parseable one is accepted
    exactly when it lies between one year (365 days) before and five minutes
    after the clock reading, both ends included; five minutes and one second
    after it is rejected. *)
Theorem validateEventTimestamp_window {host : Host} (now : Z) (ts : string) :
  (Date_parse ts = None -> validateEventTimestamp now ts = false)
  /\ (forall t, Date_parse ts = Some t ->
        (validateEventTimestamp now ts = true
         <-> (now - days 365 <= t <= now + minutes 5)%Z))
  /\ (Date_parse ts = Some (now + minutes 5)%Z -> validateEventTimestamp now ts = true)
  /\ (Date_parse ts = Some (now - days 365)%Z -> validateEventTimestamp now ts = true)
  /\ (Date_parse ts = Some (now + minutes 5 + seconds 1)%Z
      -> validateEventTimestamp now ts = false).
Proof.
  unfold validateEventTimestamp, days, minutes, seconds.
  repeat split.
  - intros ->. reflexivity.
  - destruct (Date_parse ts) as [u|]; [|discriminate].
    injection H as ->. apply andb_true_iff in H0 as [H1 H2].
    apply Z.geb_le in H2. lia.
  - destruct (Date_parse ts) as [u|]; [|discriminate].
    injection H as ->. apply andb_true_iff in H0 as [H1 H2].
    apply Z.leb_le in H1. lia.
  - intros [H1 H2]. rewrite H. apply andb_true_iff. split.
    + apply Z.leb_le. lia.
    + apply Z.geb_le. lia.
  - intros ->. apply andb_true_iff. split; [apply Z.leb_le | apply Z.geb_le]; lia.
  - intros ->. apply andb_true_iff. split; [apply Z.leb_le | apply Z.geb_le]; lia.
  - intros ->. apply andb_false_iff. left. apply Z.leb_gt. lia.
Qed.

(** At 20:17:31.464 a timestamp of 20:22:31.464 the same day is exactly
    five minutes ahead, and accepted. *)
Lemma validateEventTimestamp_window_witness :
  @validateEventTimestamp Sample.host Sample.T0 "2025-05-26T20:22:31.464Z" = true.
Proof.
  apply (proj1 (proj2 (proj2 (@validateEventTimestamp_window Sample.host Sample.T0
                                 "2025-05-26T20:22:31.464Z")))).
  vm_compute. reflexivity.
Defined.

End TimestampProofs.

(* ===================================================================== *)
(** * The query parameters of the history request *)
(* ===================================================================== *)

Module QueryProofs.
Import Models Validators.

Lemma truthy_some (s : string) : s <> "" -> Js.truthy (Some s) = true.
Proof.
  intros H. unfold Js.truthy. destruct (String.eqb_spec s ""); [contradiction | reflexivity].
Qed.

Lemma truthy_true (v : option string) :
  Js.truthy v = true <-> exists s, v = Some s /\ s <> "".
Proof.
  split.
  - destruct v as [s|]; simpl; [|discriminate].
    destruct (String.eqb_spec s ""); [discriminate|]. intros _. exists s. auto.
  - intros (s & -> & H). apply truthy_some, H.
Qed.

Lemma limit_refine_range (n : Z) :
  limit_refine (Some n) = true <-> (1 <= n <= 100)%Z.
Proof.
  unfold limit_refine, VALIDATION_LIMITS.QUERY_LIMIT.MIN, VALIDATION_LIMITS.QUERY_LIMIT.MAX.
  rewrite andb_true_iff, Z.geb_le, Z.leb_le. lia.
Qed.

(** C9, the input on which it fails: [limit] is present with the empty
    string as its value, which [parseInt] does not read as a number, and the
    query is accepted with the default limit. *)
Lemma GetEventsQuerySchema_accepts_empty_limit :
  lookup [("limit", "")] "limit" = Some ""
  /\ Js.parseInt10 "" = None
  /\ GetEventsQuerySchema [("limit", "")] = inr (mkQuery 50 None).
Proof. repeat split. Qed.

(** C9, amended: when [limit] is absent or empty the limit is 50; when it
    is present and not empty the query is accepted exactly when [parseInt]
    reads an integer between 1 and 100 from it, which is then the limit, and
    it is rejected with a validation issue otherwise, in particular for 0
    and for values above 100; [startKey] is handed on as it came. *)
Theorem GetEventsQuerySchema_limit (q : params) :
  (lookup q "limit" = None \/ lookup q "limit" = Some ""
   -> GetEventsQuerySchema q = inr (mkQuery 50 (lookup q "startKey")))
  /\ (forall s, lookup q "limit" = Some s -> s <> "" ->
        (forall r, GetEventsQuerySchema q = inr r
                   <-> exists n, Js.parseInt10 s = Some n /\ (1 <= n <= 100)%Z
                                 /\ r = mkQuery n (lookup q "startKey"))
        /\ (forall n, Js.parseInt10 s = Some n -> (n = 0 \/ 100 < n)%Z ->
              exists issues, GetEventsQuerySchema q = inl issues)
        /\ (Js.parseInt10 s = None -> exists issues, GetEventsQuerySchema q = inl issues)).
Proof.
  unfold GetEventsQuerySchema, limit_transform. split.
  - intros [-> | ->]; reflexivity.
  - intros s -> Hs. rewrite (truthy_some s Hs).
    destruct (Js.parseInt10 s) as [n|] eqn:P.
    + destruct (limit_refine (Some n)) eqn:R.
      * apply limit_refine_range in R. repeat split.
        -- intros H. injection H as <-. exists n. auto.
        -- intros (m & Hm & _ & ->). congruence.
        -- intros m Hm. injection Hm as <-. lia.
        -- discriminate.
      * assert (~ (1 <= n <= 100)%Z) as N.
        { intros H. apply limit_refine_range in H. congruence. }
        repeat split.
        -- discriminate.
        -- intros (m & Hm & Hr & _). congruence.
        -- intros _ _ _. eexists. reflexivity.
        -- discriminate.
    + repeat split.
      * discriminate.
      * intros (m & Hm & _). discriminate.
      * discriminate.
      * intros _. eexists. reflexivity.
Qed.

(** The query [limit=25&startKey=abc] is accepted with limit 25 and the
    start key [abc]. *)
Lemma GetEventsQuerySchema_limit_witness :
  GetEventsQuerySchema [("limit", "25"); ("startKey", "abc")] = inr (mkQuery 25 (Some "abc")).
Proof.
  apply (proj1 (proj2 (@GetEventsQuerySchema_limit [("limit", "25"); ("startKey", "abc")])
                      "25" eq_refl ltac:(discriminate))).
  exists 25%Z. repeat split; vm_compute; congruence.
Defined.

End QueryProofs.

(* ===================================================================== *)
(** * Base64 *)
(* ===================================================================== *)

Module Base64Facts.
Import Js.Base64.

Lemma code_bound (c : ascii) : (Char.code c < 256)%N.
Proof. apply N_ascii_bounded. Qed.

Lemma byte_code (c : ascii) : byte (Char.code c) = c.
Proof.
  unfold byte, Char.code. rewrite N.mod_small by apply N_ascii_bounded.
  apply ascii_N_embedding.
Qed.

Lemma enc_sound (v : N) :
  (v < 64)%N -> Ascii.eqb (enc v) "=" = false /\ unbase64 (enc v) = Some v.
Proof.
  intros H.
  pose (sound := fun v =>
          negb (Ascii.eqb (enc v) "=")
          && match unbase64 (enc v) with Some u => (u =? v)%N | None => false end).
  assert (forallb sound (map N.of_nat (seq 0 64)) = true) as A by (vm_compute; reflexivity).
  rewrite forallb_forall in A.
  specialize (A v). unfold sound in A.
  assert (In v (map N.of_nat (seq 0 64))) as I.
  { rewrite <- (N2Nat.id v). apply in_map, in_seq. lia. }
  apply A in I. apply andb_true_iff in I as [I1 I2].
  split; [now apply negb_true_iff in I1|].
  destruct (unbase64 (enc v)) as [u|]; [|discriminate].
  apply N.eqb_eq in I2. congruence.
Qed.

Lemma sextets_enc (v : N) (r : list ascii) :
  (v < 64)%N -> sextets (enc v :: r) = v :: sextets r.
Proof.
  intros H. destruct (enc_sound v H) as [E U]. simpl. rewrite E, U. reflexivity.
Qed.

Lemma sextets_pad (r : list ascii) : sextets ("="%char :: r) = [].
Proof. reflexivity. Qed.

Ltac divmod := zify; Z.to_euclidean_division_equations; lia.

(** Lists, three elements at a time. *)
Lemma list_ind3 (A : Type) (P : list A -> Prop) :
  P [] -> (forall a, P [a]) -> (forall a b, P [a; b]) ->
  (forall a b c r, P r -> P (a :: b :: c :: r)) ->
  forall l, P l.
Proof.
  intros H0 H1 H2 H3.
  fix IH 1. intros [|a [|b [|c r]]]; [apply H0 | apply H1 | apply H2 | apply H3, IH].
Qed.

Lemma byte_of (n : N) (c : ascii) : n = Char.code c -> byte n = c.
Proof. intros ->. apply byte_code. Qed.

Theorem decode_encode (l : list ascii) : decode (encode l) = l.
Proof.
  unfold decode.
  induction l as [|a|a b|a b c r IH] using list_ind3.
  - reflexivity.
  - pose proof (code_bound a). cbn [encode].
    rewrite !sextets_enc, sextets_pad by divmod. cbn [join].
    f_equal. apply byte_of. divmod.
  - pose proof (code_bound a). pose proof (code_bound b). cbn [encode].
    rewrite !sextets_enc, sextets_pad by divmod. cbn [join].
    f_equal; [|f_equal]; apply byte_of; divmod.
  - pose proof (code_bound a). pose proof (code_bound b). pose proof (code_bound c).
    cbn [encode].
    rewrite !sextets_enc by divmod. cbn [join]. rewrite IH.
    f_equal; [|f_equal; [|f_equal]]; apply byte_of; divmod.
Qed.

Lemma bytes_str (l : list ascii) : Js.bytes (Js.str l) = l.
Proof. apply list_ascii_of_string_of_list_ascii. Qed.

Lemma str_bytes (s : string) : Js.str (Js.bytes s) = s.
Proof. apply string_of_list_ascii_of_string. Qed.

Theorem from_base64_to_base64 (s : string) : Js.from_base64 (Js.to_base64 s) = s.
Proof.
  unfold Js.from_base64, Js.to_base64. rewrite bytes_str, decode_encode. apply str_bytes.
Qed.

Lemma encode_nonempty (l : list ascii) : l <> [] -> encode l <> [].
Proof. destruct l as [|a [|b [|c r]]]; simpl; congruence. Qed.

End Base64Facts.

(* ===================================================================== *)
(** * JSON: reading back what was written *)
(* ===================================================================== *)

Module JSONFacts.
Import JSON.

(** Reading back one quoted character. *)
Lemma read_chars_quote_char (c : ascii) (tail : list ascii) :
  read_chars (quote_char c ++ tail) = and_then [c] (read_chars tail).
Proof.
  destruct c as [[] [] [] [] [] [] [] []]; reflexivity.
Qed.

Lemma read_chars_quoted (l rest : list ascii) :
  read_chars (flat_map quote_char l ++ dquote :: rest) = Some (l, rest).
Proof.
  induction l as [|c l IH]; [reflexivity|].
  cbn [flat_map]. rewrite <- app_assoc, read_chars_quote_char, IH. reflexivity.
Qed.

Lemma quote_unfold (s : string) (rest : list ascii) :
  quote s ++ rest = dquote :: flat_map quote_char (Js.bytes s) ++ dquote :: rest.
Proof. unfold quote. simpl. rewrite <- app_assoc. reflexivity. Qed.

(** A string literal, read back as a value. *)
Lemma read_value_string (f : nat) (s : string) (rest : list ascii) :
  read_value (S f) (quote s ++ rest) = Some (Str s, rest).
Proof.
  rewrite quote_unfold. cbn [read_value skip_ws].
  change (is_ws dquote) with false. cbv iota.
  change (Ascii.eqb dquote dquote) with true. cbv iota.
  rewrite read_chars_quoted. unfold Js.str, Js.bytes.
  rewrite string_of_list_ascii_of_string. reflexivity.
Qed.


Lemma write_key (k : Dynamo.Key) :
  write (Dynamo.json_of_key k) =
  "{"%char :: quote "shipmentId" ++ ":"%char :: quote (Dynamo.k_shipmentId k)
     ++ ","%char :: quote "id" ++ ":"%char :: quote (Dynamo.k_id k) ++ ["}"%char].
Proof.
  unfold Dynamo.json_of_key. cbn [write]. 
  repeat (rewrite <- ?app_assoc; cbn [app]). reflexivity.
Qed.

Lemma skip_ws_keep (c : ascii) (r : list ascii) :
  is_ws c = false -> skip_ws (c :: r) = c :: r.
Proof. intros H. simpl. rewrite H. reflexivity. Qed.

(** One member with a string value, up to the separator that follows. *)
Lemma read_member (f : nat) (k v : string) (sep : ascii) (tail : list ascii) :
  is_ws sep = false ->
  exists r, read_chars (List.tl (quote k ++ ":"%char :: quote v ++ sep :: tail))
            = Some (Js.bytes k, ":"%char :: r)
            /\ read_value (S f) r = Some (Str v, sep :: tail)
            /\ skip_ws (sep :: tail) = sep :: tail.
Proof.
  intros H. exists (quote v ++ sep :: tail). repeat split.
  - rewrite quote_unfold. cbn [List.tl]. apply read_chars_quoted.
  - apply read_value_string.
  - apply skip_ws_keep, H.
Qed.

Lemma read_members_step (f : nat) (k v : string) (sep : ascii) (tail : list ascii) :
  is_ws sep = false ->
  read_members (S (S f)) (quote k ++ ":"%char :: quote v ++ sep :: tail) =
  if Ascii.eqb sep ","
  then match read_members (S f) tail with
       | Some (ms, r) => Some ((k, Str v) :: ms, r)
       | None => None
       end
  else if Ascii.eqb sep "}" then Some ([(k, Str v)], tail) else None.
Proof.
  intros H. destruct (@read_member f k v sep tail H) as (r & R1 & R2 & R3).
  rewrite quote_unfold in *. cbn [List.tl] in R1.
  cbn [read_members].
  rewrite skip_ws_keep by reflexivity.
  cbn [eat]. change (Ascii.eqb dquote dquote) with true. cbv iota.
  rewrite R1.
  rewrite skip_ws_keep by reflexivity. cbn [eat].
  change (Ascii.eqb ":" ":") with true. cbv iota.
  rewrite R2, R3. unfold Js.str, Js.bytes. rewrite string_of_list_ascii_of_string.
  reflexivity.
Qed.

Lemma read_value_key (k : Dynamo.Key) (f : nat) :
  read_value (4 + f) (write (Dynamo.json_of_key k)) = Some (Dynamo.json_of_key k, []).
Proof.
  rewrite write_key. cbn [Nat.add read_value].
  rewrite skip_ws_keep by reflexivity.
  change (Ascii.eqb "{" dquote) with false.
  change (Ascii.eqb "{" "[") with false.
  change (Ascii.eqb "{" "{") with true. cbv iota.
  rewrite (quote_unfold "shipmentId"). rewrite skip_ws_keep by reflexivity.
  cbn [eat]. change (Ascii.eqb dquote "}") with false. cbv iota.
  rewrite <- (quote_unfold "shipmentId").
  rewrite read_members_step by reflexivity.
  change (Ascii.eqb "," ",") with true. cbv iota.
  rewrite (@read_members_step f "id" (Dynamo.k_id k) "}" []) by reflexivity.
  reflexivity.
Qed.

Theorem parse_stringify_key (k : Dynamo.Key) :
  parse (stringify (Dynamo.json_of_key k)) = Some (Dynamo.json_of_key k).
Proof.
  unfold parse, stringify. unfold Js.bytes, Js.str.
  rewrite list_ascii_of_string_of_list_ascii.
  assert (exists f, 2 * List.length (write (Dynamo.json_of_key k)) + 2 = 4 + f) as [f ->].
  { rewrite write_key. cbn [List.length]. eexists. 
    rewrite Nat.mul_succ_r. rewrite Nat.add_comm. cbn [Nat.add]. rewrite Nat.add_comm. cbn [Nat.add]. reflexivity. }
  rewrite read_value_key. reflexivity.
Qed.

End JSONFacts.

(* ===================================================================== *)
(** * Runs: what a returned value tells about the steps *)
(* ===================================================================== *)

Module RunFacts.
Import Run.

Lemma bind_return {A B} (m : M A) (k : A -> M B) (w w' : World) (b : B) :
  bind m k w = (Return b, w') ->
  exists a w1, m w = (Return a, w1) /\ k a w1 = (Return b, w').
Proof.
  unfold bind. destruct (m w) as [[a|e] w1]; [|discriminate].
  intros H. exists a, w1. auto.
Qed.

Lemma bind_step {A B} (m : M A) (k : A -> M B) (w w1 : World) (a : A) :
  m w = (Return a, w1) -> bind m k w = k a w1.
Proof. unfold bind. intros ->. reflexivity. Qed.

Lemma try_catch_body {A} (body : M A) (handler : string -> M A) (w w' : World) (a : A) :
  body w = (Return a, w') -> try_catch body handler w = (Return a, w').
Proof. unfold try_catch. intros ->. reflexivity. Qed.

Section WithHost.
Context {host : Host}.

Lemma QueryCommand_return (q : Dynamo.QueryInput) (w w' : World) (out : Dynamo.QueryOutput) :
  QueryCommand q w = (Return out, w') ->
  fault_at (sends w) = None /\ Dynamo.query (table w) q = inr out
  /\ w' = after_send w (table w).
Proof.
  unfold QueryCommand, send.
  destruct (fault_at (sends w)); [discriminate|].
  destruct (Dynamo.query (table w) q) as [e|o]; [discriminate|].
  intros H. injection H as <- <-. auto.
Qed.

Lemma QueryCommand_run (q : Dynamo.QueryInput) (w : World) (out : Dynamo.QueryOutput) :
  fault_at (sends w) = None -> Dynamo.query (table w) q = inr out ->
  QueryCommand q w = (Return out, after_send w (table w)).
Proof. unfold QueryCommand, send. intros -> ->. reflexivity. Qed.

Lemma PutCommand_return (item : Models.ShipmentEvent) (w w' : World) (u : unit) :
  PutCommand item w = (Return u, w') ->
  fault_at (sends w) = None /\ w' = after_send w (Dynamo.put item (table w)).
Proof.
  unfold PutCommand, send.
  destruct (fault_at (sends w)); [discriminate|].
  intros H. injection H as _ <-. auto.
Qed.

End WithHost.
End RunFacts.

(* ===================================================================== *)
(** * Facts about the table *)
(* ===================================================================== *)

Module DynamoFacts.
Import Models Dynamo.

Lemma query_limit (t : Table) (q : QueryInput) (out : QueryOutput) :
  query t q = inr out ->
  (1 <= Limit q)%Z
  /\ exists after, out = run_query t (q_shipmentId q) (FilterExpression q)
                                   (Z.to_nat (Limit q)) after.
Proof.
  unfold query. destruct (Z.ltb_spec (Limit q) 1) as [L|L]; [discriminate|].
  destruct (ExclusiveStartKey q) as [v|].
  - destruct (key_of_json v) as [k|]; [|discriminate].
    destruct (k_shipmentId k =? q_shipmentId q)%string; [|discriminate].
    intros H. injection H as <-. split; [assumption|]. eexists. reflexivity.
  - intros H. injection H as <-. split; [assumption|]. eexists. reflexivity.
Qed.


End DynamoFacts.

(* ===================================================================== *)
(** * Facts about the service *)
(* ===================================================================== *)

Module ServiceFacts.
Import Models Run RunFacts Service.



Section WithHost.
Context {host : Host}.

Lemma history_command_return (sid : string) (lim : Z) (sk : option string)
      (w w' : World) (c : Dynamo.QueryInput) :
  history_command sid lim sk w = (Return c, w') ->
  w' = w
  /\ exists start, c = Dynamo.mkQueryInput sid None lim start
     /\ (Js.truthy sk = false -> start = None)
     /\ (Js.truthy sk = true ->
         exists s, sk = Some s /\ JSON.parse (Js.from_base64 s) = start).
Proof.
  unfold history_command. intros H.
  apply bind_return in H as (start & w1 & H1 & H2).
  unfold ret in H2. injection H2 as <- <-.
  destruct (Js.truthy sk) eqn:T.
  - apply bind_return in H1 as (v & w2 & D & R). unfold ret in R. injection R as <- <-.
    unfold decode_key in D.
    destruct (JSON.parse _) as [x|] eqn:P; [|discriminate].
    unfold ret in D. injection D as <- <-.
    split; [reflexivity|]. exists (Some x). repeat split; [discriminate|].
    intros _. destruct sk as [s|]; [|discriminate]. exists s. split; [reflexivity|].
    unfold Js.truthy in T. unfold Js.or_else in P.
    destruct (s =? "")%string; [discriminate | exact P].
  - unfold ret in H1. injection H1 as <- <-.
    split; [reflexivity|]. exists None. repeat split. discriminate.
Qed.

Lemma getEventHistory_return (sid : string) (limit : option Z) (sk : option string)
      (w w' : World) (page : HistoryPage) :
  getEventHistory sid limit sk w = (Return page, w') ->
  exists c out,
    history_command sid (match limit with Some n => n | None => 50%Z end) sk w = (Return c, w)
    /\ fault_at (sends w) = None
    /\ Dynamo.query (table w) c = inr out
    /\ page = page_of out
    /\ w' = after_send w (table w).
Proof.
  unfold getEventHistory. intros H.
  apply bind_return in H as (c & w1 & H1 & H2).
  pose proof (history_command_return _ _ _ _ _ _ H1) as [-> _].
  apply bind_return in H2 as (out & w2 & Q & R).
  apply QueryCommand_return in Q as (F & Q & ->).
  unfold ret in R. injection R as <- <-.
  exists c, out. auto.
Qed.

End WithHost.
End ServiceFacts.

(* ===================================================================== *)
(** * The pagination cursor *)
(* ===================================================================== *)

Module CursorProofs.
Import Models Run RunFacts Service ServiceFacts.

Lemma encode_key_nonempty (k : Dynamo.Key) : encode_key k <> "".
Proof.
  unfold encode_key, Js.to_base64, JSON.stringify. rewrite Base64Facts.bytes_str.
  rewrite JSONFacts.write_key. cbn [Js.Base64.encode app].
  destruct (JSON.quote "shipmentId" ++ _) as [|b [|c r]]; discriminate.
Qed.

Lemma parse_encoded_key (k : Dynamo.Key) :
  JSON.parse (Js.from_base64 (encode_key k)) = Some (Dynamo.json_of_key k).
Proof.
  unfold encode_key. rewrite Base64Facts.from_base64_to_base64.
  apply JSONFacts.parse_stringify_key.
Qed.

Lemma key_of_json_of_key (k : Dynamo.Key) :
  Dynamo.key_of_json (Dynamo.json_of_key k) = Some k.
Proof. destruct k. reflexivity. Qed.

(** C8: the [nextKey] of a page is the base64 encoding of the JSON encoding
    of the key the store stopped at; decoding it gives that key back, so a
    request that carries it as [startKey] sends a query whose
    [ExclusiveStartKey] is the original key. *)
Theorem cursor_round_trip {host : Host} :
  (forall sid limit startKey w w' page,
      getEventHistory sid limit startKey w = (Return page, w') ->
      exists c out,
        history_command sid (match limit with Some n => n | None => 50%Z end) startKey w
        = (Return c, w)
        /\ Dynamo.query (table w) c = inr out
        /\ hasMore page = is_some (Dynamo.LastEvaluatedKey out)
        /\ nextKey page
           = option_map (fun k => Js.to_base64 (JSON.stringify (Dynamo.json_of_key k)))
                        (Dynamo.LastEvaluatedKey out))
  /\ (forall k : Dynamo.Key,
        JSON.parse (Js.from_base64 (Js.to_base64 (JSON.stringify (Dynamo.json_of_key k))))
        = Some (Dynamo.json_of_key k)
        /\ Dynamo.key_of_json (Dynamo.json_of_key k) = Some k
        /\ forall sid limit w,
            history_command sid limit
                            (Some (Js.to_base64 (JSON.stringify (Dynamo.json_of_key k)))) w
            = (Return (Dynamo.mkQueryInput sid None limit (Some (Dynamo.json_of_key k))), w)).
Proof.
  split.
  - intros sid limit startKey w w' page H.
    apply getEventHistory_return in H as (c & out & C & _ & Q & -> & _).
    exists c, out. repeat split; assumption.
  - intros k. split; [apply parse_encoded_key|]. split; [apply key_of_json_of_key|].
    intros sid limit w. unfold history_command.
    fold (encode_key k).
    rewrite (QueryProofs.truthy_some _ (encode_key_nonempty k)).
    unfold Js.or_else.
    destruct (String.eqb_spec (encode_key k) "") as [E|_];
      [destruct (encode_key_nonempty k E)|].
    unfold decode_key. rewrite parse_encoded_key. reflexivity.
Qed.

End CursorProofs.

(* ===================================================================== *)
(** * The history request: empty pages *)
(* ===================================================================== *)

Module HistoryProofs.
Import Models Run RunFacts Service ServiceFacts Validators Response.





End HistoryProofs.

(* ===================================================================== *)
(** * Recording an event *)
(* ===================================================================== *)

Module WriteProofs.
Import Models Run RunFacts Service ServiceFacts Validators Response Spec.

(** An answer that is not 201 in a run whose answer is 201. *)
Ltac refuted H C :=
  repeat match type of H with
         | context [if ?b then _ else _] => destruct b
         end;
  unfold ret in H; injection H as <- <-; cbv in C; discriminate C.

Section WithHost.
Context {host : Host}.

Lemma CreateEventSchema_timestamp (body : JSON.value) (request : CreateEventRequest) :
  CreateEventSchema body = inr request -> zod_datetime (req_timestamp request) = true.
Proof.
  unfold CreateEventSchema. destruct body as [| | | |vs|ms]; try discriminate.
  destruct (JSON.get ms "timestamp") as [[| | |s| |]|]; try discriminate.
  destruct (zod_datetime s) eqn:Z; [|discriminate].
  cbn [fst snd app].
  destruct (fst _ ++ _); [|discriminate].
  destruct (snd _); [|discriminate].
  intros H. injection H as <-. exact Z.
Qed.

Lemma timestamp_nonempty (body : JSON.value) (request : CreateEventRequest) :
  CreateEventSchema body = inr request -> Js.truthy (Some (req_timestamp request)) = true.
Proof.
  intros H. apply CreateEventSchema_timestamp in H. apply QueryProofs.truthy_some.
  intros E. rewrite E, zod_datetime_nonempty in H. discriminate.
Qed.

Lemma recordEvent_created (event : Api.APIGatewayProxyEvent) (sid : string)
      (request : CreateEventRequest) (w w' : World) (r : APIGatewayProxyResult) :
  accepted_request event sid request ->
  Api.recordEvent event w = (Return r, w') ->
  statusCode r = StatusCodes.CREATED ->
  let ts := req_timestamp request in
  let st := req_status request in
  let det := Some (Js.or_else (req_details request) (SHIPMENT_STATUS_DESCRIPTIONS st)) in
  let returned := mkEvent (uuid_at (uuid_calls w)) sid ts st (req_location request) det
                          (Date_toISOString (clock_at (S (clock_reads w)))) in
  let stored := mkEvent (uuid_at (S (uuid_calls w))) sid ts st (req_location request) det
                        (Date_toISOString (clock_at (S (S (clock_reads w))))) in
  r = successResponse (OneEvent returned) (Some "Event created successfully")
                      StatusCodes.CREATED
  /\ w' = mkWorld (Dynamo.put stored (table w)) (S (S (uuid_calls w)))
                  (S (S (S (clock_reads w)))) (S (S (sends w)))
  /\ validateEventTimestamp (clock_at (clock_reads w)) ts = true.
Proof.
  intros (P & B & J & S) H C. pose proof (timestamp_nonempty _ _ S) as T.
  unfold Api.recordEvent, try_catch in H. rewrite P, B, J, S in H.
  cbn [negb] in H.
  unfold bind at 1 in H. unfold new_Date at 1 in H.
  destruct (validateEventTimestamp _ _) eqn:V; cbn [negb] in H; [|refuted H C].
  unfold bind at 1 in H. unfold shippmentEventExist at 1 in H.
  unfold bind at 1 in H. unfold QueryCommand, send in H. cbn [sends table uuid_calls clock_reads] in H.
  destruct (fault_at (sends w)) as [e|] eqn:F1; [refuted H C|].
  destruct (Dynamo.query _ _) as [e|out] eqn:Q; [refuted H C|].
  unfold ret at 1 in H. cbn [fst] in H.
  destruct (0 <? List.length (Dynamo.Items out))%nat eqn:D; [refuted H C|].
  unfold bind at 1 in H. unfold uuidv4 at 1 in H.
  unfold bind at 1 in H. unfold new_Date at 1 in H.
  unfold bind at 1 in H. unfold createEvent at 1 in H.
  unfold bind at 1 in H. unfold uuidv4 at 1 in H.
  cbn [p_timestamp partial_of timestamp] in H. rewrite T in H.
  unfold bind at 1 in H. unfold ret at 1 in H.
  unfold bind at 1 in H. unfold new_Date at 1 in H.
  unfold bind at 1 in H. unfold PutCommand, send in H.
  cbn [sends table uuid_calls clock_reads] in H.
  destruct (fault_at (Datatypes.S (sends w))) as [e|] eqn:F2; [refuted H C|].
  unfold ret in H. injection H as <- <-.
  cbn [p_status p_location p_details partial_of status location details].
  unfold Js.truthy in T.
  destruct (req_timestamp request =? ""); [discriminate|].
  auto.
Qed.

(** C10: a valid write request whose timestamp is parseable and lies more
    than 365 days before the clock reading is answered 400 with the error
    [Event timestamp cannot be in the future], exactly as one whose timestamp
    lies more than five minutes after it; nothing is written. *)
Theorem recordEvent_too_old_says_future (event : Api.APIGatewayProxyEvent) (sid : string)
        (request : CreateEventRequest) (w : World) (t : Z) :
  accepted_request event sid request ->
  Date_parse (req_timestamp request) = Some t ->
  (t < clock_at (clock_reads w) - days 365 \/ clock_at (clock_reads w) + minutes 5 < t)%Z ->
  Api.recordEvent event w
  = (Return (errorResponse "Event timestamp cannot be in the future"
                           StatusCodes.BAD_REQUEST),
     mkWorld (table w) (uuid_calls w) (S (clock_reads w)) (sends w)).
Proof.
  intros (P & B & J & S) D O.
  assert (validateEventTimestamp (clock_at (clock_reads w)) (req_timestamp request) = false)
    as V.
  { destruct (validateEventTimestamp _ _) eqn:V; [|reflexivity].
    apply TimestampProofs.validateEventTimestamp_true_iff in V as (u & E & H).
    rewrite D in E. injection E as <-. lia. }
  unfold Api.recordEvent, try_catch. rewrite P, B, J, S. cbn [negb].
  unfold bind at 1. unfold new_Date at 1. rewrite V. reflexivity.
Qed.

End WithHost.

(** A write dated 2024-01-15, sixteen months before the clock of the
    sample host. *)
Lemma recordEvent_too_old_says_future_witness :
  @Api.recordEvent Sample.host Sample.write_old (Sample.start [])
  = (Return (errorResponse "Event timestamp cannot be in the future"
                           StatusCodes.BAD_REQUEST),
     mkWorld [] 0 1 0).
Proof.
  apply (@recordEvent_too_old_says_future
           Sample.host Sample.write_old Sample.SHIP
           (mkRequest "2024-01-15T10:30:00.000Z" CREATED None None)
           (Sample.start []) 1705314600000%Z).
  - unfold accepted_request. repeat split; vm_compute; reflexivity.
  - vm_compute. reflexivity.
  - left. vm_compute. reflexivity.
Defined.

End WriteProofs.

(* ===================================================================== *)
(** * The details of a stored event *)
(* ===================================================================== *)

Module DetailsProofs.
Import Models Run Validators Response Spec.

(** C4, the input on which it fails: [details] is supplied as the empty
    string, the request is valid, and the stored details are the description
    of the status instead of the caller's value. *)
Lemma recordEvent_replaces_empty_details :
  @CreateEventSchema Sample.host
     (parseJSON (Js.or_else (Api.body Sample.write_empty_details) ""))
  = inr (mkRequest "2025-01-01T00:00:00.000Z" CREATED None (Some ""))
  /\ map details
         (table (snd (@Api.recordEvent Sample.host Sample.write_empty_details
                                       (Sample.start []))))
     = [Some "Shipment has been created and registered in the system"].
Proof. split; vm_compute; reflexivity. Qed.

(** C4, amended: after a valid write request that is answered 201 the table
    holds one new record; its details are the fixed description of its
    status when the request had no [details] or an empty one, and the
    caller's value, unchanged, when [details] was a non-empty string.  The
    description is defined for each of the ten statuses. *)
Theorem recordEvent_stored_details {host : Host} (event : Api.APIGatewayProxyEvent)
        (sid : string) (request : CreateEventRequest) (w w' : World)
        (r : APIGatewayProxyResult) :
  accepted_request event sid request ->
  Api.recordEvent event w = (Return r, w') ->
  statusCode r = StatusCodes.CREATED ->
  List.length VALID_SHIPMENT_STATUSES = 10
  /\ (forall st, In st VALID_SHIPMENT_STATUSES)
  /\ exists e,
      table w' = Dynamo.put e (table w)
      /\ shipmentId e = sid
      /\ status e = req_status request
      /\ (req_details request = None \/ req_details request = Some ""
          -> details e = Some (SHIPMENT_STATUS_DESCRIPTIONS (status e)))
      /\ (forall d, req_details request = Some d -> d <> ""
          -> details e = Some d).
Proof.
  intros A H C.
  destruct (WriteProofs.recordEvent_created _ _ _ _ _ _ A H C) as (_ & -> & _).
  split; [reflexivity|]. split; [intros []; simpl; tauto|].
  eexists. split; [reflexivity|]. cbn [shipmentId status details table].
  repeat split.
  - intros [-> | ->]; reflexivity.
  - intros d -> D. unfold Js.or_else.
    destruct (String.eqb_spec d ""); [contradiction | reflexivity].
Qed.

(** The write with the details [Left at depot] stores them as they are. *)
Lemma recordEvent_stored_details_witness :
  map details
      (table (snd (@Api.recordEvent Sample.host Sample.write_with_details
                                    (Sample.start []))))
  = [Some "Left at depot"].
Proof.
  destruct (@Api.recordEvent Sample.host Sample.write_with_details (Sample.start []))
    as [o w'] eqn:R.
  assert (exists r, o = Return r /\ statusCode r = StatusCodes.CREATED) as (r & -> & C).
  { vm_compute in R. injection R as <- _. eexists. split; reflexivity. }
  destruct (@recordEvent_stored_details
              Sample.host Sample.write_with_details Sample.SHIP
              (mkRequest "2025-01-01T00:00:00.000Z" CREATED None (Some "Left at depot"))
              (Sample.start []) w' r)
    as (_ & _ & e & T & _ & _ & _ & D).
  - unfold accepted_request. repeat split; vm_compute; reflexivity.
  - exact R.
  - exact C.
  - cbn [snd]. rewrite T. cbn [map Sample.start table Dynamo.put filter].
    rewrite (D "Left at depot" eq_refl); [reflexivity | discriminate].
Defined.

End DetailsProofs.

(* ===================================================================== *)
(** * What the store is asked when reading one item *)
(* ===================================================================== *)

Module FirstItemFacts.
Import Models Run RunFacts Service.

Lemma sort_single (cmp : ShipmentEvent -> ShipmentEvent -> Z) (l : list ShipmentEvent) :
  sort cmp (firstn 1 l) = firstn 1 l.
Proof. destruct l as [|x l]; reflexivity. Qed.

Lemma query_first (t : Dynamo.Table) (sid : string) (f : option (ShipmentEvent -> bool)) :
  Dynamo.query t (Dynamo.mkQueryInput sid f 1 None)
  = inr (Dynamo.run_query t sid f 1 None).
Proof. reflexivity. Qed.

Section WithHost.
Context {host : Host}.

(** With [Limit: 1] the store evaluates the first item of the partition
    only, the one with the smallest identifier, and [getLatestEvent] returns
    that item. *)
Lemma getLatestEvent_reads_first_item (sid : string) (w : World) :
  fault_at (sends w) = None ->
  getLatestEvent sid w
  = (Return (hd_error (Dynamo.partition (table w) sid)), after_send w (table w)).
Proof.
  intros F. unfold getLatestEvent.
  rewrite (bind_step _ _ _ _ _ (QueryCommand_run _ _ _ F (query_first _ _ _))).
  unfold ret, Dynamo.run_query. cbn [Dynamo.Items Dynamo.apply_filter].
  rewrite sort_single. destruct (Dynamo.partition (table w) sid); reflexivity.
Qed.

(** The duplicate check looks at the first item of the partition only:
    it reports a duplicate exactly when that item has the status and the
    timestamp of the request. *)
Lemma shippmentEventExist_checks_first_item (sid : string) (st : ShipmentStatus)
      (ts : string) (w : World) :
  fault_at (sends w) = None ->
  exists found,
    shippmentEventExist sid st ts w
    = (Return (match Dynamo.partition (table w) sid with
               | e :: _ => ShipmentStatus_eqb (status e) st && (timestamp e =? ts)%string
               | [] => false
               end, found),
       after_send w (table w)).
Proof.
  intros F. unfold shippmentEventExist.
  rewrite (bind_step _ _ _ _ _ (QueryCommand_run _ _ _ F (query_first _ _ _))).
  unfold ret, Dynamo.run_query. cbn [Dynamo.Items Dynamo.apply_filter].
  destruct (Dynamo.partition (table w) sid) as [|e l]; cbn [firstn filter].
  - eexists. reflexivity.
  - destruct (ShipmentStatus_eqb (status e) st && (timestamp e =? ts)%string);
      eexists; reflexivity.
Qed.

End WithHost.
End FirstItemFacts.

(* ===================================================================== *)
(** * Where the code departs from its intent *)
(* ===================================================================== *)

Module Defects.
Import Models Run RunFacts Service Validators Response Spec.

(** C1: a shipment has events at 2025-05-01, 2025-05-02 and 2025-05-03, the
    oldest with the smallest identifier.  The query of [getLatestEvent] has
    [Limit: 1], so only that first item reaches the sort, and the handler
    answers 200 with the event of 2025-05-01 instead of the latest one. *)
Theorem getLatestEvent_returns_first_not_latest :
  map timestamp (Dynamo.partition Sample.three_events Sample.SHIP)
  = ["2025-05-01T10:00:00.000Z"; "2025-05-02T10:00:00.000Z"; "2025-05-03T10:00:00.000Z"]
  /\ fst (@Api.getLatestEvent Sample.host Sample.latest (Sample.start Sample.three_events))
     = Return (successResponse
                 (OneEvent (Sample.event "evt-a" "2025-05-01T10:00:00.000Z" CREATED))
                 (Some "Latest event retrieved successfully") StatusCodes.OK).
Proof. split; vm_compute; reflexivity. Qed.

(** A shipment without events is answered 404. *)
Lemma getLatestEvent_no_events_is_404 {host : Host} (event : Api.APIGatewayProxyEvent)
      (sid : string) (w : World) :
  Validators.ShipmentEventParamsSchema (Api.pathParameters event) = Some sid ->
  fault_at (sends w) = None ->
  Dynamo.partition (table w) sid = [] ->
  Api.getLatestEvent event w
  = (Return (errorResponse ("No events found for shipment " ++ sid)%string
                           StatusCodes.NOT_FOUND),
     after_send w (table w)).
Proof.
  intros P F E. unfold Api.getLatestEvent. apply RunFacts.try_catch_body. rewrite P.
  rewrite (RunFacts.bind_step _ _ _ _ _ (FirstItemFacts.getLatestEvent_reads_first_item sid w F)).
  rewrite E. reflexivity.
Qed.

(** In general: when the shipment has events and no request fails, a valid
    write is answered 409 exactly when the first item of the partition has
    its status and timestamp; otherwise the record is written, whatever the
    other items of the partition are. *)
Lemma recordEvent_first_item_decides {host : Host} (event : Api.APIGatewayProxyEvent) (sid : string)
      (request : CreateEventRequest) (w : World) (e0 : ShipmentEvent)
      (rest : list ShipmentEvent) :
  accepted_request event sid request ->
  validateEventTimestamp (clock_at (clock_reads w)) (req_timestamp request) = true ->
  fault_at (sends w) = None ->
  Dynamo.partition (table w) sid = e0 :: rest ->
  let same := ShipmentStatus_eqb (status e0) (req_status request)
              && (timestamp e0 =? req_timestamp request)%string in
  (same = true ->
   Api.recordEvent event w
   = (Return (errorResponse
                "Event with this shipment ID, status and timestamp already exists"
                StatusCodes.CONFLICT),
      mkWorld (table w) (uuid_calls w) (S (clock_reads w)) (S (sends w))))
  /\ (same = false -> fault_at (S (sends w)) = None ->
      exists r stored w',
        Api.recordEvent event w = (Return r, w')
        /\ statusCode r = StatusCodes.CREATED
        /\ table w' = Dynamo.put stored (table w)
        /\ shipmentId stored = sid
        /\ status stored = req_status request
        /\ timestamp stored = req_timestamp request).
Proof.
  intros (P & B & J & S) V F E same.
  pose proof (WriteProofs.timestamp_nonempty _ _ S) as T.
  set (w1 := mkWorld (table w) (uuid_calls w) (Datatypes.S (clock_reads w)) (sends w)).
  destruct (FirstItemFacts.shippmentEventExist_checks_first_item
              sid (req_status request) (req_timestamp request) w1 F) as (found & X).
  cbn [table w1] in X. rewrite E in X. fold same in X.
  split.
  - intros Y. rewrite Y in X.
    unfold Api.recordEvent, try_catch. rewrite P, B, J, S. cbn [negb].
    unfold bind at 1. unfold new_Date at 1. rewrite V. cbn [negb].
    fold w1. rewrite (bind_step _ _ _ _ _ X). reflexivity.
  - intros Y F2. rewrite Y in X.
    unfold Api.recordEvent, try_catch. rewrite P, B, J, S. cbn [negb].
    unfold bind at 1. unfold new_Date at 1. rewrite V. cbn [negb].
    fold w1. rewrite (bind_step _ _ _ _ _ X). cbn [fst].
    unfold bind at 1. unfold uuidv4 at 1.
    unfold bind at 1. unfold new_Date at 1.
    unfold bind at 1. unfold createEvent at 1.
    unfold bind at 1. unfold uuidv4 at 1.
    cbn [p_timestamp partial_of timestamp]. rewrite T.
    unfold bind at 1. unfold ret at 1.
    unfold bind at 1. unfold new_Date at 1.
    unfold bind at 1. unfold PutCommand, send.
    cbn [sends table uuid_calls clock_reads after_send w1]. rewrite F2.
    unfold ret. do 3 eexists. split; [reflexivity|].
    cbn [p_status p_location p_details partial_of status location details shipmentId timestamp table].
    unfold Js.truthy in T. unfold Js.or_else.
    destruct (req_timestamp request =? ""); [discriminate|].
    repeat split.
Qed.

(** C2: the shipment already has an event whose identifier sorts first.
    The same write is sent twice.  The duplicate check has [Limit: 1] and a
    filter, so the store evaluates that first event only, finds no match,
    and both writes are answered 201: two records with the same shipment,
    status and timestamp are in the table afterwards. *)
Theorem recordEvent_twice_stores_two_records :
  exists r1 r2 w1 w2,
    @Api.recordEvent Sample.host Sample.write_created (Sample.start Sample.earlier)
    = (Return r1, w1)
    /\ @Api.recordEvent Sample.host Sample.write_created w1 = (Return r2, w2)
    /\ statusCode r1 = StatusCodes.CREATED
    /\ statusCode r2 = StatusCodes.CREATED
    /\ map id (filter Sample.same_triple (table w2)) = ["id-3"; "id-1"].
Proof.
  do 4 eexists. split; [vm_compute; reflexivity|].
  split; [vm_compute; reflexivity|].
  repeat split.
Qed.

(** C3: a write on an empty table.  The handler draws an identifier and a
    creation time for the event it returns, and [createEvent] draws new
    ones for the record it stores: the answer carries [id-0], the table
    holds [id-1], created one clock reading later. *)
Theorem recordEvent_returns_another_event_than_stored :
  exists r e w',
    @Api.recordEvent Sample.host Sample.write_created (Sample.start []) = (Return r, w')
    /\ statusCode r = StatusCodes.CREATED
    /\ data (body r) = Some (OneEvent e)
    /\ id e = "id-0"
    /\ createdAt e = "2025-05-26T20:17:31.465Z"
    /\ map id (table w') = ["id-1"]
    /\ map createdAt (table w') = ["2025-05-26T20:17:31.466Z"].
Proof.
  do 3 eexists. split; [vm_compute; reflexivity|].
  repeat split.
Qed.

End Defects.

(* ===================================================================== *)
(** * The order of identifiers *)
(* ===================================================================== *)

Module OrderFacts.

Lemma ascii_compare_lt_trans (a b c : ascii) :
  Ascii.compare a b = Lt -> Ascii.compare b c = Lt -> Ascii.compare a c = Lt.
Proof.
  unfold Ascii.compare. rewrite !N.compare_lt_iff. lia.
Qed.

Lemma compare_lt_trans (s1 : string) :
  forall s2 s3, String.compare s1 s2 = Lt -> String.compare s2 s3 = Lt ->
                String.compare s1 s3 = Lt.
Proof.
  induction s1 as [|a s1 IH]; intros [|b s2] [|c s3]; simpl; try congruence.
  destruct (Ascii.compare a b) eqn:AB; try discriminate;
    destruct (Ascii.compare b c) eqn:BC; try discriminate; intros H1 H2.
  - apply Ascii.compare_eq_iff in AB, BC. subst.
    assert (Ascii.compare c c = Eq) as -> by (unfold Ascii.compare; apply N.compare_refl).
    eauto.
  - apply Ascii.compare_eq_iff in AB. subst. rewrite BC. reflexivity.
  - apply Ascii.compare_eq_iff in BC. subst. rewrite AB. reflexivity.
  - rewrite (ascii_compare_lt_trans _ _ _ AB BC). reflexivity.
Qed.

Lemma compare_refl (s : string) : String.compare s s = Eq.
Proof.
  induction s as [|a s IH]; simpl; [reflexivity|].
  assert (Ascii.compare a a = Eq) as -> by (unfold Ascii.compare; apply N.compare_refl).
  exact IH.
Qed.

Lemma ltb_trans (a b c : string) :
  (a <? b) = true -> (b <? c) = true -> (a <? c) = true.
Proof.
  unfold String.ltb.
  destruct (String.compare a b) eqn:AB; try discriminate.
  destruct (String.compare b c) eqn:BC; try discriminate.
  rewrite (compare_lt_trans _ _ _ AB BC). reflexivity.
Qed.

Lemma ltb_irrefl (a : string) : (a <? a) = false.
Proof. unfold String.ltb. rewrite compare_refl. reflexivity. Qed.

Lemma ltb_leb (a b : string) : (a <? b) = true -> (a <=? b) = true.
Proof. unfold String.ltb, String.leb. destruct (String.compare a b); congruence. Qed.

Lemma leb_ltb (a b : string) : (a <=? b) = true -> a <> b -> (a <? b) = true.
Proof.
  unfold String.ltb, String.leb. destruct (String.compare a b) eqn:C; try congruence.
  apply String.compare_eq_iff in C. congruence.
Qed.

Lemma leb_false_ltb (a b : string) : (a <=? b) = false -> (b <? a) = true.
Proof.
  unfold String.ltb, String.leb. rewrite (String.compare_antisym b a).
  destruct (String.compare a b); simpl; congruence.
Qed.

Lemma ltb_asym (a b : string) : (a <? b) = true -> (b <? a) = false.
Proof.
  unfold String.ltb. rewrite (String.compare_antisym b a).
  destruct (String.compare a b); simpl; congruence.
Qed.

Lemma leb_ltb_trans (a b c : string) :
  (a <=? b) = true -> (b <? c) = true -> (a <? c) = true.
Proof.
  intros H1 H2. destruct (String.eqb_spec a b) as [->|N]; [exact H2|].
  eapply ltb_trans; [apply leb_ltb; eassumption | exact H2].
Qed.

End OrderFacts.

(* ===================================================================== *)
(** * The partition in the order of the store *)
(* ===================================================================== *)

Module StoreFacts.
Import Models Dynamo OrderFacts Invariants.

Lemma insert_by_id_perm (x : ShipmentEvent) (l : list ShipmentEvent) :
  Permutation (insert_by_id x l) (x :: l).
Proof.
  induction l as [|y l IH]; simpl; [reflexivity|].
  destruct (id x <=? id y); [reflexivity|].
  rewrite IH. apply perm_swap.
Qed.

Lemma partition_perm (t : Table) (p : string) :
  Permutation (partition t p) (filter (fun e => shipmentId e =? p) t).
Proof.
  unfold partition. induction (filter _ t) as [|x l IH]; simpl; [reflexivity|].
  rewrite insert_by_id_perm. apply perm_skip, IH.
Qed.

Lemma partition_In (t : Table) (p : string) (e : ShipmentEvent) :
  In e (partition t p) <-> In e t /\ shipmentId e = p.
Proof.
  split.
  - intros H. apply (Permutation_in _ (partition_perm t p)) in H.
    apply filter_In in H as [H1 H2]. apply String.eqb_eq in H2. auto.
  - intros [H1 H2]. apply (Permutation_in _ (Permutation_sym (partition_perm t p))).
    apply filter_In. split; [assumption | now apply String.eqb_eq].
Qed.

(** Inserting into a list without the identifier of [x] keeps it strictly
    increasing. *)
Lemma insert_by_id_sorted (x : ShipmentEvent) (l : list ShipmentEvent) :
  StronglySorted by_id l -> ~ In (id x) (map id l) ->
  StronglySorted by_id (insert_by_id x l).
Proof.
  induction l as [|y l IH]; intros S N; simpl.
  - constructor; constructor.
  - apply StronglySorted_inv in S as [S F].
    assert (id x <> id y) as D by (intros E; apply N; left; auto).
    destruct (id x <=? id y) eqn:C.
    + assert (by_id x y) as XY by (apply leb_ltb; assumption).
      constructor; [constructor; assumption|].
      constructor; [exact XY|].
      eapply Forall_impl; [|exact F]. intros z YZ. eapply ltb_trans; eassumption.
    + constructor.
      * apply IH; [assumption | intros I; apply N; right; exact I].
      * apply (Permutation_Forall (Permutation_sym (insert_by_id_perm x l))).
        constructor; [apply leb_false_ltb, C | exact F].
Qed.

Lemma filter_ids_NoDup (t : Table) (p : string) :
  unique_keys t -> NoDup (map id (filter (fun e => shipmentId e =? p) t)).
Proof.
  unfold unique_keys. induction t as [|x t IH]; simpl; intros U; [constructor|].
  apply NoDup_cons_iff in U as [N U].
  destruct (String.eqb_spec (shipmentId x) p) as [E|E]; [|auto].
  simpl. constructor; [|auto].
  intros I. apply in_map_iff in I as (y & Ey & Iy).
  apply filter_In in Iy as [Iy Sy]. apply String.eqb_eq in Sy.
  apply N. apply in_map_iff. exists y. split; [|assumption].
  unfold key_of. congruence.
Qed.

Lemma partition_sorted (t : Table) (p : string) :
  unique_keys t -> StronglySorted by_id (partition t p).
Proof.
  intros U. apply (filter_ids_NoDup t p) in U. unfold partition.
  induction (filter _ t) as [|x l IH]; simpl; [constructor|].
  apply NoDup_cons_iff in U as [N U].
  apply insert_by_id_sorted; [auto|].
  intros I. apply N. apply in_map_iff in I as (y & Ey & Iy).
  apply in_map_iff. exists y. split; [assumption|].
  clear - Iy. induction l as [|z l IH]; simpl in *; [contradiction|].
  apply (Permutation_in _ (insert_by_id_perm z _)) in Iy.
  destruct Iy as [->|Iy]; auto.
Qed.

(** In a strictly increasing list the items after [x] are those with a
    greater identifier. *)
Lemma filter_after (a b : list ShipmentEvent) (x : ShipmentEvent) :
  StronglySorted by_id (a ++ x :: b) ->
  filter (fun e => id x <? id e) (a ++ x :: b) = b.
Proof.
  induction a as [|y a IH]; simpl; intros S.
  - apply StronglySorted_inv in S as [S F]. rewrite ltb_irrefl.
    clear S. induction b as [|z b IHb]; simpl; [reflexivity|].
    apply Forall_cons_iff in F as [XZ F]. unfold by_id in XZ. rewrite XZ.
    f_equal. auto.
  - apply StronglySorted_inv in S as [S F].
    assert (by_id y x) as YX.
    { rewrite Forall_forall in F. apply F. apply in_or_app. right. left. reflexivity. }
    rewrite (ltb_asym _ _ YX). auto.
Qed.

(** The items with an identifier above [i] are a suffix of a strictly
    increasing list. *)
Lemma filter_suffix (i : string) (l : list ShipmentEvent) :
  StronglySorted by_id l ->
  exists pre, l = pre ++ filter (fun e => i <? id e) l
              /\ Forall (fun e => (i <? id e) = false) pre.
Proof.
  induction l as [|y l IH]; intros S.
  - exists []. split; [reflexivity | constructor].
  - apply StronglySorted_inv in S as [S F]. simpl.
    destruct (i <? id y) eqn:C.
    + exists []. split; [|constructor]. simpl. f_equal.
      symmetry. apply forallb_filter_id. apply forallb_forall. intros z Iz.
      rewrite Forall_forall in F. eapply ltb_trans; [exact C | apply F, Iz].
    + destruct (IH S) as (pre & E & P). exists (y :: pre). split.
      * simpl. f_equal. exact E.
      * constructor; assumption.
Qed.

Lemma sorted_app_r (a b : list ShipmentEvent) :
  StronglySorted by_id (a ++ b) -> StronglySorted by_id b.
Proof.
  induction a as [|y a IH]; simpl; [auto|].
  intros S. apply StronglySorted_inv in S as [S _]. auto.
Qed.

End StoreFacts.

(* ===================================================================== *)
(** * Pages and their sort *)
(* ===================================================================== *)

Module PageFacts.
Import Models Dynamo OrderFacts StoreFacts Invariants Run RunFacts Service ServiceFacts.

Lemma run_query_unfiltered (t : Table) (p : string) (n : nat) (after : option string) :
  run_query t p None n after
  = mkQueryOutput (firstn n (remaining t p after))
                  (if (n <=? List.length (remaining t p after))%nat
                   then option_map key_of (last (map Some (firstn n (remaining t p after))) None)
                   else None).
Proof. destruct after; reflexivity. Qed.

Lemma last_Some {A} (l : list A) (x : A) :
  last (map Some (l ++ [x])) None = Some x.
Proof.
  induction l as [|y l IH]; [reflexivity|].
  simpl. destruct (map Some (l ++ [x])) eqn:E; [|exact IH].
  destruct l; discriminate.
Qed.

Lemma firstn_last {A} (n : nat) (l : list A) :
  (1 <= n <= List.length l)%nat ->
  exists a x, firstn n l = a ++ [x] /\ l = a ++ x :: skipn n l.
Proof.
  intros H.
  destruct (exists_last (l:=firstn n l)) as (a & x & E).
  { intros E. apply (f_equal (@List.length A)) in E. rewrite length_firstn in E.
    simpl in E. lia. }
  exists a, x. split; [exact E|].
  rewrite <- (firstn_skipn n l) at 1. rewrite E, <- app_assoc. reflexivity.
Qed.

Lemma remaining_In (t : Table) (p : string) (after : option string) (e : ShipmentEvent) :
  In e (remaining t p after) -> In e t /\ shipmentId e = p.
Proof.
  destruct after as [i|]; simpl; intros H.
  - apply filter_In in H as [H _]. now apply partition_In.
  - now apply partition_In.
Qed.

(** The sort of the pages. *)
Lemma sort_insert_perm (cmp : ShipmentEvent -> ShipmentEvent -> Z) (x : ShipmentEvent)
      (l : list ShipmentEvent) : Permutation (sort_insert cmp x l) (x :: l).
Proof.
  induction l as [|y l IH]; simpl; [reflexivity|].
  destruct (0 <? cmp x y)%Z; [|reflexivity].
  rewrite IH. apply perm_swap.
Qed.

Lemma sort_perm (cmp : ShipmentEvent -> ShipmentEvent -> Z) (l : list ShipmentEvent) :
  Permutation (sort cmp l) l.
Proof.
  unfold sort. induction l as [|x l IH]; simpl; [reflexivity|].
  rewrite sort_insert_perm. apply perm_skip, IH.
Qed.

Section WithHost.
Context {host : Host}.

Lemma sort_insert_sorted (x : ShipmentEvent) (l : list ShipmentEvent) :
  dated x -> Forall dated l ->
  StronglySorted not_after l -> StronglySorted not_after (sort_insert time_difference x l).
Proof.
  intros Dx. induction l as [|y l IH]; intros Dl S; simpl.
  - constructor; constructor.
  - apply Forall_cons_iff in Dl as [Dy Dl].
    apply StronglySorted_inv in S as [S F].
    unfold dated in Dx, Dy. unfold time_difference.
    destruct (Date_parse (timestamp x)) as [tx|] eqn:Ex; [|contradiction].
    destruct (Date_parse (timestamp y)) as [ty|] eqn:Ey; [|contradiction].
    destruct (Z.ltb_spec 0 (tx - ty)) as [C|C].
    + constructor.
      * apply IH; [assumption | assumption].
      * apply (Permutation_Forall (Permutation_sym (sort_insert_perm _ x l))).
        constructor; [|exact F].
        exists ty, tx. repeat split; [assumption | assumption | lia].
    + constructor; [constructor; assumption|].
      assert (not_after x y) as XY by (exists tx, ty; repeat split; [assumption | assumption | lia]).
      constructor; [exact XY|].
      eapply Forall_impl; [|exact F].
      intros z (a & b & Ea & Eb & L). rewrite Ey in Ea. injection Ea as <-.
      exists tx, b. repeat split; [assumption | assumption | lia].
Qed.

Lemma sort_sorted (l : list ShipmentEvent) :
  Forall dated l -> StronglySorted not_after (sort time_difference l).
Proof.
  unfold sort. induction l as [|x l IH]; intros D; simpl; [constructor|].
  apply Forall_cons_iff in D as [Dx D].
  apply sort_insert_sorted; [assumption | | auto].
  apply (Permutation_Forall (Permutation_sym (sort_perm _ l))). exact D.
Qed.

(** What a returned page is made of. *)
Lemma getEventHistory_page (sid : string) (limit : option Z) (sk : option string)
      (w w' : World) (page : HistoryPage) :
  getEventHistory sid limit sk w = (Return page, w') ->
  exists n after,
    (1 <= n)%nat
    /\ n = Z.to_nat (match limit with Some n => n | None => 50%Z end)
    /\ page = page_of (run_query (table w) sid None n after)
    /\ w' = after_send w (table w).
Proof.
  intros H. apply getEventHistory_return in H as (c & out & C & _ & Q & -> & ->).
  apply history_command_return in C as (_ & start & -> & _).
  apply DynamoFacts.query_limit in Q as (L & after & ->).
  cbn [Limit q_shipmentId FilterExpression] in *.
  exists (Z.to_nat (match limit with Some n => n | None => 50%Z end)), after.
  repeat split. lia.
Qed.

End WithHost.
End PageFacts.

(* ===================================================================== *)
(** * The service: what its functions return and keep *)
(* ===================================================================== *)

Module ServiceProofs.
Import Models Dynamo OrderFacts StoreFacts Invariants Run RunFacts Service ServiceFacts PageFacts.

Lemma ShipmentStatus_eqb_eq (a b : ShipmentStatus) :
  ShipmentStatus_eqb a b = true <-> a = b.
Proof. destruct a, b; simpl; split; congruence. Qed.

Lemma leb_trans (a b c : string) :
  (a <=? b) = true -> (b <=? c) = true -> (a <=? c) = true.
Proof.
  intros H1 H2. destruct (String.eqb_spec b c) as [->|N]; [exact H1|].
  apply ltb_leb. eapply leb_ltb_trans; [exact H1 | apply leb_ltb; assumption].
Qed.

Lemma leb_refl (a : string) : (a <=? a) = true.
Proof. unfold String.leb. rewrite compare_refl. reflexivity. Qed.

(** The first item of a partition has the smallest identifier. *)
Lemma insert_by_id_head (x : ShipmentEvent) (l : list ShipmentEvent) :
  (forall e r, l = e :: r -> Forall (fun y => (id e <=? id y) = true) l) ->
  forall e r, insert_by_id x l = e :: r ->
              Forall (fun y => (id e <=? id y) = true) (insert_by_id x l).
Proof.
  intros M e r E. destruct l as [|y l]; simpl in *.
  - injection E as <- <-. constructor; [apply leb_refl | constructor].
  - specialize (M y l eq_refl).
    destruct (id x <=? id y) eqn:C.
    + injection E as <- <-. constructor; [apply leb_refl|].
      eapply Forall_impl; [|exact M]. intros z Z. eapply leb_trans; eassumption.
    + injection E as <- <-.
      assert (Permutation (x :: y :: l) (y :: insert_by_id x l)) as X.
      { rewrite perm_swap. apply perm_skip. symmetry. apply insert_by_id_perm. }
      apply (Permutation_Forall X).
      constructor; [|exact M]. apply ltb_leb, leb_false_ltb, C.
Qed.

Lemma partition_head (t : Table) (p : string) (e : ShipmentEvent) (r : list ShipmentEvent) :
  partition t p = e :: r -> Forall (fun y => (id e <=? id y) = true) (partition t p).
Proof.
  unfold partition. revert e r.
  induction (filter _ t) as [|x l IH]; simpl; [discriminate|].
  apply insert_by_id_head. exact IH.
Qed.

Lemma put_In (item x : ShipmentEvent) (t : Table) :
  In x (put item t) <-> x = item \/ (In x t /\ key_of x <> key_of item).
Proof.
  unfold put. simpl. rewrite filter_In. unfold same_key, key_of.
  split.
  - intros [<-|[I N]]; [left; reflexivity|]. right. split; [assumption|].
    intros E. injection E as E1 E2. rewrite E1, E2, !String.eqb_refl in N. discriminate.
  - intros [->|[I N]]; [left; reflexivity|]. right. split; [assumption|].
    apply negb_true_iff, andb_false_iff.
    destruct (String.eqb_spec (shipmentId x) (shipmentId item)) as [E1|]; [|now left].
    destruct (String.eqb_spec (id x) (id item)) as [E2|]; [|now right].
    destruct N. congruence.
Qed.

Lemma put_unique (item : ShipmentEvent) (t : Table) :
  unique_keys t -> unique_keys (put item t).
Proof.
  unfold unique_keys, put. intros U. simpl. constructor.
  - intros I. apply in_map_iff in I as (y & E & I).
    apply filter_In in I as [_ N]. unfold same_key, key_of in *.
    injection E as E1 E2. rewrite E1, E2, !String.eqb_refl in N. discriminate.
  - clear - U. induction t as [|x t IH]; simpl; [constructor|].
    apply NoDup_cons_iff in U as [N U].
    destruct (negb (same_key x item)); [|auto].
    simpl. constructor; [|auto].
    intros I. apply N. apply in_map_iff in I as (y & E & I).
    apply filter_In in I as [I _]. apply in_map_iff. exists y. auto.
Qed.

Section WithHost.
Context {host : Host}.

(** [shippmentEventExist] reports a duplicate only when the table holds
    one, which it returns; it leaves the table as it is. *)
Theorem shippmentEventExist_sound (sid : string) (st : ShipmentStatus) (ts : string)
        (w w' : World) (found : bool) (existing : option ShipmentEvent) :
  shippmentEventExist sid st ts w = (Return (found, existing), w') ->
  table w' = table w
  /\ (found = true ->
      exists e, existing = Some e /\ In e (table w)
                /\ shipmentId e = sid /\ status e = st /\ timestamp e = ts)
  /\ (found = false -> existing = None).
Proof.
  unfold shippmentEventExist. intros H.
  apply bind_return in H as (out & w1 & Q & R).
  apply QueryCommand_return in Q as (_ & Q & ->).
  unfold ret in R. injection R as <- <- <-.
  change (query (table w) _) with
    (@inr string _ (run_query (table w) sid
                      (Some (fun e => ShipmentStatus_eqb (status e) st
                                      && (timestamp e =? ts)%string)) 1 None)) in Q.
  injection Q as <-. unfold run_query. cbn [Items apply_filter after_send table].
  split; [reflexivity|].
  destruct (partition (table w) sid) as [|e l] eqn:P; cbn [firstn filter].
  - split; [discriminate | reflexivity].
  - destruct (ShipmentStatus_eqb (status e) st && (timestamp e =? ts)%string) eqn:F.
    + split; [|discriminate]. intros _. exists e.
      apply andb_true_iff in F as [F1 F2].
      apply ShipmentStatus_eqb_eq in F1. apply String.eqb_eq in F2.
      assert (In e (partition (table w) sid)) as I by (rewrite P; left; reflexivity).
      apply partition_In in I as [I1 I2]. auto.
    + split; [discriminate | reflexivity].
Qed.

(** [createEvent] stores the event it returns.  The identifier and the
    creation time are drawn anew, whatever [eventData] carries; the other
    fields are those of [eventData].  Events with another key stay in the
    table, and keys stay unique. *)
Theorem createEvent_stores_returned (sid : string) (eventData : PartialEvent)
        (w w' : World) (e : ShipmentEvent) :
  createEvent sid eventData w = (Return e, w') ->
  table w' = put e (table w)
  /\ id e = uuid_at (uuid_calls w)
  /\ shipmentId e = sid
  /\ status e = p_status eventData
  /\ location e = p_location eventData
  /\ details e = p_details eventData
  /\ (forall ts, p_timestamp eventData = Some ts -> ts <> "" -> timestamp e = ts)
  /\ In e (partition (table w') sid)
  /\ (forall x, In x (table w) -> key_of x <> key_of e -> In x (table w'))
  /\ (unique_keys (table w) -> unique_keys (table w')).
Proof.
  unfold createEvent. intros H.
  apply bind_return in H as (i & w1 & U & H). unfold uuidv4 in U. injection U as <- <-.
  apply bind_return in H as (ts & w2 & T & H).
  apply bind_return in H as (c & w3 & C & H). unfold new_Date in C. injection C as <- <-.
  apply bind_return in H as (u & w4 & P & H).
  apply PutCommand_return in P as (_ & ->).
  unfold ret in H. injection H as <- <-.
  cbn [table after_send id shipmentId status location details timestamp].
  assert (table w2 = table w) as TW.
  { destruct (Js.truthy (p_timestamp eventData)).
    - unfold ret in T. injection T as _ <-. reflexivity.
    - apply bind_return in T as (n & w5 & N & R). unfold new_Date in N.
      injection N as _ <-. unfold ret in R. injection R as _ <-. reflexivity. }
  rewrite TW. repeat split.
  - intros s E Ns. rewrite E in T. rewrite (QueryProofs.truthy_some s Ns) in T.
    unfold ret, Js.or_else in T. destruct (String.eqb_spec s ""); [contradiction|].
    injection T as <- _. reflexivity.
  - apply partition_In. split; [|reflexivity]. apply put_In. left. reflexivity.
  - intros x I N. apply put_In. right. auto.
  - apply put_unique.
Qed.

(** [getLatestEvent] returns nothing exactly when the shipment has no
    event; an event it returns is an event of the shipment, the one with the
    smallest identifier; the table is left as it is. *)
Theorem getLatestEvent_result (sid : string) (w w' : World) (r : option ShipmentEvent) :
  getLatestEvent sid w = (Return r, w') ->
  table w' = table w
  /\ (r = None <-> forall e, In e (table w) -> shipmentId e <> sid)
  /\ (forall e, r = Some e ->
        In e (table w) /\ shipmentId e = sid
        /\ forall e', In e' (table w) -> shipmentId e' = sid -> (id e <=? id e') = true).
Proof.
  unfold getLatestEvent. intros H.
  apply bind_return in H as (out & w1 & Q & R).
  apply QueryCommand_return in Q as (_ & Q & ->).
  rewrite FirstItemFacts.query_first in Q. injection Q as <-.
  unfold ret in R. injection R as <- <-.
  unfold run_query. cbn [Items apply_filter after_send table].
  split; [reflexivity|].
  destruct (partition (table w) sid) as [|e l] eqn:P;
    unfold sort; cbn [firstn fold_right sort_insert hd_error].
  - split.
    + split; [|reflexivity]. intros _ e I E.
      assert (In e (partition (table w) sid)) as X by (apply partition_In; auto).
      rewrite P in X. contradiction.
    + discriminate.
  - pose proof (partition_head _ _ _ _ P) as M. rewrite P in M.
    assert (In e (partition (table w) sid)) as I by (rewrite P; left; reflexivity).
    apply partition_In in I as [I1 I2].
    split.
    + split; [discriminate|]. intros N. destruct (N e I1 I2).
    + intros x E. injection E as <-. repeat split; [assumption | assumption|].
      intros e' I' S'. rewrite Forall_forall in M. apply M. rewrite <- P.
      apply partition_In. auto.
Qed.

End WithHost.
End ServiceProofs.

(* ===================================================================== *)
(** * The service: pages of the history *)
(* ===================================================================== *)

Module PagingProofs.
Import Models Dynamo OrderFacts StoreFacts Invariants Run RunFacts Service ServiceFacts PageFacts.

Lemma firstn_In {A} (n : nat) (l : list A) (x : A) : In x (firstn n l) -> In x l.
Proof.
  intros H. rewrite <- (firstn_skipn n l). apply in_or_app. left. exact H.
Qed.

Lemma firstn_NoDup {A} (n : nat) (l : list A) : NoDup l -> NoDup (firstn n l).
Proof.
  intros H. rewrite <- (firstn_skipn n l) in H. apply NoDup_app_remove_r in H. exact H.
Qed.

Lemma remaining_NoDup (t : Table) (p : string) (after : option string) :
  unique_keys t -> NoDup (remaining t p after).
Proof.
  intros U. apply NoDup_map_inv in U.
  assert (NoDup (partition t p)) as P.
  { apply (Permutation_NoDup (Permutation_sym (partition_perm t p))).
    apply NoDup_filter, U. }
  destruct after; simpl; [apply NoDup_filter|]; exact P.
Qed.

Section WithHost.
Context {host : Host}.

Lemma history_command_encoded (k : Key) (sid : string) (limit : Z) (w : World) :
  history_command sid limit (Some (encode_key k)) w
  = (Return (mkQueryInput sid None limit (Some (json_of_key k))), w).
Proof.
  unfold history_command.
  rewrite (QueryProofs.truthy_some _ (CursorProofs.encode_key_nonempty k)).
  unfold Js.or_else.
  destruct (String.eqb_spec (encode_key k) "") as [E|_];
    [destruct (CursorProofs.encode_key_nonempty k E)|].
  unfold decode_key. rewrite CursorProofs.parse_encoded_key. reflexivity.
Qed.

(** A page holds events of the shipment that are in the table, at most
    [limit] of them and none twice, and reading it changes nothing. *)
Theorem getEventHistory_page_content (sid : string) (limit : option Z)
        (sk : option string) (w w' : World) (page : HistoryPage) :
  getEventHistory sid limit sk w = (Return page, w') ->
  table w' = table w
  /\ (List.length (events page) <= page_size limit)%nat
  /\ (forall e, In e (events page) -> In e (table w) /\ shipmentId e = sid)
  /\ (unique_keys (table w) -> NoDup (events page)).
Proof.
  intros H. apply getEventHistory_page in H as (n & after & N & En & -> & ->).
  fold (page_size limit) in En. subst n.
  rewrite run_query_unfiltered. cbn [page_of events Items].
  split; [reflexivity|]. split; [|split].
  - rewrite (Permutation_length (sort_perm _ _)), length_firstn. lia.
  - intros e I. apply (Permutation_in _ (sort_perm _ _)) in I.
    apply (remaining_In _ _ after). eapply firstn_In, I.
  - intros U. apply (Permutation_NoDup (Permutation_sym (sort_perm _ _))).
    apply firstn_NoDup, remaining_NoDup, U.
Qed.

(** When the timestamps of the shipment's events can be parsed, a page is
    in chronological order. *)
Theorem getEventHistory_chronological (sid : string) (limit : option Z)
        (sk : option string) (w w' : World) (page : HistoryPage) :
  (forall e, In e (table w) -> shipmentId e = sid -> dated e) ->
  getEventHistory sid limit sk w = (Return page, w') ->
  StronglySorted not_after (events page).
Proof.
  intros D H. apply getEventHistory_page in H as (n & after & N & _ & -> & _).
  rewrite run_query_unfiltered. cbn [page_of events Items].
  apply sort_sorted. apply Forall_forall. intros e I.
  apply firstn_In, remaining_In in I as [I1 I2]. auto.
Qed.

(** [hasMore] is true exactly when the page is full, and exactly then there
    is a [nextKey]. *)
Theorem getEventHistory_hasMore (sid : string) (limit : option Z)
        (sk : option string) (w w' : World) (page : HistoryPage) :
  getEventHistory sid limit sk w = (Return page, w') ->
  hasMore page = (List.length (events page) =? page_size limit)%nat
  /\ (hasMore page = true <-> exists c, nextKey page = Some c /\ c <> "").
Proof.
  intros H. apply getEventHistory_page in H as (n & after & N & En & -> & _).
  fold (page_size limit) in En. subst n. rewrite run_query_unfiltered.
  cbn [page_of events hasMore nextKey Items LastEvaluatedKey].
  rewrite (Permutation_length (sort_perm _ _)), length_firstn.
  set (R := remaining (table w) sid after).
  destruct (Nat.leb_spec (page_size limit) (List.length R)) as [L|L].
  - destruct (firstn_last (page_size limit) R) as (a & x & E & _); [lia|].
    rewrite E, last_Some. cbn [option_map is_some]. split.
    + symmetry. apply Nat.eqb_eq. lia.
    + split; [|reflexivity]. intros _. exists (encode_key (key_of x)).
      split; [reflexivity | apply CursorProofs.encode_key_nonempty].
  - cbn [option_map is_some]. split.
    + symmetry. apply Nat.eqb_neq. lia.
    + split; [discriminate | intros (c & C & _); discriminate].
Qed.

(** Following the cursor: the page asked with the [nextKey] of a page holds
    the items that follow that page in the order of the store. *)
Theorem getEventHistory_next_page (sid : string) (limit : option Z)
        (sk : option string) (w w1 : World) (p1 : HistoryPage) (c : string) :
  unique_keys (table w) ->
  getEventHistory sid limit sk w = (Return p1, w1) ->
  nextKey p1 = Some c ->
  fault_at (sends w1) = None ->
  exists p2 pre rest,
    getEventHistory sid limit (Some c) w1 = (Return p2, after_send w1 (table w))
    /\ partition (table w) sid = pre ++ rest
    /\ Permutation (events p1) (firstn (page_size limit) rest)
    /\ Permutation (events p2) (firstn (page_size limit) (skipn (page_size limit) rest)).
Proof.
  intros U H K F.
  apply getEventHistory_page in H as (n & after & N & En & -> & ->).
  fold (page_size limit) in En. subst n.
  rewrite run_query_unfiltered in *. cbn [page_of events nextKey Items LastEvaluatedKey] in *.
  set (R := remaining (table w) sid after) in *.
  destruct (Nat.leb_spec (page_size limit) (List.length R)) as [L|L]; [|discriminate].
  destruct (firstn_last (page_size limit) R) as (a & x & E & ER); [lia|].
  rewrite E, last_Some in K. cbn [option_map] in K. injection K as <-.
  assert (shipmentId x = sid) as Sx.
  { apply (remaining_In (table w) sid after). fold R. rewrite ER.
    apply in_or_app. right. left. reflexivity. }
  pose proof (partition_sorted (table w) sid U) as S.
  assert (exists pre, partition (table w) sid = pre ++ R) as (pre & EP).
  { unfold R, remaining. destruct after as [i|].
    - destruct (filter_suffix i _ S) as (pre & EP & _). exists pre. exact EP.
    - exists []. reflexivity. }
  assert (remaining (table w) sid (Some (id x)) = skipn (page_size limit) R) as Next.
  { unfold remaining. rewrite EP.
    remember (skipn (page_size limit) R) as B eqn:EB.
    rewrite ER, app_assoc. apply filter_after.
    rewrite <- app_assoc, <- ER, <- EP. exact S. }
  eexists. exists pre, R. split; [|split; [exact EP | split]].
  - unfold getEventHistory.
    rewrite (bind_step _ _ _ _ _ (history_command_encoded _ _ _ _)).
    assert (query (table w)
                  (mkQueryInput sid None (match limit with Some n => n | None => 50%Z end)
                                (Some (json_of_key (key_of x))))
            = inr (run_query (table w) sid None (page_size limit) (Some (id x)))) as Q.
    { unfold query. cbn [Limit ExclusiveStartKey q_shipmentId FilterExpression].
      destruct (Z.ltb_spec (match limit with Some n => n | None => 50%Z end) 1) as [X|X];
        [unfold page_size in N; lia|].
      rewrite CursorProofs.key_of_json_of_key. cbn [key_of k_shipmentId k_id].
      rewrite Sx, String.eqb_refl. reflexivity. }
    rewrite (bind_step _ _ _ _ _ (QueryCommand_run _ _ _ F Q)).
    reflexivity.
  - apply sort_perm.
  - cbn [page_of events]. rewrite run_query_unfiltered. cbn [Items].
    rewrite Next. apply sort_perm.
Qed.

End WithHost.
End PagingProofs.

(* ===================================================================== *)
(** * The handlers: answers and what they leave untouched *)
(* ===================================================================== *)

Module HandlerProofs.
Import Models Run RunFacts Service Validators Response Spec.

(** Case analysis on the innermost test of the goal. *)
Ltac split_case :=
  match goal with
  | |- context [match ?x with _ => _ end] =>
      lazymatch x with
      | context [match _ with _ => _ end] => fail
      | _ => destruct x eqn:?
      end
  end.

Ltac run_handler :=
  unfold try_catch, bind, ret, throw, new_Date, uuidv4, QueryCommand, PutCommand, send.

Section WithHost.
Context {host : Host}.

(** [recordEvent] always answers: every exception becomes a response.  The
    status is 201, 400, 409 or 500, [success] is true exactly for 201, and
    the table is changed by no other answer than 201. *)
Theorem recordEvent_answers (event : Api.APIGatewayProxyEvent) (w : World) :
  exists r w',
    Api.recordEvent event w = (Return r, w')
    /\ In (statusCode r) [StatusCodes.CREATED; StatusCodes.BAD_REQUEST;
                          StatusCodes.CONFLICT; StatusCodes.INTERNAL_SERVER_ERROR]
    /\ (success (body r) = true <-> statusCode r = StatusCodes.CREATED)
    /\ (statusCode r <> StatusCodes.CREATED -> table w' = table w).
Proof.
  unfold Api.recordEvent, Service.shippmentEventExist, Service.createEvent.
  run_handler.
  repeat split_case;
    (do 2 eexists; split; [reflexivity|];
     cbn [statusCode body success table errorResponse validationErrorResponse
          successResponse createResponse In StatusCodes.CREATED StatusCodes.BAD_REQUEST
          StatusCodes.CONFLICT StatusCodes.INTERNAL_SERVER_ERROR];
     repeat split; try tauto; try discriminate; try congruence).
Qed.

(** The store is consulted, and an identifier drawn, only for a request
    that passed every validation, the timestamp window included. *)
Theorem recordEvent_validates_first (event : Api.APIGatewayProxyEvent) (w w' : World)
        (r : APIGatewayProxyResult) :
  Api.recordEvent event w = (Return r, w') ->
  sends w' <> sends w \/ uuid_calls w' <> uuid_calls w ->
  exists sid request,
    accepted_request event sid request
    /\ validateEventTimestamp (clock_at (clock_reads w)) (req_timestamp request) = true.
Proof.
  unfold Api.recordEvent, accepted_request.
  destruct (ShipmentEventParamsSchema _) as [sid|] eqn:P.
  2:{ unfold try_catch, ret. intros H. injection H as _ <-. intros [N|N]; destruct N; reflexivity. }
  destruct (Js.truthy (Api.body event)) eqn:B; cbn [negb].
  2:{ unfold try_catch, ret. intros H. injection H as _ <-. intros [N|N]; destruct N; reflexivity. }
  destruct (JSON.truthy _) eqn:J; cbn [negb].
  2:{ unfold try_catch, ret. intros H. injection H as _ <-. intros [N|N]; destruct N; reflexivity. }
  destruct (CreateEventSchema _) as [issues|request] eqn:S.
  1:{ unfold try_catch, ret. intros H. injection H as _ <-. intros [N|N]; destruct N; reflexivity. }
  destruct (validateEventTimestamp (clock_at (clock_reads w)) (req_timestamp request)) eqn:V.
  - intros _ _. exists sid, request. auto.
  - unfold try_catch, bind, new_Date. rewrite V. cbn [negb]. unfold ret.
    intros H. injection H as _ <-. cbn. intros [N|N]; destruct N; reflexivity.
Qed.

(** A failure of the store during the duplicate check is answered 409 for
    [ConditionalCheckFailedException], 400 for [ValidationException] and 500
    for any other error, a missing table included; the table is untouched. *)
Theorem recordEvent_store_failure (event : Api.APIGatewayProxyEvent) (sid : string)
        (request : CreateEventRequest) (w : World) (name : string) :
  accepted_request event sid request ->
  validateEventTimestamp (clock_at (clock_reads w)) (req_timestamp request) = true ->
  fault_at (sends w) = Some name ->
  exists r w',
    Api.recordEvent event w = (Return r, w')
    /\ table w' = table w
    /\ (name = "ConditionalCheckFailedException" ->
        r = errorResponse "Event with this ID already exists" StatusCodes.CONFLICT)
    /\ (name = "ValidationException" ->
        r = errorResponse "Invalid data format" StatusCodes.BAD_REQUEST)
    /\ (name <> "ConditionalCheckFailedException" -> name <> "ValidationException" ->
        r = errorResponse "Internal server error occurred while creating event"
                          StatusCodes.INTERNAL_SERVER_ERROR).
Proof.
  intros (P & B & J & S) V F.
  unfold Api.recordEvent. rewrite P, B, J, S. cbn [negb].
  unfold Service.shippmentEventExist. run_handler.
  rewrite V. cbn [negb sends]. rewrite F.
  destruct (String.eqb_spec name "ConditionalCheckFailedException") as [E1|N1].
  - do 2 eexists. split; [reflexivity|]. subst name. repeat split; try discriminate.
    intros N. destruct N. reflexivity.
  - destruct (String.eqb_spec name "ValidationException") as [E2|N2].
    + do 2 eexists. split; [reflexivity|]. subst name. repeat split; try discriminate.
      intros _ N. destruct N. reflexivity.
    + do 2 eexists. split; [reflexivity|]. repeat split; intros; congruence.
Qed.

(** [getLatestEvent] always answers, never changes the table, and does not
    touch the host when the shipment identifier is invalid. *)
Theorem getLatestEvent_answers (event : Api.APIGatewayProxyEvent) (w : World) :
  exists r w',
    Api.getLatestEvent event w = (Return r, w')
    /\ table w' = table w
    /\ In (statusCode r) [StatusCodes.OK; StatusCodes.BAD_REQUEST; StatusCodes.NOT_FOUND;
                          StatusCodes.INTERNAL_SERVER_ERROR; StatusCodes.SERVICE_UNAVAILABLE]
    /\ (ShipmentEventParamsSchema (Api.pathParameters event) = None ->
        r = validationErrorResponse ["Invalid shipment ID"] /\ w' = w).
Proof.
  unfold Api.getLatestEvent, Service.getLatestEvent. run_handler.
  repeat split_case;
    (do 2 eexists; split; [reflexivity|];
     cbn [statusCode body table errorResponse validationErrorResponse
          successResponse createResponse In StatusCodes.OK StatusCodes.BAD_REQUEST
          StatusCodes.NOT_FOUND StatusCodes.INTERNAL_SERVER_ERROR
          StatusCodes.SERVICE_UNAVAILABLE];
     repeat split; try tauto; try discriminate; try congruence).
Qed.

(** [getEventHistory] always answers, never changes the table, and does
    not touch the host when the shipment identifier or the query is
    invalid. *)
Theorem getEventHistory_answers (event : Api.APIGatewayProxyEvent) (w : World) :
  exists r w',
    Api.getEventHistory event w = (Return r, w')
    /\ table w' = table w
    /\ In (statusCode r) [StatusCodes.OK; StatusCodes.BAD_REQUEST; StatusCodes.NOT_FOUND;
                          StatusCodes.INTERNAL_SERVER_ERROR; StatusCodes.SERVICE_UNAVAILABLE]
    /\ (ShipmentEventParamsSchema (Api.pathParameters event) = None ->
        r = validationErrorResponse ["Invalid shipment ID"] /\ w' = w)
    /\ (forall issues,
          GetEventsQuerySchema
            (match Api.queryStringParameters event with Some q => q | None => [] end)
          = inl issues ->
          statusCode r = StatusCodes.BAD_REQUEST /\ w' = w).
Proof.
  unfold Api.getEventHistory, Service.getEventHistory, Service.history_command,
    Service.decode_key.
  run_handler.
  repeat split_case;
    (do 2 eexists; split; [reflexivity|];
     cbn [statusCode body table errorResponse validationErrorResponse
          paginatedResponse createResponse In StatusCodes.OK StatusCodes.BAD_REQUEST
          StatusCodes.NOT_FOUND StatusCodes.INTERNAL_SERVER_ERROR
          StatusCodes.SERVICE_UNAVAILABLE];
     repeat split; try tauto; try discriminate; try congruence).
Qed.

End WithHost.
End HandlerProofs.

(* ===================================================================== *)
(** * The read handlers: failures and pages *)
(* ===================================================================== *)

Module ReadProofs.
Import Models Run RunFacts Service ServiceFacts Validators Response Spec HandlerProofs.

Section WithHost.
Context {host : Host}.

(** A failure of the store is answered by [getLatestEvent] with 503 and
    [Events table not found] for [ResourceNotFoundException], with 400 for
    [ValidationException], and with 500 and a fixed text otherwise. *)
Theorem getLatestEvent_store_failure (event : Api.APIGatewayProxyEvent) (sid : string)
        (w : World) (name : string) :
  ShipmentEventParamsSchema (Api.pathParameters event) = Some sid ->
  fault_at (sends w) = Some name ->
  exists r,
    Api.getLatestEvent event w = (Return r, after_send w (table w))
    /\ (name = "ResourceNotFoundException" ->
        r = errorResponse "Events table not found" StatusCodes.SERVICE_UNAVAILABLE)
    /\ (name = "ValidationException" ->
        r = errorResponse "Invalid shipment ID format" StatusCodes.BAD_REQUEST)
    /\ (name <> "ResourceNotFoundException" -> name <> "ValidationException" ->
        r = errorResponse "Internal server error occurred while retrieving latest event"
                          StatusCodes.INTERNAL_SERVER_ERROR).
Proof.
  intros P F. unfold Api.getLatestEvent, Service.getLatestEvent. rewrite P.
  run_handler. rewrite F.
  destruct (String.eqb_spec name "ResourceNotFoundException") as [E1|N1].
  - eexists. split; [reflexivity|]. subst name. repeat split; try discriminate.
    intros N. destruct N. reflexivity.
  - destruct (String.eqb_spec name "ValidationException") as [E2|N2].
    + eexists. split; [reflexivity|]. subst name. repeat split; try discriminate.
      intros _ N. destruct N. reflexivity.
    + eexists. split; [reflexivity|]. repeat split; intros; congruence.
Qed.

(** A [startKey] that does not decode to JSON is answered 500, without a
    request to the store. *)
Theorem getEventHistory_undecodable_startKey (event : Api.APIGatewayProxyEvent)
        (sid : string) (query : GetEventsQuery) (s : string) (w : World) :
  ShipmentEventParamsSchema (Api.pathParameters event) = Some sid ->
  GetEventsQuerySchema
    (match Api.queryStringParameters event with Some q => q | None => [] end) = inr query ->
  startKey query = Some s -> s <> "" ->
  JSON.parse (Js.from_base64 s) = None ->
  Api.getEventHistory event w
  = (Return (errorResponse "Internal server error occurred while retrieving event history"
                           StatusCodes.INTERNAL_SERVER_ERROR), w).
Proof.
  intros P Q K N J. unfold Api.getEventHistory. rewrite P, Q.
  unfold Service.getEventHistory, Service.history_command, Service.decode_key.
  rewrite K, (QueryProofs.truthy_some s N). unfold Js.or_else.
  destruct (String.eqb_spec s ""); [contradiction|].
  rewrite J. reflexivity.
Qed.

(** The answer for a page that is not empty, or that was asked with a
    start key: 200, the events of the page as [data], their number in the
    message, and [pagination] with the [hasMore] and [nextKey] of the
    page. *)
Theorem getEventHistory_page_response (event : Api.APIGatewayProxyEvent) (sid : string)
        (query : GetEventsQuery) (page : HistoryPage) (w w' : World) :
  ShipmentEventParamsSchema (Api.pathParameters event) = Some sid ->
  GetEventsQuerySchema
    (match Api.queryStringParameters event with Some q => q | None => [] end) = inr query ->
  Service.getEventHistory sid (Some (limit query)) (startKey query) w = (Return page, w') ->
  events page <> [] \/ Js.truthy (startKey query) = true ->
  exists r,
    Api.getEventHistory event w = (Return r, w')
    /\ statusCode r = StatusCodes.OK
    /\ success (body r) = true
    /\ data (body r) = Some (EventList (events page))
    /\ message (body r)
       = Some ("Retrieved " ++ Api.show_nat (List.length (events page))
               ++ " events for shipment " ++ sid)%string
    /\ pagination (body r) = Some (mkPagination (hasMore page) (nextKey page)).
Proof.
  intros P Q H C.
  assert (spread (nextKey page) = nextKey page) as SP.
  { apply getEventHistory_return in H as (c & out & _ & _ & _ & -> & _).
    cbn [page_of nextKey]. destruct (Dynamo.LastEvaluatedKey out) as [k|]; [|reflexivity].
    cbn [option_map]. unfold spread.
    rewrite (QueryProofs.truthy_some _ (CursorProofs.encode_key_nonempty k)). reflexivity. }
  eexists. split.
  - apply try_catch_body. unfold Api.getEventHistory. rewrite P, Q.
    rewrite (bind_step _ _ _ _ _ H).
    assert ((List.length (events page) =? 0)%nat && negb (Js.truthy (startKey query)) = false)
      as ->.
    { destruct C as [C|C].
      - destruct (events page); [contradiction | reflexivity].
      - rewrite C. apply andb_false_r. }
    reflexivity.
  - cbn [statusCode body success data message pagination paginatedResponse createResponse].
    rewrite SP. repeat split.
Qed.

End WithHost.
End ReadProofs.

(* ===================================================================== *)
(** * The schemas *)
(* ===================================================================== *)

Module ValidatorProofs.
Import Models Validators Spec Invariants RegExpFacts FormatProofs.

Lemma upper_word (c : ascii) : Char.is_upper c = true -> Char.is_alnum c = true.
Proof. unfold Char.is_alnum. intros ->. reflexivity. Qed.

Lemma digit_word (c : ascii) : Char.is_digit c = true -> Char.is_alnum c = true.
Proof. unfold Char.is_alnum. intros ->. apply orb_true_r. Qed.

Lemma upu_is_generic (id : string) : upu_shape id -> generic_shape id.
Proof.
  intros (a & b & c & E & La & Fa & Lb & Fb & Lc & Fc). unfold generic_shape.
  rewrite E, !length_app, La, Lb, Lc. split; [lia|].
  apply Forall_app; split.
  - eapply Forall_impl; [|exact Fa]. intros x H. left. apply upper_word, H.
  - apply Forall_app; split.
    + eapply Forall_impl; [|exact Fb]. intros x H. left. apply digit_word, H.
    + eapply Forall_impl; [|exact Fc]. intros x H. left. apply upper_word, H.
Qed.

Lemma prefixed_is_generic (id : string) : prefixed_shape id -> generic_shape id.
Proof.
  intros (ds & E & L & F). unfold generic_shape.
  rewrite E, length_app. cbn [List.length Js.bytes list_ascii_of_string]. split; [lia|].
  apply Forall_app; split.
  - repeat constructor.
  - constructor; [right; left; reflexivity|].
    eapply Forall_impl; [|exact F]. intros x H. left. apply digit_word, H.
Qed.

(** The first two patterns accept nothing that the third does not: the
    format predicate is the test of the generic pattern. *)
Theorem validateShipmentIdFormat_is_generic (id : string) :
  validateShipmentIdFormat id = RegExp.test PATTERN_GENERIC id.
Proof.
  unfold validateShipmentIdFormat, SHIPMENT_ID_PATTERNS. cbn [existsb].
  rewrite orb_false_r.
  destruct (RegExp.test PATTERN_GENERIC id) eqn:G; [apply orb_true_iff; right; apply orb_true_r|].
  rewrite orb_false_r.
  destruct (RegExp.test PATTERN_UPU id) eqn:U.
  - apply test_upu, upu_is_generic, test_generic in U. congruence.
  - destruct (RegExp.test PATTERN_SHIP id) eqn:S; [|reflexivity].
    apply test_ship, prefixed_is_generic, test_generic in S. congruence.
Qed.

Lemma word_is_one_unit (c : ascii) : Char.is_word c = true -> Js.units_of_byte c = 1.
Proof.
  revert c.
  assert (forall c, implb (Char.is_word c) (Js.units_of_byte c =? 1)%nat = true) as H.
  { apply by_cases. vm_compute. reflexivity. }
  intros c W. specialize (H c). rewrite W in H. apply Nat.eqb_eq. exact H.
Qed.

Lemma generic_length (id : string) :
  generic_shape id -> Js.length id = List.length (Js.bytes id).
Proof.
  intros [_ F]. unfold Js.length. induction (Js.bytes id) as [|c l IH]; [reflexivity|].
  apply Forall_cons_iff in F as [W F]. simpl.
  rewrite (word_is_one_unit c), IH by (try apply is_word_iff; assumption). reflexivity.
Qed.

(** The schema of the path parameters accepts exactly a present
    [shipmentId] of the right format; the bounds 1 and 50 on its length
    reject nothing that has the format, which takes 5 to 50 characters. *)
Theorem ShipmentEventParamsSchema_accepts (input : option params) (sid : string) :
  ShipmentEventParamsSchema input = Some sid
  <-> exists ps, input = Some ps /\ lookup ps "shipmentId" = Some sid
                 /\ validateShipmentIdFormat sid = true
                 /\ 5 <= Js.length sid <= 50.
Proof.
  unfold ShipmentEventParamsSchema. split.
  - destruct input as [ps|]; [|discriminate].
    destruct (lookup ps "shipmentId") as [s|] eqn:L; [|discriminate].
    destruct (_ && _ && validateShipmentIdFormat s) eqn:C; [|discriminate].
    intros H. injection H as <-.
    apply andb_true_iff in C as [_ V].
    exists ps. repeat split; try assumption;
      pose proof V as G; rewrite validateShipmentIdFormat_is_generic in G;
      apply test_generic in G; rewrite (generic_length _ G); destruct G; lia.
  - intros (ps & -> & -> & V & L1 & L2). rewrite V.
    unfold VALIDATION_LIMITS.SHIPMENT_ID.MIN_LENGTH, VALIDATION_LIMITS.SHIPMENT_ID.MAX_LENGTH.
    destruct (Nat.leb_spec 1 (Js.length sid)); [|lia].
    destruct (Nat.leb_spec (Js.length sid) 50); [|lia]. reflexivity.
Qed.

Lemma status_of_string_value (st : ShipmentStatus) :
  status_of_string (status_value st) = Some st.
Proof. destruct st; reflexivity. Qed.

Lemma status_of_string_Some (s : string) (st : ShipmentStatus) :
  status_of_string s = Some st <-> s = status_value st.
Proof.
  split.
  - intros H. apply find_some in H as [_ H]. apply String.eqb_eq in H. auto.
  - intros ->. apply status_of_string_value.
Qed.

Lemma optional_string_ok (ms : list (string * JSON.value)) (name msg : string) (max : nat) :
  let r := optional_string name max msg (JSON.get ms name) in
  (fst r = [] /\ field_ok ms name max (snd r))
  \/ (exists i, fst r = [i] /\ fst i = name /\ forall v, ~ field_ok ms name max v).
Proof.
  unfold optional_string, field_ok.
  destruct (JSON.get ms name) as [[| | |s| |]|] eqn:G; cbn [fst snd];
    try (right; eexists; split; [reflexivity|]; split; [reflexivity|];
         intros v [[X _]|(s & X & _)]; discriminate).
  - destruct (Nat.ltb_spec max (Js.length s)).
    + right. eexists. split; [reflexivity|]. split; [reflexivity|].
      intros v [[X _]|(s' & X & L & _)]; [discriminate|]. injection X as <-. lia.
    + left. split; [reflexivity|]. right. exists s. repeat split. lia.
  - left. split; [reflexivity|]. left. auto.
Qed.

Section WithHost.
Context {host : Host}.

(** The body schema accepts exactly the objects whose [timestamp] is a
    string passing the [datetime] check, whose [status] is the value of an
    enum member, and whose [location] and [details], when present, are
    strings of at most 200 and 500 UTF-16 units; the accepted request
    carries these fields. *)
Theorem CreateEventSchema_accepts (body : JSON.value) (request : CreateEventRequest) :
  CreateEventSchema body = inr request
  <-> exists ms,
      body = JSON.Object ms
      /\ JSON.get ms "timestamp" = Some (JSON.Str (req_timestamp request))
      /\ zod_datetime (req_timestamp request) = true
      /\ JSON.get ms "status" = Some (JSON.Str (status_value (req_status request)))
      /\ field_ok ms "location" 200 (req_location request)
      /\ field_ok ms "details" 500 (req_details request).
Proof.
  unfold CreateEventSchema.
  destruct body as [| | | |vs|ms];
    try (split; [discriminate | intros (ms & E & _); discriminate]).
  pose proof (optional_string_ok ms "location" "Location must be less than 200 characters"
                VALIDATION_LIMITS.LOCATION.MAX_LENGTH) as OL.
  pose proof (optional_string_ok ms "details" "Details must be less than 500 characters"
                VALIDATION_LIMITS.DETAILS.MAX_LENGTH) as OD.
  cbv zeta in OL, OD.
  change VALIDATION_LIMITS.LOCATION.MAX_LENGTH with 200 in *.
  change VALIDATION_LIMITS.DETAILS.MAX_LENGTH with 500 in *.
  set (loc := optional_string "location" 200 _ _) in *.
  set (det := optional_string "details" 500 _ _) in *.
  split.
  - destruct (JSON.get ms "timestamp") as [[| | |ts| |]|] eqn:GT; cbn [fst snd app];
      try discriminate.
    destruct (zod_datetime ts) eqn:Z; cbn [fst snd app]; [|discriminate].
    destruct (JSON.get ms "status") as [[| | |s| |]|] eqn:GS; cbn [fst snd app];
      try discriminate.
    destruct (status_of_string s) as [st|] eqn:SS; cbn [fst snd app]; [|discriminate].
    apply status_of_string_Some in SS. subst s.
    destruct OL as [[L1 L2]|(i & L1 & _)]; rewrite L1; cbn [app]; [|discriminate].
    destruct OD as [[D1 D2]|(i & D1 & _)]; rewrite D1; [|discriminate].
    intros H. injection H as <-. exists ms. cbn. auto 10.
  - intros (ms' & E & GT & Z & GS & FL & FD). injection E as <-.
    rewrite GT, Z, GS, status_of_string_value. cbn [fst snd app].
    destruct OL as [[L1 L2]|(i & _ & _ & N)]; [|destruct (N _ FL)].
    destruct OD as [[D1 D2]|(i & _ & _ & N)]; [|destruct (N _ FD)].
    rewrite L1, D1. cbn [app].
    assert (snd loc = req_location request) as ->.
    { destruct L2 as [[A B]|(s & A & _ & B)], FL as [[A' B']|(s' & A' & _ & B')]; congruence. }
    assert (snd det = req_details request) as ->.
    { destruct D2 as [[A B]|(s & A & _ & B)], FD as [[A' B']|(s' & A' & _ & B')]; congruence. }
    destruct request; reflexivity.
Qed.

(** A rejected object names exactly the fields that are wrong, each once:
    nothing is left out after a first error, and no field is named that is
    right. *)
Theorem CreateEventSchema_issues (ms : list (string * JSON.value)) (issues : list issue) :
  CreateEventSchema (JSON.Object ms) = inl issues ->
  issues <> []
  /\ NoDup (map fst issues)
  /\ (In "timestamp" (map fst issues) <-> ~ timestamp_ok ms)
  /\ (In "status" (map fst issues) <-> ~ status_ok ms)
  /\ (In "location" (map fst issues) <-> forall v, ~ field_ok ms "location" 200 v)
  /\ (In "details" (map fst issues) <-> forall v, ~ field_ok ms "details" 500 v).
Proof.
  unfold CreateEventSchema, timestamp_ok, status_ok.
  pose proof (optional_string_ok ms "location" "Location must be less than 200 characters"
                VALIDATION_LIMITS.LOCATION.MAX_LENGTH) as OL.
  pose proof (optional_string_ok ms "details" "Details must be less than 500 characters"
                VALIDATION_LIMITS.DETAILS.MAX_LENGTH) as OD.
  cbv zeta in OL, OD.
  change VALIDATION_LIMITS.LOCATION.MAX_LENGTH with 200 in *.
  change VALIDATION_LIMITS.DETAILS.MAX_LENGTH with 500 in *.
  set (loc := optional_string "location" 200 _ _) in *.
  set (det := optional_string "details" 500 _ _) in *.
  set (ts := match JSON.get ms "timestamp" with
             | Some (JSON.Str s) => _ | _ => _ end).
  set (st := match JSON.get ms "status" with
             | Some (JSON.Str s) => _ | _ => _ end).
  assert ((fst ts = [] /\ (exists t, snd ts = Some t) /\ timestamp_ok ms)
          \/ (exists i, fst ts = [i] /\ fst i = "timestamp" /\ ~ timestamp_ok ms)) as OT.
  { unfold ts, timestamp_ok.
    destruct (JSON.get ms "timestamp") as [[| | |s| |]|]; cbn [fst snd];
      try (right; eexists; split; [reflexivity|]; split; [reflexivity|];
           intros (t & X & _); discriminate).
    destruct (zod_datetime s) eqn:Z; cbn [fst snd].
    - left. split; [reflexivity|]. split; [eauto|]. exists s. auto.
    - right. eexists. split; [reflexivity|]. split; [reflexivity|].
      intros (t & X & Y). injection X as <-. congruence. }
  assert ((fst st = [] /\ (exists x, snd st = Some x) /\ status_ok ms)
          \/ (exists i, fst st = [i] /\ fst i = "status" /\ ~ status_ok ms)) as OS.
  { unfold st, status_ok.
    destruct (JSON.get ms "status") as [[| | |s| |]|]; cbn [fst snd];
      try (right; eexists; split; [reflexivity|]; split; [reflexivity|];
           intros (t & X); discriminate).
    destruct (status_of_string s) as [x|] eqn:SS; cbn [fst snd].
    - left. split; [reflexivity|]. split; [eauto|]. exists x.
      apply status_of_string_Some in SS. congruence.
    - right. eexists. split; [reflexivity|]. split; [reflexivity|].
      intros (x & X). injection X as ->. rewrite status_of_string_value in SS.
      discriminate. }
  unfold timestamp_ok, status_ok in *.
  clearbody ts st loc det.
  destruct OT as [(T1 & (t & T2) & T3)|(i1 & T1 & T2 & T3)];
    destruct OS as [(S1 & (x & S2) & S3)|(i2 & S1 & S2 & S3)];
    destruct OL as [(L1 & L3)|(i3 & L1 & L2 & L3)];
    destruct OD as [(D1 & D3)|(i4 & D1 & D2 & D3)];
    rewrite T1, S1, L1, D1; try rewrite T2; try rewrite S2; cbn [app];
    intros H; try discriminate H; injection H as <-;
    cbn [map]; rewrite ?T2, ?S2, ?L2, ?D2;
    (split; [discriminate|]);
    (split; [repeat constructor; cbn [In]; intuition discriminate|]);
    cbn [In]; repeat split; intros; try tauto; try (intuition discriminate);
    try (exfalso; eauto; fail); try (exfalso; eapply L3; eassumption);
    try (exfalso; eapply D3; eassumption);
    try (exfalso;
         match goal with
         | N : forall v, ~ field_ok _ ?n _ v, F : field_ok _ ?n _ _ |- _ => exact (N _ F)
         end);
    eauto.
Qed.

End WithHost.
End ValidatorProofs.

(* ===================================================================== *)
(** * The configuration *)
(* ===================================================================== *)

Module ConfigProofs.
Import Config.

Lemma getEnvValue_default (env : Env) (key d : string) :
  d <> "" ->
  let v := getEnvValue env key (Text d) in
  v <> Undefined /\ v <> Text ""
  /\ (env key = None \/ env key = Some "" -> v = Text d)
  /\ ((exists b, v = Boolean b) <-> env key = Some "true" \/ env key = Some "false").
Proof.
  intros D. unfold getEnvValue. destruct (env key) as [s|].
  - destruct (String.eqb_spec s "false") as [->|F]; cbn [orb].
    + repeat split; try discriminate.
      * intros [X|X]; discriminate.
      * intros _. right. reflexivity.
      * intros _. eexists. reflexivity.
    + destruct (String.eqb_spec s "true") as [->|T].
      * repeat split; try discriminate.
        -- intros [X|X]; discriminate.
        -- intros _. left. reflexivity.
        -- intros _. eexists. reflexivity.
      * destruct (String.eqb_spec s "") as [->|E].
        -- repeat split; try discriminate; try congruence.
           ++ intros [b X]. discriminate.
           ++ intros [X|X]; discriminate.
        -- repeat split; try discriminate; try congruence.
           ++ intros [X|X]; congruence.
           ++ intros [b X]. discriminate.
           ++ intros [X|X]; congruence.
  - repeat split; try discriminate; try congruence.
    + intros [b X]. discriminate.
    + intros [X|X]; discriminate.
Qed.

(** Whatever the environment, the region, the table name and the
    environment name of the configuration are neither undefined nor empty;
    each is its default when its variable is unset or empty, and a boolean
    instead of a string exactly when the variable is the text [true] or
    [false].  The account is undefined when its variable is unset. *)
Theorem getConfig_settings (env : Env) :
  let c := getConfig env in
  (forall field key d,
      In (field, key, d)
         [(aws_region c, "AWS_REGION", "us-east-1");
          (shipmentEventTable c, "SHIPMENT_EVENTS_TABLE", "shipment-events");
          (environment c, "ENVIRONMENT", "development")] ->
      field <> Undefined /\ field <> Text ""
      /\ (env key = None \/ env key = Some "" -> field = Text d)
      /\ ((exists b, field = Boolean b) <-> env key = Some "true" \/ env key = Some "false"))
  /\ (env "CDK_DEFAULT_ACCOUNT" = None -> aws_account c = Undefined).
Proof.
  split.
  - intros field key d [E|[E|[E|[]]]]; injection E as <- <- <-;
      apply getEnvValue_default; discriminate.
  - cbn. unfold getEnvValue. intros ->. reflexivity.
Qed.

End ConfigProofs.

(* ===================================================================== *)
(** * The answer of a write and the record written *)
(* ===================================================================== *)

Module WriteExtras.
Import Models Run Validators Response Spec.

(** The event in a 201 answer and the record written differ in identifier
    and creation time only: the answer carries the identifier drawn by the
    handler, the table the one drawn next by [createEvent], so the two are
    different events whenever the two draws differ. *)
Theorem recordEvent_answer_and_record {host : Host} (event : Api.APIGatewayProxyEvent)
        (sid : string) (request : CreateEventRequest) (w w' : World)
        (r : APIGatewayProxyResult) :
  accepted_request event sid request ->
  Api.recordEvent event w = (Return r, w') ->
  statusCode r = StatusCodes.CREATED ->
  exists returned stored,
    data (body r) = Some (OneEvent returned)
    /\ table w' = Dynamo.put stored (table w)
    /\ id returned = uuid_at (uuid_calls w)
    /\ id stored = uuid_at (S (uuid_calls w))
    /\ createdAt returned = Date_toISOString (clock_at (S (clock_reads w)))
    /\ createdAt stored = Date_toISOString (clock_at (S (S (clock_reads w))))
    /\ (shipmentId returned, timestamp returned, status returned, location returned,
        details returned)
       = (shipmentId stored, timestamp stored, status stored, location stored,
          details stored)
    /\ (uuid_at (uuid_calls w) <> uuid_at (S (uuid_calls w)) -> returned <> stored).
Proof.
  intros A H C.
  destruct (WriteProofs.recordEvent_created _ _ _ _ _ _ A H C) as (-> & -> & _).
  do 2 eexists. cbn [data body successResponse createResponse table].
  repeat split. cbn [id]. intros N E. apply N. injection E. auto.
Qed.

End WriteExtras.

(* ===================================================================== *)
(** * The general theorems at concrete requests and tables *)
(* ===================================================================== *)

Module Witnesses.
Import Models Run Service Validators Response Spec Invariants.

Ltac run := vm_compute; reflexivity.

(** The body without timestamp, with an unknown status and a number as
    location is rejected for these three fields. *)
Lemma CreateEventSchema_issues_witness :
  ~ @timestamp_ok Sample.host Cases.bad_body
  /\ ~ status_ok Cases.bad_body
  /\ (forall v, ~ field_ok Cases.bad_body "location" 200 v).
Proof.
  edestruct (@ValidatorProofs.CreateEventSchema_issues Sample.host Cases.bad_body)
    as (_ & _ & T & S & L & _); [run|].
  split; [apply T | split; [apply S | apply L]]; cbn; tauto.
Defined.

(** The table holds the event asked for: it is found and returned. *)
Lemma shippmentEventExist_sound_witness :
  exists e, In e Sample.one_event /\ status e = CREATED
            /\ timestamp e = "2025-05-01T10:00:00.000Z".
Proof.
  edestruct (@ServiceProofs.shippmentEventExist_sound
               Sample.host Sample.SHIP CREATED "2025-05-01T10:00:00.000Z"
               (Sample.start Sample.one_event))
    as (_ & F & _); [run|].
  destruct (F eq_refl) as (e & _ & I & _ & S & T). exists e. auto.
Defined.

(** Creating an event in the table of three: the new record is in the
    partition and the three others are still there. *)
Lemma createEvent_stores_returned_witness :
  exists e w',
    @createEvent Sample.host Sample.SHIP
                 (mkPartial (Some "mine") None (Some "2025-05-04T10:00:00.000Z") DELIVERED
                            None None None)
                 (Sample.start Sample.three_events) = (Return e, w')
    /\ id e = "id-0"
    /\ In e (Dynamo.partition (table w') Sample.SHIP)
    /\ unique_keys (table w').
Proof.
  do 2 eexists. split; [run|].
  edestruct (@ServiceProofs.createEvent_stores_returned
               Sample.host Sample.SHIP
               (mkPartial (Some "mine") None (Some "2025-05-04T10:00:00.000Z") DELIVERED
                          None None None)
               (Sample.start Sample.three_events))
    as (_ & I & _ & _ & _ & _ & _ & P & _ & U); [run|].
  split; [exact I|]. split; [exact P|]. apply U.
  repeat constructor; cbn; intuition discriminate.
Defined.

(** On the table of three events the service returns an event of the
    shipment. *)
Lemma getLatestEvent_result_witness :
  exists e, In e Sample.three_events /\ shipmentId e = Sample.SHIP.
Proof.
  edestruct (@ServiceProofs.getLatestEvent_result
               Sample.host Sample.SHIP (Sample.start Sample.three_events))
    as (_ & _ & S); [run|].
  destruct (S _ eq_refl) as (I & E & _). eexists. split; [exact I | exact E].
Defined.

(** A page of two out of three events. *)
Lemma getEventHistory_page_content_witness :
  exists page w',
    @getEventHistory Sample.host Sample.SHIP (Some 2%Z) None
                     (Sample.start Sample.three_events) = (Return page, w')
    /\ List.length (events page) <= 2
    /\ NoDup (events page).
Proof.
  do 2 eexists. split; [run|].
  edestruct (@PagingProofs.getEventHistory_page_content
               Sample.host Sample.SHIP (Some 2%Z) None (Sample.start Sample.three_events))
    as (_ & L & _ & N); [run|].
  split; [exact L|]. apply N. repeat constructor; cbn; intuition discriminate.
Defined.

Lemma getEventHistory_chronological_witness :
  exists page w',
    @getEventHistory Sample.host Sample.SHIP (Some 2%Z) None
                     (Sample.start Sample.three_events) = (Return page, w')
    /\ StronglySorted (@not_after Sample.host) (events page).
Proof.
  do 2 eexists. split; [run|].
  eapply (@PagingProofs.getEventHistory_chronological
            Sample.host Sample.SHIP (Some 2%Z) None (Sample.start Sample.three_events));
    [|run].
  intros e [<-|[<-|[<-|[]]]] _; unfold dated; vm_compute; discriminate.
Defined.

Lemma getEventHistory_hasMore_witness :
  exists page w',
    @getEventHistory Sample.host Sample.SHIP (Some 2%Z) None
                     (Sample.start Sample.three_events) = (Return page, w')
    /\ hasMore page = true.
Proof.
  do 2 eexists. split; [run|].
  edestruct (@PagingProofs.getEventHistory_hasMore
               Sample.host Sample.SHIP (Some 2%Z) None (Sample.start Sample.three_events))
    as (H & _); [run|].
  rewrite H. reflexivity.
Defined.

(** After the page of two, the page asked with its cursor is returned. *)
Lemma getEventHistory_next_page_witness :
  exists p2 w2,
    @getEventHistory Sample.host Sample.SHIP (Some 2%Z)
                     (Some (encode_key (Dynamo.mkKey Sample.SHIP "evt-b")))
                     (after_send (Sample.start Sample.three_events) Sample.three_events)
    = (Return p2, w2).
Proof.
  edestruct (@PagingProofs.getEventHistory_next_page
               Sample.host Sample.SHIP (Some 2%Z) None (Sample.start Sample.three_events))
    as (p2 & pre & rest & R & _).
  - repeat constructor; cbn; intuition discriminate.
  - run.
  - run.
  - reflexivity.
  - exists p2. eexists. exact R.
Defined.

End Witnesses.

Module HandlerWitnesses.
Import Models Run Service Validators Response Spec Invariants.

Ltac run := vm_compute; reflexivity.

Lemma accepted_created :
  @accepted_request Sample.host Sample.write_created Sample.SHIP Cases.created.
Proof. unfold accepted_request. repeat split; run. Defined.

(** The sample write reaches the store, so it passed the validation. *)
Lemma recordEvent_validates_first_witness :
  exists sid request, @accepted_request Sample.host Sample.write_created sid request.
Proof.
  edestruct (@HandlerProofs.recordEvent_validates_first
               Sample.host Sample.write_created (Sample.start []))
    as (sid & request & A & _).
  - run.
  - left. vm_compute. discriminate.
  - exists sid, request. exact A.
Defined.

(** With the table missing the sample write is answered 500. *)
Lemma recordEvent_store_failure_witness :
  fst (@Api.recordEvent (Cases.failing "ResourceNotFoundException")
                        Sample.write_created (Sample.start []))
  = Return (errorResponse "Internal server error occurred while creating event"
                          StatusCodes.INTERNAL_SERVER_ERROR).
Proof.
  edestruct (@HandlerProofs.recordEvent_store_failure
               (Cases.failing "ResourceNotFoundException")
               Sample.write_created Sample.SHIP Cases.created (Sample.start [])
               "ResourceNotFoundException")
    as (r & w' & R & _ & _ & _ & E).
  - unfold accepted_request. repeat split; run.
  - run.
  - reflexivity.
  - rewrite R. cbn [fst]. rewrite E; [reflexivity | discriminate | discriminate].
Defined.

(** With the table missing the latest event is answered 503. *)
Lemma getLatestEvent_store_failure_witness :
  fst (@Api.getLatestEvent (Cases.failing "ResourceNotFoundException")
                           Sample.latest (Sample.start []))
  = Return (errorResponse "Events table not found" StatusCodes.SERVICE_UNAVAILABLE).
Proof.
  edestruct (@ReadProofs.getLatestEvent_store_failure
               (Cases.failing "ResourceNotFoundException")
               Sample.latest Sample.SHIP (Sample.start []) "ResourceNotFoundException")
    as (r & R & E & _).
  - run.
  - reflexivity.
  - rewrite R. cbn [fst]. rewrite E; reflexivity.
Defined.

(** The start key [!!!!] holds no base64 character and decodes to the
    empty text. *)
Lemma getEventHistory_undecodable_startKey_witness :
  @Api.getEventHistory Sample.host Cases.history_garbage (Sample.start [])
  = (Return (errorResponse "Internal server error occurred while retrieving event history"
                           StatusCodes.INTERNAL_SERVER_ERROR), Sample.start []).
Proof.
  apply (@ReadProofs.getEventHistory_undecodable_startKey
           Sample.host Cases.history_garbage Sample.SHIP (mkQuery 50 (Some "!!!!")) "!!!!").
  - run.
  - run.
  - reflexivity.
  - discriminate.
  - run.
Defined.

(** Two of three events: 200 with [hasMore]. *)
Lemma getEventHistory_page_response_witness :
  exists r,
    fst (@Api.getEventHistory Sample.host Cases.history_two
                              (Sample.start Sample.three_events)) = Return r
    /\ statusCode r = StatusCodes.OK
    /\ message (body r) = Some "Retrieved 2 events for shipment SHIP-100000".
Proof.
  edestruct (fun page =>
               @ReadProofs.getEventHistory_page_response
                 Sample.host Cases.history_two Sample.SHIP (mkQuery 2 None)
                 page (Sample.start Sample.three_events))
    as (r & R & S & _ & _ & M & _).
  - run.
  - run.
  - vm_compute. reflexivity.
  - left. cbn. discriminate.
  - exists r. rewrite R. split; [reflexivity|]. split; [exact S|]. rewrite M. run.
Defined.

(** The answer of the sample write carries [id-0], the table [id-1]. *)
Lemma recordEvent_answer_and_record_witness :
  exists returned stored w',
    table w' = Dynamo.put stored [] /\ id returned = "id-0" /\ id stored = "id-1"
    /\ returned <> stored.
Proof.
  edestruct (@WriteExtras.recordEvent_answer_and_record
               Sample.host Sample.write_created Sample.SHIP Cases.created (Sample.start []))
    as (returned & stored & _ & T & I1 & I2 & _ & _ & _ & N).
  - exact accepted_created.
  - run.
  - reflexivity.
  - exists returned, stored. eexists. split; [exact T|].
    split; [exact I1|]. split; [exact I2|]. apply N. vm_compute. discriminate.
Defined.

(** On the table with an earlier event of another status the sample write
    is not taken for a duplicate and is written. *)
Lemma recordEvent_first_item_decides_witness :
  exists r stored w',
    @Api.recordEvent Sample.host Sample.write_created (Sample.start Sample.earlier)
    = (Return r, w')
    /\ statusCode r = StatusCodes.CREATED
    /\ table w' = Dynamo.put stored Sample.earlier.
Proof.
  edestruct (@Defects.recordEvent_first_item_decides
               Sample.host Sample.write_created Sample.SHIP Cases.created
               (Sample.start Sample.earlier)
               (Sample.event "0-first" "2025-05-01T10:00:00.000Z" PICKED_UP) [])
    as (_ & W).
  - exact accepted_created.
  - run.
  - reflexivity.
  - run.
  - destruct W as (r & stored & w' & R & S & T & _); [reflexivity | reflexivity |].
    exists r, stored, w'. auto.
Defined.

(** The latest event of a shipment without events: 404. *)
Lemma getLatestEvent_no_events_is_404_witness :
  @Api.getLatestEvent Sample.host Sample.latest (Sample.start [])
  = (Return (errorResponse "No events found for shipment SHIP-100000"
                           StatusCodes.NOT_FOUND),
     after_send (Sample.start []) []).
Proof.
  apply (@Defects.getLatestEvent_no_events_is_404
           Sample.host Sample.latest Sample.SHIP (Sample.start [])); run.
Defined.

End HandlerWitnesses.
